(** * MaStR registry tools: a shallow embedding of the fetch, retry, batch,
    filter and merge code, and the properties of its specification.

    Modelling conventions.
    - A Python [str] is a Rocq [string] (its UTF-8 bytes); [x in s] is
      substring search.
    - A Python [dict] is an insertion-ordered association list: assignment
      replaces the value of a present key in place and appends an absent one.
    - A Python [float] is an exact rational ([Q]); rounding, infinities and NaN
      are outside the model.  Sleep durations are seconds in [Q].
    - The remote registry is a state-passing oracle over an abstract world;
      every remote call and every [time.sleep] is recorded in an event log.
    - An exception is the text of its message; [KeyboardInterrupt] and the
      other exceptions that are no [Exception] are outside the model.
    - Python builtins whose text is not part of the repository ([str()] of a
      value that is no string, [str.lower], [str.strip], [float()] of a
      string) are the operations of the class [Builtins].
    - Logging is left out. *)

From Stdlib Require Import List String Ascii Bool ZArith QArith Qminmax Lia Arith.
From Stdlib Require Import DecimalString Sorted.
Import ListNotations.
Local Close Scope Q_scope.
Local Open Scope string_scope.
Local Open Scope list_scope.

Set Warnings "-register-all".

(** * Part I: the model *)

(** ** Python strings *)

Module PyStr.

(** [needle in hay]. *)
Fixpoint contains (needle hay : string) : bool :=
  String.prefix needle hay ||
  match hay with
  | EmptyString => false
  | String _ rest => contains needle rest
  end.

(** [s.startswith(p)]. *)
Definition startswith (p s : string) : bool := String.prefix p s.

(** [bool(s)]. *)
Definition nonempty (s : string) : bool :=
  match s with EmptyString => false | _ => true end.

(** The decimal text of a loop index, as an f-string prints it. *)
Definition of_nat (n : nat) : string :=
  NilEmpty.string_of_uint (Nat.to_uint n).

(** [sep.join(parts)]. *)
Definition join (sep : string) (parts : list string) : string :=
  String.concat sep parts.

End PyStr.

(** ** Python dictionaries *)

Module PyDict.

Section Defs.
Context {V : Type}.

Definition keys (d : list (string * V)) : list string := map fst d.

Definition values (d : list (string * V)) : list V := map snd d.

(** [d.get(k)]. *)
Fixpoint get (d : list (string * V)) (k : string) : option V :=
  match d with
  | [] => None
  | (k', v) :: rest => if String.eqb k' k then Some v else get rest k
  end.

(** [k in d]. *)
Definition mem (d : list (string * V)) (k : string) : bool :=
  match get d k with Some _ => true | None => false end.

(** [d[k] = v]. *)
Fixpoint set (d : list (string * V)) (k : string) (v : V) : list (string * V) :=
  match d with
  | [] => [(k, v)]
  | (k', v') :: rest =>
      if String.eqb k' k then (k', v) :: rest else (k', v') :: set rest k v
  end.

(** [d.update(items)]. *)
Definition update (d items : list (string * V)) : list (string * V) :=
  fold_left (fun acc kv => set acc (fst kv) (snd kv)) items d.

(** [dict(items)]. *)
Definition of_items (items : list (string * V)) : list (string * V) :=
  update [] items.

End Defs.

End PyDict.

(** ** Values *)

(** A Python float: a finite double, given by its exact value, an infinity
    or NaN. *)
Inductive Float : Type :=
| Finite (q : Q)
| Infinity (negative : bool)
| NaN.

(** [bool(x)] for a float: only zero is false. *)
Definition float_truthy (x : Float) : bool :=
  match x with
  | Finite q => negb (Qeq_bool q 0)
  | _ => true
  end.

(** [x <= y] for a float [x] and a finite [y]: false when [x] is NaN. *)
Definition float_le (x : Float) (y : Q) : bool :=
  match x with
  | Finite q => Qle_bool q y
  | Infinity negative => negative
  | NaN => false
  end.

(** The double nearest to an int, ties to the even mantissa of 53 bits. *)
Definition nearest_double (z : Z) : Z :=
  let a := Z.abs z in
  let shift := (Z.log2 a - 52)%Z in
  if (shift <=? 0)%Z then z
  else
    let q := Z.shiftr a shift in
    let rest := (a - Z.shiftl q shift)%Z in
    let half := Z.shiftl 1 (shift - 1) in
    let q := if (half <? rest)%Z || ((rest =? half)%Z && Z.odd q)
             then (q + 1)%Z else q in
    (Z.sgn z * Z.shiftl q shift)%Z.

(** [float(z)] for an int: [None] when it raises [OverflowError], which it
    does when the nearest double would be 2**1024 or beyond. *)
Definition float_of_int (z : Z) : option Float :=
  let r := nearest_double z in
  if (2 ^ 1024 <=? Z.abs r)%Z then None else Some (Finite (inject_Z r)).

(** The tree that [zeep_to_dict] returns: what [json.dumps] can write. *)
Inductive Tree : Type :=
| TNone
| TBool (b : bool)
| TInt (z : Z)
| TFloat (x : Float)
| TStr (s : string)
| TList (items : list Tree)
| TDict (fields : list (string * Tree)).

Definition Dict : Type := list (string * Tree).

(** [v is None]. *)
Definition is_none (v : Tree) : bool :=
  match v with TNone => true | _ => false end.

(** [bool(v)]. *)
Definition truthy (v : Tree) : bool :=
  match v with
  | TNone => false
  | TBool b => b
  | TInt z => negb (Z.eqb z 0)
  | TFloat x => float_truthy x
  | TStr s => PyStr.nonempty s
  | TList l => match l with [] => false | _ => true end
  | TDict d => match d with [] => false | _ => true end
  end.

(** [a or b]. *)
Definition py_or (a b : Tree) : Tree := if truthy a then a else b.

(** [v1 or v2 or ... or vn]: the first truthy operand, the last one when
    none is truthy. *)
Fixpoint py_or_chain (vs : list Tree) : Tree :=
  match vs with
  | [] => TNone
  | [v] => v
  | v :: rest => py_or v (py_or_chain rest)
  end.

(** The builtins the code calls: [str(v)] for a value that is no string,
    [s.lower()], [s.strip()], and [float(s)] for a string ([None] when it
    raises [ValueError]). *)
Class Builtins : Type := {
  py_repr : Tree -> string;
  str_lower : string -> string;
  str_strip : string -> string;
  float_of_str : string -> option Float
}.

(** [str(v)]. *)
Definition py_str {B : Builtins} (v : Tree) : string :=
  match v with
  | TStr s => s
  | _ => py_repr v
  end.

(** What [getattr(obj, name)] does for one name that [dir(obj)] lists. *)
Inductive Attr (A : Type) : Type :=
| AttrRaises (msg : string)
| AttrValue (v : A).
Arguments AttrRaises {A} msg.
Arguments AttrValue {A} v.

(** What [obj.isoformat] is: absent (or not callable), a method returning
    text, or a method that raises. *)
Inductive IsoFormat : Type :=
| NoIsoFormat
| IsoReturns (text : string)
| IsoRaises.

(** A value as the SOAP library hands it over.  An instance carries what the
    normalizer inspects: [isoformat], whether it has one of [__keylist__],
    [__values__], [__dict__], whether it is callable, the names of [dir(obj)]
    with what [getattr] does for each, and [str(obj)]. *)
Inductive PyObj : Type :=
| PyNone
| PyBool (b : bool)
| PyInt (z : Z)
| PyFloat (x : Float)
| PyStr (s : string)
| PySeq (items : list PyObj)
| PyInst (iso : IsoFormat) (has_fields is_callable : bool)
         (attrs : list (string * Attr PyObj)) (text : string).

(** [obj is None]. *)
Definition obj_is_none (obj : PyObj) : bool :=
  match obj with PyNone => true | _ => false end.

(** [callable(v)]. *)
Definition callable (v : PyObj) : bool :=
  match v with
  | PyInst _ _ c _ _ => c
  | _ => false
  end.

(** [getattr(obj, name, None)]: the attribute, [None] when the object has no
    such attribute, or the exception the attribute's getter raises.  Only
    instances carry the attributes the code asks for. *)
Definition py_getattr (obj : PyObj) (name : string) : Attr PyObj :=
  match obj with
  | PyInst _ _ _ attrs _ =>
      match PyDict.get attrs name with
      | Some a => a
      | None => AttrValue PyNone
      end
  | _ => AttrValue PyNone
  end.

(** A property of the value an attribute holds, when it holds one. *)
Definition attr_holds {A} (P : A -> Prop) (a : Attr A) : Prop :=
  match a with
  | AttrRaises _ => True
  | AttrValue v => P v
  end.

(** ** The response normalizer (master_fetch.py) *)

(** [v is not None and v != {} and v != []]. *)
Definition not_empty_artifact (v : Tree) : bool :=
  match v with
  | TNone => false
  | TDict [] => false
  | TList [] => false
  | _ => true
  end.

(** [k in ("_xsd_type", "_value_1")]. *)
Definition internal_name (k : string) : bool :=
  String.eqb k "_xsd_type" || String.eqb k "_value_1".

Section Fields.
Variable convert : PyObj -> Tree.

(** The loop [for k in dir(obj)] of [zeep_to_dict], filling [d]. *)
Fixpoint collect_fields (names : list (string * Attr PyObj)) (d : Dict) : Dict :=
  match names with
  | [] => d
  | (k, a) :: rest =>
      if PyStr.startswith "_" k then collect_fields rest d else
      match a with
      | AttrRaises _ => collect_fields rest d
      | AttrValue v =>
          if callable v then collect_fields rest d else
          if internal_name k then collect_fields rest d else
          collect_fields rest (PyDict.set d k (convert v))
      end
  end.

End Fields.

(** [zeep_to_dict]. *)
Fixpoint zeep_to_dict (obj : PyObj) : Tree :=
  match obj with
  | PyNone => TNone
  | PySeq items => TList (map zeep_to_dict items)
  | PyStr s => TStr s
  | PyInt z => TInt z
  | PyFloat x => TFloat x
  | PyBool b => TBool b
  | PyInst iso has_fields _ attrs text =>
      match iso with
      | IsoReturns s => TStr s
      | _ =>
          if has_fields
          then TDict (filter (fun kv => not_empty_artifact (snd kv))
                             (collect_fields zeep_to_dict attrs []))
          else TStr text
      end
  end.

(** Every mapping of the tree is free of null and empty values. *)
Fixpoint pruned (t : Tree) : bool :=
  match t with
  | TList items => forallb pruned items
  | TDict fields =>
      forallb (fun kv => not_empty_artifact (snd kv) && pruned (snd kv)) fields
  | _ => true
  end.

(** [t] occurs in a tree: the tree itself, an item of a sequence in it, or a
    value of a mapping in it. *)
Inductive occurs_in (t : Tree) : Tree -> Prop :=
| occurs_here : occurs_in t t
| occurs_item x items : In x items -> occurs_in t x -> occurs_in t (TList items)
| occurs_field k v fields :
    In (k, v) fields -> occurs_in t v -> occurs_in t (TDict fields).

(** ** The remote registry *)

(** What a call of a SOAP operation does: it returns, raises
    [zeep.exceptions.Fault] or raises another [Exception]; [msg] is [str()]
    of the exception. *)
Inductive Reply (A : Type) : Type :=
| Returns (resp : A)
| RaisesFault (msg : string)
| RaisesException (msg : string).
Arguments Returns {A} resp.
Arguments RaisesFault {A} msg.
Arguments RaisesException {A} msg.

(** The operations the code calls, with the arguments that vary (the API key
    and the caller's number are fixed at construction). *)
Inductive Request : Type :=
| ReqGetMarktakteur (keyword : string) (number : Tree)
| ReqGetGefilterteListeMarktakteure (startAb limit : Z) (datumAb : option string)
                                    (role : string)
| ReqGetListeAlleEinheiten (startAb limit : Z) (datumAb : option string).

Inductive Event : Type :=
| Called (r : Request)
| Slept (seconds : Q).

(** The result of a computation that may raise. *)
Inductive Result (A : Type) : Type :=
| Ok (a : A)
| Raise (msg : string).
Arguments Ok {A} a.
Arguments Raise {A} msg.

(** [MastrClient]'s two service ports over a world [W].  [GetMarktakteur]
    answers with any value; the listing operations answer with the listing
    attribute of the response ([Marktakteure], [Einheiten]): a list or
    [None]. *)
Record MastrClient (W : Type) : Type := {
  GetMarktakteur : string -> Tree -> W -> Reply PyObj * W;
  GetGefilterteListeMarktakteure :
    Z -> Z -> option string -> string -> W -> Reply (option (list PyObj)) * W;
  GetListeAlleEinheiten :
    Z -> Z -> option string -> W -> Reply (option (list PyObj)) * W
}.
Arguments GetMarktakteur {W} _ _ _ _.
Arguments GetGefilterteListeMarktakteure {W} _ _ _ _ _ _.
Arguments GetListeAlleEinheiten {W} _ _ _ _ _.

Record State (W : Type) : Type := {
  world : W;
  log : list Event
}.
Arguments world {W} _.
Arguments log {W} _.
Arguments Build_State {W} _ _.

Definition record {W} (e : Event) (st : State W) : State W :=
  {| world := world st; log := log st ++ [e] |}.

(** The calls among the events. *)
Definition requests (evs : list Event) : list Request :=
  flat_map (fun e => match e with Called r => [r] | Slept _ => [] end) evs.

(** The sleeps among the events. *)
Definition sleeps (evs : list Event) : list Q :=
  flat_map (fun e => match e with Called _ => [] | Slept s => [s] end) evs.

Definition Qsum (l : list Q) : Q := fold_right Qplus 0%Q l.

Section Client.
Context {W : Type}.
Variable client : MastrClient W.

(** [client.service_akteur.GetMarktakteur(..., keyword=number)]. *)
Definition call_GetMarktakteur (keyword : string) (number : Tree) (st : State W)
  : Reply PyObj * State W :=
  let st1 := record (Called (ReqGetMarktakteur keyword number)) st in
  let '(reply, w) := GetMarktakteur client keyword number (world st1) in
  (reply, {| world := w; log := log st1 |}).

(** [time.sleep(seconds)] for a duration that is not negative. *)
Definition sleep (seconds : Q) (st : State W) : State W :=
  record (Slept seconds) st.

(** ** The retry engine (fetch_anlagenbetreiber.py and fetch_marktakteur.py,
    the same text in both) *)

(** The triple [(mastr_nummer, data_dict, error_message)]. *)
Definition Outcome : Type := string * Tree * option string.

(** [msg] names the not-found faults. *)
Definition is_not_found (msg : string) : bool :=
  PyStr.contains "MarktakteurNichtGefunden" msg ||
  PyStr.contains "MarktakteurUnbekannt" msg.

(** [msg] names the rate-limit faults. *)
Definition is_rate_limited (msg : string) : bool :=
  PyStr.contains "ToManyRequests" msg || PyStr.contains "429" msg.

(** [len(data)], which the message of the success branch holds, raises
    [TypeError] for a number or a truth value: the text of the exception. *)
Definition len_error (data : Tree) : option string :=
  match data with
  | TBool _ => Some "object of type 'bool' has no len()"
  | TInt _ => Some "object of type 'int' has no len()"
  | TFloat _ => Some "object of type 'float' has no len()"
  | _ => None
  end.

(** How one pass of the [for attempt in range(max_retries)] body ends. *)
Inductive Pass : Type :=
| Return (o : Outcome)
| Continue (delay : Q).

(** One pass: the [try] with its two [except] clauses. *)
Definition attempt (target : string) (delay : Q) (st : State W) : Pass * State W :=
  let '(reply, st1) := call_GetMarktakteur "mastrNummer" (TStr target) st in
  match reply with
  | Returns resp =>
      match py_getattr resp "Marktakteur" with
      | AttrRaises msg => (Return (target, TNone, Some ("exception:" ++ msg)%string), st1)
      | AttrValue found =>
          let obj := if obj_is_none found then resp else found in
          let data := if obj_is_none obj then TNone else zeep_to_dict obj in
          if truthy data then
            match len_error data with
            | Some msg => (Return (target, TNone, Some ("exception:" ++ msg)%string), st1)
            | None => (Return (target, data, None), st1)
            end
          else (Return (target, data, None), st1)
      end
  | RaisesFault msg =>
      if is_not_found msg then (Return (target, TNone, Some "not_found"), st1)
      else if is_rate_limited msg
      then (Continue (Qmin (delay * 2) 10.0), sleep delay st1)
      else (Return (target, TNone, Some ("fault:" ++ msg)%string), st1)
  | RaisesException msg =>
      (Return (target, TNone, Some ("exception:" ++ msg)%string), st1)
  end.

(** The [for] loop with [attempts] passes left. *)
Fixpoint retry_loop (attempts : nat) (target : string) (delay : Q) (st : State W)
  : Outcome * State W :=
  match attempts with
  | O => ((target, TNone, Some "retry_exhausted"), st)
  | S n =>
      match attempt target delay st with
      | (Return o, st1) => (o, st1)
      | (Continue delay1, st1) => retry_loop n target delay1 st1
      end
  end.

(** [fetch_marktakteur_with_retry(client, target_mastr_nummer, max_retries)]. *)
Definition fetch_marktakteur_with_retry (target : string) (max_retries : Z)
  (st : State W) : Outcome * State W :=
  retry_loop (Z.to_nat max_retries) target 0.2 st.

End Client.

Definition default_max_retries : Z := 6.

(** ** The batch orchestrator (fetch_anlagenbetreiber.py and
    fetch_marktakteur.py, the same but for logging) *)

(** The value [{"data": data, "error": err}] of the result map. *)
Record FetchResult : Type := {
  data : Tree;
  error : option string
}.

(** A submitted call of [fetch_marktakteur_with_retry]: inside its loop with
    [attempts] passes left, or returned. *)
Inductive Future : Type :=
| Running (target : string) (attempts : nat) (delay : Q)
| Finished (o : Outcome).

Definition is_running (f : Future) : bool :=
  match f with Running _ _ _ => true | Finished _ => false end.

(** The identifier the call was submitted with, or returned. *)
Definition future_target (f : Future) : string :=
  match f with
  | Running target _ _ => target
  | Finished o => fst (fst o)
  end.

(** The passes a call may still take, its return included. *)
Definition future_weight (f : Future) : nat :=
  match f with
  | Running _ n _ => S n
  | Finished _ => O
  end.

Definition pool_weight (fs : list Future) : nat := list_sum (map future_weight fs).

Section Pool.
Context {W : Type}.
Variable client : MastrClient W.

(** A worker thread advances its call by one pass of the loop. *)
Definition future_step (f : Future) (st : State W) : Future * State W :=
  match f with
  | Finished _ => (f, st)
  | Running target O _ => (Finished (target, TNone, Some "retry_exhausted"), st)
  | Running target (S n) delay =>
      match attempt client target delay st with
      | (Return o, st1) => (Finished o, st1)
      | (Continue delay1, st1) => (Running target n delay1, st1)
      end
  end.

(** A call that no other call interleaves with, for [k] passes. *)
Fixpoint run_alone (k : nat) (f : Future) (st : State W) : Future * State W :=
  match k with
  | O => (f, st)
  | S k1 => let '(f1, st1) := future_step f st in run_alone k1 f1 st1
  end.

(** The positions of the calls that have not returned, from position [i]. *)
Fixpoint running_indices (i : nat) (fs : list Future) : list nat :=
  match fs with
  | [] => []
  | f :: rest =>
      if is_running f then i :: running_indices (S i) rest
      else running_indices (S i) rest
  end.

(** The call at position [i] advances; a call that returns is handed to
    [as_completed]. *)
Fixpoint step_at (i : nat) (fs : list Future) (st : State W)
  : list Future * list Outcome * State W :=
  match fs with
  | [] => ([], [], st)
  | f :: rest =>
      match i with
      | O =>
          let '(f1, st1) := future_step f st in
          (f1 :: rest,
           match f1 with
           | Finished o => if is_running f then [o] else []
           | Running _ _ _ => []
           end,
           st1)
      | S j =>
          let '(rest1, done, st1) := step_at j rest st in
          (f :: rest1, done, st1)
      end
  end.

(** [ThreadPoolExecutor(max_workers=width)]: the threads hold the first
    [width] calls that have not returned, in submission order; [sched] picks
    which of them advances at each tick.  Runs until every call returned or
    [fuel] ticks passed. *)
Fixpoint run_pool (fuel : nat) (sched : nat -> nat) (tick width : nat)
  (fs : list Future) (completed : list Outcome) (st : State W)
  : list Future * list Outcome * State W :=
  match fuel with
  | O => (fs, completed, st)
  | S fuel1 =>
      match firstn width (running_indices 0 fs) with
      | [] => (fs, completed, st)
      | (i0 :: _) as active =>
          let i := nth (sched tick mod List.length active) active i0 in
          let '(fs1, done, st1) := step_at i fs st in
          run_pool fuel1 sched (S tick) width fs1 (completed ++ done) st1
      end
  end.

(** [results[mastr_num] = {"data": data, "error": err}] for each completed
    future, in completion order. *)
Definition collect_results (completed : list Outcome) : list (string * FetchResult) :=
  fold_left
    (fun results (o : Outcome) =>
       let '(mastr_num, d, err) := o in
       PyDict.set results mastr_num {| data := d; error := err |})
    completed [].

(** [batch_fetch_marktakteure(client, mastr_nums, max_workers)].  The executor
    refuses a pool without threads; every call runs the retry loop with its
    default [max_retries].  The ticks allowed are enough for every call to
    return ([run_pool_finishes]). *)
Definition batch_fetch_marktakteure (sched : nat -> nat) (mastr_nums : list string)
  (max_workers : Z) (st : State W)
  : Result (list (string * FetchResult)) * State W :=
  if (max_workers <=? 0)%Z
  then (Raise "max_workers must be greater than 0", st)
  else
    let attempts := Z.to_nat default_max_retries in
    let futures := map (fun n => Running n attempts 0.2) mastr_nums in
    let fuel := (List.length mastr_nums * S attempts)%nat in
    let '(_, completed, st1) :=
      run_pool fuel sched 0 (Z.to_nat max_workers) futures [] st in
    (Ok (collect_results completed), st1).

End Pool.

(** ** Pagination (master_fetch.py) *)

(** How the consumption of a generator ends: it is exhausted, it raises, or
    the model's fuel ran out while it was still running. *)
Inductive Ending : Type :=
| Exhausted
| Raised (msg : string)
| Unfinished.

Section Paging.
Context {W : Type}.
Variable client : MastrClient W.

Definition call_GetGefilterteListeMarktakteure (role : string) (limit : Z)
  (datumAb : option string) (startAb : Z) (st : State W)
  : Reply (option (list PyObj)) * State W :=
  let st1 := record (Called (ReqGetGefilterteListeMarktakteure startAb limit datumAb role)) st in
  let '(reply, w) :=
    GetGefilterteListeMarktakteure client startAb limit datumAb role (world st1) in
  (reply, {| world := w; log := log st1 |}).

Definition call_GetListeAlleEinheiten (limit : Z) (datumAb : option string)
  (startAb : Z) (st : State W) : Reply (option (list PyObj)) * State W :=
  let st1 := record (Called (ReqGetListeAlleEinheiten startAb limit datumAb)) st in
  let '(reply, w) := GetListeAlleEinheiten client startAb limit datumAb (world st1) in
  (reply, {| world := w; log := log st1 |}).

Definition yield_first (items : list Tree) (r : list Tree * Ending * State W)
  : list Tree * Ending * State W :=
  let '(more, e, st) := r in (items ++ more, e, st).

Section Loop.
Variable fetch : Z -> State W -> Reply (option (list PyObj)) * State W.
Variable fault_prefix : string.

(** The [while True] loop that both iterators are written with: [fetch] is
    the remote call for an offset.  The result is everything the generator
    yields when it is consumed to its end.  [time.sleep] refuses a negative
    duration. *)
Fixpoint page_loop (fuel : nat) (limit start : Z) (sleep_s : Q) (st : State W)
  : list Tree * Ending * State W :=
  match fuel with
  | O => ([], Unfinished, st)
  | S fuel1 =>
      let '(reply, st1) := fetch start st in
      match reply with
      | RaisesFault msg => ([], Raised (fault_prefix ++ msg)%string, st1)
      | RaisesException msg => ([], Raised msg, st1)
      | Returns listing =>
          let items := match listing with Some l => l | None => [] end in
          let yielded := map zeep_to_dict items in
          if (Z.of_nat (List.length items) <? limit)%Z then (yielded, Exhausted, st1)
          else if Qeq_bool sleep_s 0
          then yield_first yielded (page_loop fuel1 limit (start + limit)%Z sleep_s st1)
          else if Qle_bool 0 sleep_s
          then yield_first yielded
                 (page_loop fuel1 limit (start + limit)%Z sleep_s (sleep sleep_s st1))
          else (yielded, Raised "sleep length must be non-negative", st1)
      end
  end.

End Loop.

(** [MastrClient.iter_marktakteure_by_role(role_code, limit, datum_ab_iso,
    sleep_s)]. *)
Definition iter_marktakteure_by_role (fuel : nat) (role_code : string) (limit : Z)
  (datum_ab_iso : option string) (sleep_s : Q) (st : State W)
  : list Tree * Ending * State W :=
  page_loop (call_GetGefilterteListeMarktakteure role_code limit datum_ab_iso)
            "SOAP Fault GetGefilterteListeMarktakteure: "
            fuel limit 0 sleep_s st.

(** [MastrClient.iter_einheiten(limit, datum_ab_iso, sleep_s)]. *)
Definition iter_einheiten (fuel : nat) (limit : Z) (datum_ab_iso : option string)
  (sleep_s : Q) (st : State W) : list Tree * Ending * State W :=
  page_loop (call_GetListeAlleEinheiten limit datum_ab_iso)
            "SOAP Fault GetListeAlleEinheiten: "
            fuel limit 0 sleep_s st.

(** The remote calls [fetch start], [fetch (start + limit)], ... from [st]
    return the pages [pages] in this order (with the pause between two
    calls). *)
Fixpoint serves (fetch : Z -> State W -> Reply (option (list PyObj)) * State W)
  (limit start : Z) (sleep_s : Q) (st : State W) (pages : list (list PyObj)) : Prop :=
  match pages with
  | [] => True
  | page :: rest =>
      exists listing st1,
        fetch start st = (Returns listing, st1) /\
        match listing with Some l => l | None => [] end = page /\
        serves fetch limit (start + limit)%Z sleep_s
               (if Qeq_bool sleep_s 0 then st1 else sleep sleep_s st1) rest
  end.

(** [MastrClient.get_marktakteur_details(marktakteur_mastr_nummer)]. *)
Definition get_marktakteur_details (number : Tree) (st : State W)
  : Result Tree * State W :=
  let '(reply, st1) := call_GetMarktakteur client "marktakteurMastrNummerId" number st in
  match reply with
  | RaisesFault msg => (Raise ("SOAP Fault GetMarktakteur: " ++ msg)%string, st1)
  | RaisesException msg => (Raise msg, st1)
  | Returns resp =>
      match py_getattr resp "Marktakteur" with
      | AttrRaises msg => (Raise msg, st1)
      | AttrValue obj =>
          (Ok (if obj_is_none obj then TDict [] else zeep_to_dict obj), st1)
      end
  end.

End Paging.

(** ** The filter (fetch_filtered_storage.py) *)

(** [get_nested_value(data, *keys)]. *)
Fixpoint get_nested_value (current : Tree) (keys : list string) : Tree :=
  match keys with
  | [] => current
  | key :: rest =>
      match current with
      | TDict d =>
          match PyDict.get d key with
          | None => TNone
          | Some TNone => TNone
          | Some v => get_nested_value v rest
          end
      | _ => TNone
      end
  end.

(** The aliases of the power rating, in the order the code tries them: over
    the detail record, then over the summary record. *)
Definition bruttoleistung_aliases (details einheit : Dict) : list Tree :=
  [ get_nested_value (TDict details) ["Bruttoleistung"];
    get_nested_value (TDict details) ["EinheitStromSpeicher"; "Bruttoleistung"];
    get_nested_value (TDict details) ["BruttoleistungEinheit"];
    get_nested_value (TDict details) ["BruttoLeistung"];
    get_nested_value (TDict einheit) ["Bruttoleistung"];
    get_nested_value (TDict einheit) ["Leistung"] ].

(** How [float(v) if isinstance(v, (int, float, str)) else None] ends. *)
Inductive Conversion : Type :=
| Converted (power_kw : option Float)
| RaisesValueError
| RaisesOverflowError.

Section Filter.
Context {B : Builtins}.

(** The local [technologie]. *)
Definition technologie (details : Dict) : Tree :=
  py_or_chain
    [ get_nested_value (TDict details) ["TechnologieDerStromspeicherung"];
      get_nested_value (TDict details) ["EinheitStromSpeicher"; "TechnologieDerStromspeicherung"];
      get_nested_value (TDict details) ["Technologie"];
      get_nested_value (TDict details) ["Speichertechnologie"] ].

(** Criterion 1 does not return [False]. *)
Definition technologie_ok (details : Dict) : bool :=
  truthy (technologie details) &&
  PyStr.contains "Batterie" (py_str (technologie details)).

(** The local [batterietechnologie]. *)
Definition batterietechnologie (details : Dict) : Tree :=
  py_or_chain
    [ get_nested_value (TDict details) ["Batterietechnologie"];
      get_nested_value (TDict details) ["EinheitStromSpeicher"; "Batterietechnologie"];
      get_nested_value (TDict details) ["BatterieTechnologie"];
      get_nested_value (TDict details) ["BatterieTechnologieEnum"] ].

(** Criterion 2 does not return [False]. *)
Definition batterietechnologie_ok (details : Dict) : bool :=
  let b := batterietechnologie details in
  let batterie_str := if truthy b then py_str b else "" in
  truthy b &&
  (PyStr.contains "Lithium-Ionen" batterie_str ||
   PyStr.contains "LithiumIonen" batterie_str ||
   PyStr.contains "Lithium" batterie_str).

(** The local [bruttoleistung]. *)
Definition bruttoleistung (details einheit : Dict) : Tree :=
  py_or_chain (bruttoleistung_aliases details einheit).

(** [float(v) if isinstance(v, (int, float, str)) else None]: the local
    [power_kw]; a string that [float] refuses raises [ValueError], an int
    beyond the doubles raises [OverflowError]. *)
Definition power_kw (v : Tree) : Conversion :=
  match v with
  | TBool b => Converted (Some (Finite (if b then 1 else 0)%Q))
  | TInt z =>
      match float_of_int z with
      | Some x => Converted (Some x)
      | None => RaisesOverflowError
      end
  | TFloat x => Converted (Some x)
  | TStr s =>
      match float_of_str s with
      | Some x => Converted (Some x)
      | None => RaisesValueError
      end
  | _ => Converted None
  end.

(** Criterion 3, the [try] block with its [except (ValueError, TypeError)]:
    [Ok true] when it goes on to criterion 4, [Ok false] when it returns
    [False]; an [OverflowError] is not caught. *)
Definition bruttoleistung_ok (details einheit : Dict) : Result bool :=
  let v := bruttoleistung details einheit in
  if is_none v then Ok false else
  match power_kw v with
  | RaisesValueError => Ok false
  | RaisesOverflowError => Raise "int too large to convert to float"
  | Converted None => Ok false
  | Converted (Some p) => Ok (negb (float_le p 150.0))
  end.

(** The local [anlagenbetreiber_mastr]. *)
Definition anlagenbetreiber_mastr (details einheit : Dict) : Tree :=
  py_or_chain
    [ get_nested_value (TDict details) ["AnlagenbetreiberMastrNummer"];
      get_nested_value (TDict details) ["EinheitStromSpeicher"; "AnlagenbetreiberMastrNummer"];
      get_nested_value (TDict details) ["BetreiberMastrNummer"];
      get_nested_value (TDict einheit) ["AnlagenbetreiberMastrNummer"];
      get_nested_value (TDict einheit) ["BetreiberMastrNummer"] ].

(** The text of [value] names a natural person. *)
Definition names_natural_person (value : Tree) : bool :=
  let value_str := str_lower (py_str value) in
  PyStr.contains "natürlich" value_str || PyStr.contains "natural" value_str.

(** The first loop over the type fields: [is_natural_person] after it. *)
Definition direct_natural_person (details einheit : Dict) : bool :=
  existsb
    (fun field =>
       let value :=
         py_or_chain
           [ get_nested_value (TDict details) [field];
             get_nested_value (TDict details) ["EinheitStromSpeicher"; field];
             get_nested_value (TDict einheit) [field] ] in
       truthy value && names_natural_person value)
    ["AnlagenbetreiberTyp"; "BetreiberTyp"; "Personenart"; "Rechtsform"; "PersonenArt"].

(** The loop over the type fields of the fetched operator; a value that is
    no mapping has no [get] ([AttributeError]). *)
Definition operator_natural_person (operator_details : Tree) : Result bool :=
  match operator_details with
  | TDict d =>
      Ok (existsb
            (fun field =>
               match PyDict.get d field with
               | Some value => truthy value && names_natural_person value
               | None => false
               end)
            ["Personenart"; "PersonenArt"; "Rechtsform"; "Typ"])
  | _ => Raise "object has no attribute 'get'"
  end.

(** [matches_criteria(details, einheit, client, einheit_nummer)]; the unit's
    number is only logged. *)
Definition matches_criteria {W} (details einheit : Dict)
  (client : option (MastrClient W)) (st : State W) : Result bool * State W :=
  if negb (technologie_ok details) then (Ok false, st) else
  if negb (batterietechnologie_ok details) then (Ok false, st) else
  match bruttoleistung_ok details einheit with
  | Raise msg => (Raise msg, st)
  | Ok false => (Ok false, st)
  | Ok true =>
      let operator := anlagenbetreiber_mastr details einheit in
      let is_natural_person := direct_natural_person details einheit in
      let '(is_natural_person, st1) :=
        match client with
        | Some c =>
            if negb is_natural_person && truthy operator then
              match get_marktakteur_details c operator st with
              | (Ok operator_details, st1) =>
                  match operator_natural_person operator_details with
                  | Ok found => (found, st1)
                  | Raise _ => (is_natural_person, st1)
                  end
              | (Raise _, st1) => (is_natural_person, st1)
              end
            else (is_natural_person, st)
        | None => (is_natural_person, st)
        end in
      if is_natural_person then (Ok false, st1) else (Ok true, st1)
  end.

End Filter.

(** The rating the specification describes: the first alias value that is
    not null. *)
Fixpoint first_non_null (vs : list Tree) : Tree :=
  match vs with
  | [] => TNone
  | v :: rest => if is_none v then first_non_null rest else v
  end.

(** ** Flattening *)

(** [f"{parent_key}{sep}{k}" if parent_key else k]. *)
Definition new_key (parent_key sep k : string) : string :=
  if PyStr.nonempty parent_key then (parent_key ++ sep ++ k)%string else k.

(** No sequence at any depth. *)
Fixpoint no_sequence (t : Tree) : bool :=
  match t with
  | TList _ => false
  | TDict fields => forallb (fun kv => no_sequence (snd kv)) fields
  | _ => true
  end.

Section Flatten.
Context {B : Builtins}.

(** fetch_anlagenbetreiber.py, [flatten_dict]: what the loop body adds to
    [items] for a key whose value is [v] and whose [new_key] is [key]. *)
Fixpoint flatten_item_AB (v : Tree) (key sep : string) : Dict :=
  match v with
  | TDict fields =>
      PyDict.of_items
        (flat_map (fun kv => flatten_item_AB (snd kv) (new_key key sep (fst kv)) sep)
                  fields)
  | TList _ => [(key, TStr (py_str v))]
  | _ => [(key, v)]
  end.

(** fetch_anlagenbetreiber.py, [flatten_dict(d, parent_key, sep)]. *)
Definition flatten_dict_AB (d : Dict) (parent_key sep : string) : Dict :=
  PyDict.of_items
    (flat_map (fun kv => flatten_item_AB (snd kv) (new_key parent_key sep (fst kv)) sep)
              d).

(** fetch_marktakteur.py, [flatten_dict(d, parent_key, sep)]; [d] is any
    value. *)
Fixpoint flatten_dict_MA (d : Tree) (parent_key sep : string) : Dict :=
  match d with
  | TDict fields =>
      PyDict.of_items
        (flat_map
           (fun kv =>
              let key := new_key parent_key sep (fst kv) in
              match snd kv with
              | TDict _ => flatten_dict_MA (snd kv) key sep
              | TList l =>
                  match l with
                  | TDict _ :: _ =>
                      (fix each (i : nat) (l : list Tree) : Dict :=
                         match l with
                         | [] => []
                         | item :: rest =>
                             flatten_dict_MA item (key ++ "_" ++ PyStr.of_nat i)%string sep
                             ++ each (S i) rest
                         end) O l
                  | _ => [(key, TStr (PyStr.join ", " (map py_str l)))]
                  end
              | v => [(key, v)]
              end)
           fields)
  | _ => if PyStr.nonempty parent_key then [(parent_key, d)] else []
  end.

(** fetch_marktakteur.py, [flatten_dict]: what the loop body adds to [items]
    for a key whose value is [v] and whose [new_key] is [key]. *)
Definition flatten_item_MA (v : Tree) (key sep : string) : Dict :=
  match v with
  | TDict _ => flatten_dict_MA v key sep
  | TList l =>
      match l with
      | TDict _ :: _ =>
          (fix each (i : nat) (l : list Tree) : Dict :=
             match l with
             | [] => []
             | item :: rest =>
                 flatten_dict_MA item (key ++ "_" ++ PyStr.of_nat i)%string sep
                 ++ each (S i) rest
             end) O l
      | _ => [(key, TStr (PyStr.join ", " (map py_str l)))]
      end
  | scalar => [(key, scalar)]
  end.

End Flatten.

(** ** The merge (fetch_anlagenbetreiber.py) *)

(** [sorted(names)]. *)
Fixpoint insert_sorted (s : string) (l : list string) : list string :=
  match l with
  | [] => [s]
  | x :: rest => if String.leb s x then s :: l else x :: insert_sorted s rest
  end.

Definition sorted (l : list string) : list string := fold_right insert_sorted [] l.

(** [names.update(more)] on a set, kept as a list without repeats. *)
Definition set_update (names more : list string) : list string :=
  fold_left (fun acc s => if existsb (String.eqb s) acc then acc else acc ++ [s])
            more names.

(** [a or b] for two results of [row.get]. *)
Definition str_or (a b : option string) : option string :=
  match a with
  | Some s => if PyStr.nonempty s then a else b
  | None => b
  end.

(** [bool(m)] for a result of [row.get]. *)
Definition str_truthy (m : option string) : bool :=
  match m with
  | Some s => PyStr.nonempty s
  | None => false
  end.

(** [csv.DictWriter(f, fieldnames).writerow(rowdict)]: a key outside the
    field names raises [ValueError]; a missing field is written empty. *)
Definition writerow (fieldnames : list string) (rowdict : Dict)
  : Result (list (string * Tree)) :=
  if forallb (fun k => existsb (String.eqb k) fieldnames) (PyDict.keys rowdict)
  then Ok (map (fun c => (c, match PyDict.get rowdict c with
                             | Some v => v
                             | None => TStr ""
                             end)) fieldnames)
  else Raise "dict contains fields not in fieldnames".

(** A row as [csv.DictReader] yields it. *)
Definition Row : Type := list (string * string).

Definition AB (col : string) : string := ("AB_" ++ col)%string.

Section Merge.
Context {B : Builtins}.

(** [flatten_dict(result['data'])]: a value that is no mapping has no
    [items] ([AttributeError]). *)
Definition flatten_data (d : Tree) : Result Dict :=
  match d with
  | TDict fields => Ok (flatten_dict_AB fields "" "_")
  | _ => Raise "object has no attribute 'items'"
  end.

(** The set [anlagenbetreiber_cols] after the loop over the results. *)
Fixpoint anlagenbetreiber_cols (results : list (string * FetchResult))
  (cols : list string) : Result (list string) :=
  match results with
  | [] => Ok cols
  | (_, result) :: rest =>
      if truthy (data result) then
        match flatten_data (data result) with
        | Ok flattened => anlagenbetreiber_cols rest (set_update cols (PyDict.keys flattened))
        | Raise msg => Raise msg
        end
      else anlagenbetreiber_cols rest cols
  end.

(** The local [mastr_num] of the loop over the rows. *)
Definition row_mastr_num (row : Row) : option string :=
  let m := str_or (PyDict.get row "MaStR-Nr. des Anlagenbetreibers")
                  (PyDict.get row (String (ascii_of_nat 9) "MaStR-Nr. des Anlagenbetreibers")) in
  match m with
  | Some s => if PyStr.nonempty s then Some (str_strip s) else m
  | None => None
  end.

(** The row has an identifier and the results have an entry for it. *)
Definition matched (results : list (string * FetchResult)) (row : Row)
  : option FetchResult :=
  match row_mastr_num row with
  | Some m => if PyStr.nonempty m then PyDict.get results m else None
  | None => None
  end.

(** The local [merged_row] at [writer.writerow]. *)
Definition merged_row (results : list (string * FetchResult))
  (prefixed_ab_cols : list string) (row : Row) : Result Dict :=
  let mastr_num := row_mastr_num row in
  let merged := map (fun kv => (fst kv, TStr (snd kv))) row in
  match matched results row with
  | Some result =>
      let merged :=
        PyDict.set merged "AB_error"
          (TStr (match error result with
                 | Some e => if PyStr.nonempty e then e else ""
                 | None => ""
                 end)) in
      if truthy (data result) then
        match flatten_data (data result) with
        | Ok flattened =>
            Ok (fold_left (fun m kv => PyDict.set m (AB (fst kv)) (snd kv)) flattened merged)
        | Raise msg => Raise msg
        end
      else
        Ok (fold_left (fun m col => if PyDict.mem m col then m
                                    else PyDict.set m col (TStr ""))
                      prefixed_ab_cols merged)
  | None =>
      let merged :=
        PyDict.set merged "AB_error"
          (TStr (if str_truthy mastr_num then "not_found" else "no_mastr_num")) in
      Ok (fold_left (fun m col => PyDict.set m col (TStr "")) prefixed_ab_cols merged)
  end.

(** The loop over the rows: the lines written after the header. *)
Fixpoint write_rows (results : list (string * FetchResult))
  (prefixed_ab_cols all_cols : list string) (rows : list Row)
  : Result (list (list (string * Tree))) :=
  match rows with
  | [] => Ok []
  | row :: rest =>
      match merged_row results prefixed_ab_cols row with
      | Raise msg => Raise msg
      | Ok merged =>
          match writerow all_cols merged with
          | Raise msg => Raise msg
          | Ok line =>
              match write_rows results prefixed_ab_cols all_cols rest with
              | Raise msg => Raise msg
              | Ok lines => Ok (line :: lines)
              end
          end
      end
  end.

(** [prefixed_ab_cols]. *)
Definition prefixed_cols (results : list (string * FetchResult)) : Result (list string) :=
  match anlagenbetreiber_cols results [] with
  | Ok cols => Ok (map AB (sorted cols))
  | Raise msg => Raise msg
  end.

(** [merge_csvs(stromerzeuger_rows, anlagenbetreiber_results, output_file)]:
    what is written to the file, [None] when nothing is written; a line is
    the list of its cells, each under its column. *)
Definition merge_csvs (stromerzeuger_rows : list Row)
  (anlagenbetreiber_results : list (string * FetchResult))
  : Result (option (list string * list (list (string * Tree)))) :=
  match stromerzeuger_rows with
  | [] => Ok None
  | first :: _ =>
      let stromerzeuger_cols := PyDict.keys first in
      match prefixed_cols anlagenbetreiber_results with
      | Raise msg => Raise msg
      | Ok prefixed_ab_cols =>
          let all_cols := stromerzeuger_cols ++ prefixed_ab_cols ++ ["AB_error"] in
          match write_rows anlagenbetreiber_results prefixed_ab_cols all_cols
                           stromerzeuger_rows with
          | Raise msg => Raise msg
          | Ok lines => Ok (Some (all_cols, lines))
          end
      end
  end.

End Merge.

(** ** Induction over values nested in lists *)

Section PyObj_induction.
Variable P : PyObj -> Prop.
Hypothesis HNone : P PyNone.
Hypothesis HBool : forall b, P (PyBool b).
Hypothesis HInt : forall z, P (PyInt z).
Hypothesis HFloat : forall x, P (PyFloat x).
Hypothesis HStr : forall s, P (PyStr s).
Hypothesis HSeq : forall items, Forall P items -> P (PySeq items).
Hypothesis HInst : forall iso hf c attrs text,
  Forall (fun ka => attr_holds P (snd ka)) attrs ->
  P (PyInst iso hf c attrs text).

Fixpoint PyObj_nested_ind (obj : PyObj) : P obj :=
  match obj with
  | PyNone => HNone
  | PyBool b => HBool b
  | PyInt z => HInt z
  | PyFloat x => HFloat x
  | PyStr s => HStr s
  | PySeq items =>
      HSeq items
        ((fix all (l : list PyObj) : Forall P l :=
            match l with
            | [] => Forall_nil _
            | x :: r => Forall_cons _ (PyObj_nested_ind x) (all r)
            end) items)
  | PyInst iso hf c attrs text =>
      HInst iso hf c attrs text
        ((fix all (l : list (string * Attr PyObj))
            : Forall (fun ka => attr_holds P (snd ka)) l :=
            match l with
            | [] => Forall_nil _
            | (k, a) :: r =>
                Forall_cons (k, a)
                  (match a as a0 return attr_holds P a0 with
                   | AttrRaises _ => I
                   | AttrValue v => PyObj_nested_ind v
                   end)
                  (all r)
            end) attrs)
  end.

End PyObj_induction.

Section Tree_induction.
Variable P : Tree -> Prop.
Hypothesis HNone : P TNone.
Hypothesis HBool : forall b, P (TBool b).
Hypothesis HInt : forall z, P (TInt z).
Hypothesis HFloat : forall x, P (TFloat x).
Hypothesis HStr : forall s, P (TStr s).
Hypothesis HList : forall items, Forall P items -> P (TList items).
Hypothesis HDict : forall fields, Forall (fun kv => P (snd kv)) fields -> P (TDict fields).

Fixpoint Tree_nested_ind (t : Tree) : P t :=
  match t with
  | TNone => HNone
  | TBool b => HBool b
  | TInt z => HInt z
  | TFloat x => HFloat x
  | TStr s => HStr s
  | TList items =>
      HList items
        ((fix all (l : list Tree) : Forall P l :=
            match l with
            | [] => Forall_nil _
            | x :: r => Forall_cons _ (Tree_nested_ind x) (all r)
            end) items)
  | TDict fields =>
      HDict fields
        ((fix all (l : list (string * Tree)) : Forall (fun kv => P (snd kv)) l :=
            match l with
            | [] => Forall_nil _
            | kv :: r => Forall_cons kv (Tree_nested_ind (snd kv)) (all r)
            end) fields)
  end.

End Tree_induction.

(** ** Stand-ins for the examples *)

Definition lower_char (c : ascii) : ascii :=
  let n := nat_of_ascii c in
  if (65 <=? n)%nat && (n <=? 90)%nat then ascii_of_nat (n + 32) else c.

Fixpoint lower_ascii (s : string) : string :=
  match s with
  | EmptyString => EmptyString
  | String c rest => String (lower_char c) (lower_ascii rest)
  end.

Definition is_space (c : ascii) : bool :=
  let n := nat_of_ascii c in
  ((9 <=? n)%nat && (n <=? 13)%nat) || ((28 <=? n)%nat && (n <=? 32)%nat).

Fixpoint lstrip (s : string) : string :=
  match s with
  | EmptyString => EmptyString
  | String c rest => if is_space c then lstrip rest else s
  end.

Fixpoint rstrip (s : string) : string :=
  match s with
  | EmptyString => EmptyString
  | String c rest =>
      match rstrip rest with
      | EmptyString => if is_space c then EmptyString else String c EmptyString
      | kept => String c kept
      end
  end.

Definition repr_scalar (v : Tree) : string :=
  match v with
  | TNone => "None"
  | TBool true => "True"
  | TBool false => "False"
  | TInt z => NilZero.string_of_int (Z.to_int z)
  | _ => ""
  end.

Definition float_of_digits (s : string) : option Float :=
  if String.eqb s "nan" then Some NaN
  else if String.eqb s "inf" then Some (Infinity false)
  else match NilZero.int_of_string s with
       | Some i =>
           match float_of_int (Z.of_int i) with
           | Some x => Some x
           | None => Some (Infinity (Z.of_int i <? 0)%Z)
           end
       | None => None
       end.

(** The builtins on ASCII text and whole numbers, for the examples. *)
Definition ascii_builtins : Builtins := {|
  py_repr := repr_scalar;
  str_lower := lower_ascii;
  str_strip := fun s => rstrip (lstrip s);
  float_of_str := float_of_digits
|}.

(** A registry whose world counts the calls made: the [n]-th call of
    [GetMarktakteur] is answered by [akteur n], the [n]-th listing call by
    [listing n]. *)
Definition scripted_client (akteur : nat -> Reply PyObj)
  (listing : nat -> Reply (option (list PyObj))) : MastrClient nat := {|
  GetMarktakteur := fun _ _ w => (akteur w, S w);
  GetGefilterteListeMarktakteure := fun _ _ _ _ w => (listing w, S w);
  GetListeAlleEinheiten := fun _ _ _ w => (listing w, S w)
|}.

Definition start_state : State nat := {| world := O; log := [] |}.

(** A unit record with one empty field, as the SOAP library hands it over. *)
Definition einheit_obj : PyObj :=
  PyInst NoIsoFormat true false
    [ ("EinheitMastrNummer", AttrValue (PyStr "SEE900000000001"));
      ("Bemerkung", AttrValue PyNone);
      ("_raw_elements", AttrValue (PySeq [])) ]
    "einheit".

(** A registry that is always rate limited. *)
Definition rate_limited_client : MastrClient nat :=
  scripted_client (fun _ => RaisesFault "429 ToManyRequests") (fun _ => Returns None).

(** A registry that knows no actor. *)
Definition unknown_client : MastrClient nat :=
  scripted_client (fun _ => RaisesFault "MarktakteurNichtGefunden: ABR900000000001")
                  (fun _ => Returns None).

(** A registry that lists one full page of two units and then nothing. *)
Definition two_units_client : MastrClient nat :=
  scripted_client (fun _ => Returns PyNone)
    (fun n => match n with
              | O => Returns (Some [einheit_obj; einheit_obj])
              | _ => Returns (Some [])
              end).

(** An operator record of the given type, inside a response. *)
Definition operator_response (personenart : string) : PyObj :=
  PyInst NoIsoFormat true false
    [ ("Marktakteur",
       AttrValue (PyInst NoIsoFormat true false
                    [("Personenart", AttrValue (PyStr personenart))] "akteur")) ]
    "response".

(** A registry whose every operator has the given type. *)
Definition operator_client (personenart : string) : MastrClient nat :=
  scripted_client (fun _ => Returns (operator_response personenart))
                  (fun _ => Returns None).

(** A registry that is down. *)
Definition failing_client : MastrClient nat :=
  scripted_client (fun _ => RaisesException "connection refused")
                  (fun _ => Returns None).

(** The detail record of a stationary lithium-ion battery with the given
    power rating. *)
Definition speicher_details (power : Tree) : Dict :=
  [ ("TechnologieDerStromspeicherung", TStr "Batterie, Stationär");
    ("Batterietechnologie", TStr "Lithium-Ionen-Akku");
    ("Bruttoleistung", power);
    ("AnlagenbetreiberMastrNummer", TStr "ABR900000000001") ].

(** ** The statements of the specification *)

(** The four error tags. *)
Definition error_tag (e : string) : Prop :=
  e = "not_found" \/
  (exists msg, e = ("fault:" ++ msg)%string) \/
  (exists msg, e = ("exception:" ++ msg)%string) \/
  e = "retry_exhausted".


(** The events of [n] passes that all meet a rate-limit fault. *)
Fixpoint backoff_events (target : string) (n : nat) (delay : Q) : list Event :=
  match n with
  | O => []
  | S m =>
      Called (ReqGetMarktakteur "mastrNummer" (TStr target)) :: Slept delay ::
      backoff_events target m (Qmin (delay * 2) 10.0)
  end.

(** [k] is a flattened key of a record the results hold. *)
Definition fetched_key {B : Builtins} (results : list (string * FetchResult))
  (k : string) : Prop :=
  exists m r d,
    In (m, r) results /\ data r = TDict d /\ truthy (data r) = true /\
    In k (PyDict.keys (flatten_dict_AB d "" "_")).

(** The status the merge gives a row without a matching result. *)
Definition unmatched_status {B : Builtins} (row : Row) : string :=
  if str_truthy (row_mastr_num row) then "not_found" else "no_mastr_num".

(** The line written for a base row: it has the header's columns in the
    header's order, it keeps the row's value under every base column that is
    no fetched column, and for a row without a matching result it holds the
    status and an empty value under every prefixed column. *)
Definition merged_line {B : Builtins} (results : list (string * FetchResult))
  (cols header : list string) (row : Row) (line : list (string * Tree)) : Prop :=
  map fst line = header /\
  (forall c v, PyDict.get row c = Some v -> ~ In c (cols ++ ["AB_error"]) ->
               PyDict.get line c = Some (TStr v)) /\
  (matched results row = None ->
   PyDict.get line "AB_error" = Some (TStr (unmatched_status row)) /\
   forall c, In c cols -> PyDict.get line c = Some (TStr "")).

(** A base row without an identifier, and results that hold a text where a
    record is expected. *)
Definition row_without_number : Row :=
  [("Name", "Solarpark Nord"); ("MaStR-Nr. des Anlagenbetreibers", "")].

Definition row_with_number : Row :=
  [("Name", "Speicher Ost"); ("MaStR-Nr. des Anlagenbetreibers", " ABR900000000001 ")].

Definition text_results : list (string * FetchResult) :=
  [("ABR900000000001", {| data := TStr "kein Datensatz"; error := None |})].

Definition record_results : list (string * FetchResult) :=
  [("ABR900000000001",
    {| data := TDict [("Firmenname", TStr "Stadtwerke");
                      ("Adresse", TDict [("Ort", TStr "Kiel")])];
       error := None |})].

(** Results whose record has a field named error. *)
Definition error_field_results : list (string * FetchResult) :=
  [("ABR900000000001",
    {| data := TDict [("error", TStr "stale")]; error := None |})].

(** ** Measures and code beyond the specification's statements *)

(** The remote calls a submitted call may still make. *)
Definition calls_left (f : Future) : nat :=
  match f with
  | Running _ n _ => n
  | Finished _ => O
  end.

Definition pool_calls_left (fs : list Future) : nat := list_sum (map calls_left fs).

(** The events recorded from the state [st] to the later state [st1]. *)
Definition log_since {W} (st st1 : State W) : list Event :=
  skipn (List.length (log st)) (log st1).

(** The registry's reply is a fault that names the rate limit and not an
    unknown actor. *)
Definition asks_retry (reply : Reply PyObj) : bool :=
  match reply with
  | RaisesFault msg => negb (is_not_found msg) && is_rate_limited msg
  | _ => false
  end.

(** Of [n] calls of [GetMarktakteur] for [target], made one after the other
    from the world [w], how many the registry answers with a rate-limit fault
    before it answers one otherwise. *)
Fixpoint rate_limited_calls {W} (client : MastrClient W) (target : string) (n : nat)
  (w : W) : nat :=
  match n with
  | O => O
  | S m =>
      let '(reply, w1) := GetMarktakteur client "mastrNummer" (TStr target) w in
      if asks_retry reply then S (rate_limited_calls client target m w1) else O
  end.

(** The remote calls [fetch start], [fetch (start + limit)], ... from [st]
    return the pages [pages]; the next call would be made at the offset
    [next] in the state [st_next]. *)
Fixpoint serves_until {W} (fetch : Z -> State W -> Reply (option (list PyObj)) * State W)
  (limit start : Z) (sleep_s : Q) (st : State W) (pages : list (list PyObj))
  (next : Z) (st_next : State W) : Prop :=
  match pages with
  | [] => next = start /\ st_next = st
  | page :: rest =>
      exists listing st1,
        fetch start st = (Returns listing, st1) /\
        match listing with Some l => l | None => [] end = page /\
        serves_until fetch limit (start + limit)%Z sleep_s
                     (if Qeq_bool sleep_s 0 then st1 else sleep sleep_s st1) rest
                     next st_next
  end.

(** A registry whose second listing call fails. *)
Definition second_page_fails_client : MastrClient nat :=
  scripted_client (fun _ => Returns PyNone)
    (fun n => match n with
              | O => Returns (Some [einheit_obj; einheit_obj])
              | _ => RaisesFault "Server was unable to process request"
              end).

(** Every mapping of the tree satisfies [P]. *)
Inductive every_mapping (P : Dict -> Prop) : Tree -> Prop :=
| every_none : every_mapping P TNone
| every_bool b : every_mapping P (TBool b)
| every_int z : every_mapping P (TInt z)
| every_float x : every_mapping P (TFloat x)
| every_str s : every_mapping P (TStr s)
| every_list items : Forall (every_mapping P) items -> every_mapping P (TList items)
| every_dict fields :
    P fields -> Forall (fun kv => every_mapping P (snd kv)) fields ->
    every_mapping P (TDict fields).

(** The keys of a mapping are distinct and none starts with an underscore. *)
Definition public_keys (d : Dict) : Prop :=
  NoDup (PyDict.keys d) /\
  forall k, In k (PyDict.keys d) -> PyStr.startswith "_" k = false.

(** A value that is neither a mapping nor a sequence. *)
Definition is_scalar (v : Tree) : bool :=
  match v with
  | TDict _ | TList _ => false
  | _ => true
  end.

(** A list of names in the order [sorted] gives: each name at most the
    next, as Python compares strings. *)
Definition ascending (names : list string) : Prop :=
  Sorted (fun a b => String.leb a b = true) names.

(** [isinstance(v, dict)]. *)
Definition is_mapping (v : Tree) : bool :=
  match v with
  | TDict _ => true
  | _ => false
  end.

(** ** Reading and saving (fetch_anlagenbetreiber.py, fetch_marktakteur.py) *)

(** [sorted(results.items())] and [sorted(results.keys())]: by identifier. *)
Fixpoint insert_item {V} (kv : string * V) (l : list (string * V)) : list (string * V) :=
  match l with
  | [] => [kv]
  | x :: rest => if String.leb (fst kv) (fst x) then kv :: l else x :: insert_item kv rest
  end.

Definition sorted_items {V} (l : list (string * V)) : list (string * V) :=
  fold_right insert_item [] l.

(** [names.remove(name)]: the first occurrence goes. *)
Fixpoint remove_first (name : string) (names : list string) : list string :=
  match names with
  | [] => []
  | x :: rest => if String.eqb x name then rest else x :: remove_first name rest
  end.

(** [result['error']] as a cell: [None] stays [None]. *)
Definition error_cell (e : option string) : Tree :=
  match e with
  | Some text => TStr text
  | None => TNone
  end.

Section Saving.
Context {B : Builtins}.

(** The body of the loop over the rows of [read_stromerzeuger_csv]: what it
    does to the set of numbers. *)
Definition add_mastr_num (unique_mastr_nums : list string) (row : Row) : list string :=
  let mastr_num :=
    str_or (PyDict.get row "MaStR-Nr. des Anlagenbetreibers")
           (PyDict.get row (String (ascii_of_nat 9) "MaStR-Nr. des Anlagenbetreibers")) in
  match mastr_num with
  | Some s =>
      if PyStr.nonempty s && PyStr.nonempty (str_strip s)
      then set_update unique_mastr_nums [str_strip s]
      else unique_mastr_nums
  | None => unique_mastr_nums
  end.

(** fetch_anlagenbetreiber.py, [read_stromerzeuger_csv]: the rows as
    [csv.DictReader] yields them, and the set of the operators' numbers. *)
Definition read_stromerzeuger_csv (reader : list Row) : list Row * list string :=
  (reader, fold_left add_mastr_num reader []).

(** The loop over the sorted results of [save_anlagenbetreiber_csv]. *)
Fixpoint save_rows_AB (all_keys : list string) (items : list (string * FetchResult))
  : Result (list (list (string * Tree))) :=
  match items with
  | [] => Ok []
  | (mastr_num, result) :: rest =>
      let row := [("error", error_cell (error result))] in
      match (if truthy (data result)
             then match flatten_data (data result) with
                  | Ok flattened => Ok (PyDict.update row flattened)
                  | Raise msg => Raise msg
                  end
             else Ok row) with
      | Raise msg => Raise msg
      | Ok row =>
          match writerow all_keys (PyDict.set row "MaStRNummer" (TStr mastr_num)) with
          | Raise msg => Raise msg
          | Ok line =>
              match save_rows_AB all_keys rest with
              | Raise msg => Raise msg
              | Ok lines => Ok (line :: lines)
              end
          end
      end
  end.

(** fetch_anlagenbetreiber.py, [save_anlagenbetreiber_csv(results,
    output_file)]: what is written, [None] when nothing is. *)
Definition save_anlagenbetreiber_csv (results : list (string * FetchResult))
  : Result (option (list string * list (list (string * Tree)))) :=
  match results with
  | [] => Ok None
  | _ =>
      match anlagenbetreiber_cols results [] with
      | Raise msg => Raise msg
      | Ok keys =>
          let all_keys := sorted (set_update keys ["error"]) in
          let all_keys :=
            if existsb (String.eqb "MaStRNummer") all_keys
            then "MaStRNummer" :: remove_first "MaStRNummer" all_keys
            else "MaStRNummer" :: all_keys in
          match save_rows_AB all_keys (sorted_items results) with
          | Raise msg => Raise msg
          | Ok lines => Ok (Some (all_keys, lines))
          end
      end
  end.

(** fetch_marktakteur.py: the set [all_keys] of [save_marktakteur_csv] (and
    [fetched_fieldnames] of [merge_csvs]) after the loop over the results. *)
Fixpoint fetched_keys_MA (results : list (string * FetchResult)) (keys : list string)
  : list string :=
  match results with
  | [] => keys
  | (_, result) :: rest =>
      if truthy (data result)
      then fetched_keys_MA rest
             (set_update keys (PyDict.keys (flatten_dict_MA (data result) "" "_")))
      else fetched_keys_MA rest keys
  end.

(** The loop over the sorted identifiers of [save_marktakteur_csv];
    [results[mastr_num]] of a missing key raises [KeyError]. *)
Fixpoint save_rows_MA (results : list (string * FetchResult)) (fieldnames : list string)
  (mastr_nums : list string) : Result (list (list (string * Tree))) :=
  match mastr_nums with
  | [] => Ok []
  | mastr_num :: rest =>
      match PyDict.get results mastr_num with
      | None => Raise "KeyError"
      | Some result =>
          let row := [("MaStRNummer", TStr mastr_num)] in
          let row :=
            if truthy (data result)
            then PyDict.update row (flatten_dict_MA (data result) "" "_")
            else PyDict.set row "Error" (error_cell (error result)) in
          match writerow fieldnames row with
          | Raise msg => Raise msg
          | Ok line =>
              match save_rows_MA results fieldnames rest with
              | Raise msg => Raise msg
              | Ok lines => Ok (line :: lines)
              end
          end
      end
  end.

(** fetch_marktakteur.py, [save_marktakteur_csv(results, output_filepath)]. *)
Definition save_marktakteur_csv (results : list (string * FetchResult))
  : Result (list string * list (list (string * Tree))) :=
  let all_keys := fetched_keys_MA results [] in
  let fieldnames :=
    "MaStRNummer" ::
    sorted (filter (fun k => negb (String.eqb k "MaStRNummer")) all_keys) in
  match save_rows_MA results fieldnames (sorted (PyDict.keys results)) with
  | Raise msg => Raise msg
  | Ok lines => Ok (fieldnames, lines)
  end.

End Saving.

(** Results with one record and one fetch that failed. *)
Definition mixed_results : list (string * FetchResult) :=
  [("ABR900000000002", {| data := TNone; error := Some "not_found" |});
   ("ABR900000000001",
    {| data := TDict [("Firmenname", TStr "Stadtwerke")]; error := None |})].

(** ** Reading and merging (fetch_marktakteur.py) *)

(** [s.strip(c)] for one ASCII character [c]; in UTF-8 a byte of that value
    is that character. *)
Fixpoint lstrip_char (c : ascii) (s : string) : string :=
  match s with
  | EmptyString => EmptyString
  | String a rest => if Ascii.eqb a c then lstrip_char c rest else s
  end.

Fixpoint rstrip_char (c : ascii) (s : string) : string :=
  match s with
  | EmptyString => EmptyString
  | String a rest =>
      match rstrip_char c rest with
      | EmptyString => if Ascii.eqb a c then EmptyString else String a EmptyString
      | kept => String a kept
      end
  end.

Definition strip_char (c : ascii) (s : string) : string :=
  rstrip_char c (lstrip_char c s).

Definition MA (col : string) : string := ("MA_" ++ col)%string.

(** [a or b] for two texts. *)
Definition or_text (a b : string) : string :=
  if PyStr.nonempty a then a else b.

Section Merging_MA.
Context {B : Builtins}.

(** [value.strip(double quote).strip(single quote).strip()]. *)
Definition strip_quotes (value : string) : string :=
  str_strip (strip_char (ascii_of_nat 39) (strip_char (ascii_of_nat 34) value)).

(** [row.get(key, '').strip()]. *)
Definition get_stripped (row : Row) (key : string) : string :=
  str_strip match PyDict.get row key with
            | Some value => value
            | None => ""
            end.

(** The loop over [row.keys()]: the local [mastr_num] when it ends. *)
Fixpoint scan_keys (row : Row) (keys : list string) : option string :=
  match keys with
  | [] => None
  | key :: rest =>
      if PyStr.contains "MaStR" key || PyStr.contains "MaStr" key then
        let value := get_stripped row key in
        if PyStr.nonempty value then Some (strip_quotes value)
        else scan_keys row rest
      else scan_keys row rest
  end.

(** The local [mastr_num] after the loop over the keys and the fallback
    over the common column names, in [read_marktakteur_csv] and in
    [merge_csvs] alike. *)
Definition mastr_num_MA (row : Row) : option string :=
  let mastr_num := scan_keys row (PyDict.keys row) in
  if str_truthy mastr_num then mastr_num
  else
    let mastr_num :=
      or_text (or_text (or_text (or_text (get_stripped row "MaStR-Nr.")
                                         (get_stripped row "MaStR-Nr"))
                                (get_stripped row "MaStr-Nr."))
                       (get_stripped row "MaStr-Nr"))
              (get_stripped row "MaStR-Nr. des Marktakteurs") in
    Some (if PyStr.nonempty mastr_num then strip_quotes mastr_num else mastr_num).

(** The body of the loop over the rows of [read_marktakteur_csv]: what it
    does to the set of numbers. *)
Definition add_mastr_num_MA (unique_mastr_nums : list string) (row : Row) : list string :=
  match mastr_num_MA row with
  | Some mastr_num =>
      if PyStr.nonempty mastr_num then
        let mastr_num := strip_quotes mastr_num in
        if PyStr.nonempty mastr_num then set_update unique_mastr_nums [mastr_num]
        else unique_mastr_nums
      else unique_mastr_nums
  | None => unique_mastr_nums
  end.

(** [read_marktakteur_csv(csv_filepath)]: the rows as [csv.DictReader] yields
    them, and the set of the numbers. *)
Definition read_marktakteur_csv (reader : list Row) : list Row * list string :=
  (reader, fold_left add_mastr_num_MA reader []).

(** The set [original_fieldnames] of [merge_csvs]. *)
Definition original_fieldnames (original_rows : list Row) : list string :=
  fold_left (fun names row => set_update names (PyDict.keys row)) original_rows [].

(** The mapping [mastr_to_data] of [merge_csvs]. *)
Definition mastr_to_data (marktakteur_results : list (string * FetchResult))
  : list (string * Dict) :=
  fold_left (fun acc entry =>
               if truthy (data (snd entry))
               then PyDict.set acc (fst entry) (flatten_dict_MA (data (snd entry)) "" "_")
               else acc)
            marktakteur_results [].

(** The local [merged_row] at [writer.writerow]. *)
Definition merged_row_MA (originals : list string) (to_data : list (string * Dict))
  (original_row : Row) : Dict :=
  let merged := map (fun kv => (fst kv, TStr (snd kv))) original_row in
  match mastr_num_MA original_row with
  | Some mastr_num =>
      if PyStr.nonempty mastr_num then
        match PyDict.get to_data mastr_num with
        | Some fetched_data =>
            fold_left (fun m kv =>
                         if existsb (String.eqb (fst kv)) originals then m
                         else PyDict.set m (MA (fst kv)) (snd kv))
                      fetched_data merged
        | None => merged
        end
      else merged
  | None => merged
  end.

(** The loop over the rows: the lines written after the header. *)
Fixpoint write_rows_MA (merged_fieldnames originals : list string)
  (to_data : list (string * Dict)) (original_rows : list Row)
  : Result (list (list (string * Tree))) :=
  match original_rows with
  | [] => Ok []
  | row :: rest =>
      match writerow merged_fieldnames (merged_row_MA originals to_data row) with
      | Raise msg => Raise msg
      | Ok line =>
          match write_rows_MA merged_fieldnames originals to_data rest with
          | Raise msg => Raise msg
          | Ok lines => Ok (line :: lines)
          end
      end
  end.

(** The list [merged_fieldnames] of [merge_csvs]. *)
Definition merged_fieldnames (original_rows : list Row)
  (marktakteur_results : list (string * FetchResult)) : list string :=
  let originals := original_fieldnames original_rows in
  sorted originals ++
  map MA (filter (fun field => negb (existsb (String.eqb field) originals))
                 (sorted (fetched_keys_MA marktakteur_results []))).

(** fetch_marktakteur.py, [merge_csvs(original_rows, marktakteur_results,
    output_filepath)]: the header and the lines written. *)
Definition merge_csvs_MA (original_rows : list Row)
  (marktakteur_results : list (string * FetchResult))
  : Result (list string * list (list (string * Tree))) :=
  let fieldnames := merged_fieldnames original_rows marktakteur_results in
  match write_rows_MA fieldnames (original_fieldnames original_rows)
                      (mastr_to_data marktakteur_results) original_rows with
  | Raise msg => Raise msg
  | Ok lines => Ok (fieldnames, lines)
  end.

(** The local [fetched_data] of a row of [merge_csvs], when the row has a
    number and [mastr_to_data] an entry for it. *)
Definition fetched_data_MA (marktakteur_results : list (string * FetchResult))
  (original_row : Row) : option Dict :=
  match mastr_num_MA original_row with
  | Some mastr_num =>
      if PyStr.nonempty mastr_num
      then PyDict.get (mastr_to_data marktakteur_results) mastr_num
      else None
  | None => None
  end.

End Merging_MA.

(** Two rows of a list of market actors whose columns differ; the number of
    the second is quoted twice. *)
Definition actor_row : Row :=
  [("Name", "Stadtwerke"); ("MaStR-Nr.", " ABR900000000001 ")].

Definition quoted_actor_row : Row :=
  [("MaStR-Nr.", String (ascii_of_nat 39)
                   (String (ascii_of_nat 34)
                      ("ABR900000000001" ++
                       String (ascii_of_nat 34) (String (ascii_of_nat 39) ""))));
   ("Ort", "Kiel")].

(** * Part II: the properties *)

(** ** Dictionaries *)

Lemma dict_get_set_same {V} (d : list (string * V)) k v :
  PyDict.get (PyDict.set d k v) k = Some v.
Proof.
  induction d as [|[k' v'] d IH]; simpl.
  - now rewrite String.eqb_refl.
  - destruct (String.eqb k' k) eqn:E; simpl; rewrite E; auto.
Qed.

Lemma dict_get_set_other {V} (d : list (string * V)) k v k0 :
  k0 <> k -> PyDict.get (PyDict.set d k v) k0 = PyDict.get d k0.
Proof.
  intros Hne. induction d as [|[k' v'] d IH]; simpl.
  - destruct (String.eqb k k0) eqn:E; auto.
    apply String.eqb_eq in E. congruence.
  - destruct (String.eqb k' k) eqn:E; simpl.
    + apply String.eqb_eq in E. subst k'.
      destruct (String.eqb k k0) eqn:E0; auto.
      apply String.eqb_eq in E0. congruence.
    + destruct (String.eqb k' k0); auto.
Qed.

Lemma dict_keys_set {V} (d : list (string * V)) k v :
  PyDict.keys (PyDict.set d k v) =
  if PyDict.mem d k then PyDict.keys d else PyDict.keys d ++ [k].
Proof.
  unfold PyDict.mem, PyDict.keys.
  induction d as [|[k' v'] d IH]; simpl; auto.
  destruct (String.eqb k' k) eqn:E; simpl; auto.
  rewrite IH. destruct (PyDict.get d k); auto.
Qed.

Lemma dict_mem_In {V} (d : list (string * V)) k :
  PyDict.mem d k = true <-> In k (PyDict.keys d).
Proof.
  unfold PyDict.mem, PyDict.keys.
  induction d as [|[k' v'] d IH]; simpl.
  - split; [discriminate | tauto].
  - destruct (String.eqb_spec k' k).
    + split; auto.
    + rewrite IH. split; [auto | intros [?|?]; [congruence | auto]].
Qed.

Lemma dict_set_values {V} (P : V -> Prop) (d : list (string * V)) k v :
  Forall (fun kv => P (snd kv)) d -> P v ->
  Forall (fun kv => P (snd kv)) (PyDict.set d k v).
Proof.
  intros Hd Hv. induction Hd as [|[k' v'] d Hx Hd IH]; simpl.
  - constructor; auto.
  - destruct (String.eqb k' k); constructor; auto.
Qed.

(** ** The response normalizer *)

Lemma collect_fields_values (convert : PyObj -> Tree) (Q : Tree -> Prop) names :
  Forall (fun ka => attr_holds (fun v => Q (convert v)) (snd ka)) names ->
  forall d, Forall (fun kv => Q (snd kv)) d ->
  Forall (fun kv => Q (snd kv)) (collect_fields convert names d).
Proof.
  induction 1 as [|[k a] names Hx _ IH]; intros d Hd; simpl; auto.
  destruct (PyStr.startswith "_" k); auto.
  destruct a as [m|v]; auto.
  destruct (callable v); auto.
  destruct (internal_name k); auto.
  apply IH. apply dict_set_values; auto.
Qed.

Lemma zeep_to_dict_pruned (obj : PyObj) : pruned (zeep_to_dict obj) = true.
Proof.
  induction obj as [| | | | |items IH|iso hf c attrs text IH] using PyObj_nested_ind;
    simpl; auto.
  - induction IH as [|x r Hx _ IHr]; simpl; auto.
    now rewrite Hx, IHr.
  - assert (Hall : Forall (fun kv => pruned (snd kv) = true)
                     (collect_fields zeep_to_dict attrs [])).
    { apply collect_fields_values with (Q := fun t => pruned t = true); auto. }
    assert (Hdict : pruned (TDict (filter (fun kv => not_empty_artifact (snd kv))
                     (collect_fields zeep_to_dict attrs []))) = true).
    { simpl. apply forallb_forall. intros kv Hin.
      apply filter_In in Hin. destruct Hin as [Hin Hne].
      rewrite Forall_forall in Hall. rewrite Hne, (Hall kv Hin). reflexivity. }
    destruct iso; destruct hf; auto.
Qed.

Lemma pruned_occurs (t : Tree) (fields : list (string * Tree)) :
  occurs_in (TDict fields) t -> pruned t = true ->
  forall k v, In (k, v) fields -> not_empty_artifact v = true.
Proof.
  induction 1 as [|x items Hin _ IH|k0 v0 fs Hin _ IH]; intros Hp k v Hkv.
  - simpl in Hp. rewrite forallb_forall in Hp.
    specialize (Hp _ Hkv). simpl in Hp.
    now apply andb_true_iff in Hp.
  - simpl in Hp. rewrite forallb_forall in Hp. eauto.
  - simpl in Hp. rewrite forallb_forall in Hp.
    specialize (Hp _ Hin). simpl in Hp.
    apply andb_true_iff in Hp. destruct Hp. eauto.
Qed.

(** C6.  Every mapping that occurs anywhere in the tree [zeep_to_dict]
    returns has no key whose value is null, an empty mapping or an empty
    sequence. *)
Theorem zeep_to_dict_drops_empty (obj : PyObj) (fields : list (string * Tree))
  (k : string) (v : Tree) :
  occurs_in (TDict fields) (zeep_to_dict obj) ->
  In (k, v) fields ->
  v <> TNone /\ v <> TDict [] /\ v <> TList [].
Proof.
  intros Hocc Hin.
  pose proof (pruned_occurs _ _ Hocc (zeep_to_dict_pruned obj) k v Hin) as H.
  repeat split; intros ->; discriminate H.
Qed.

Lemma zeep_to_dict_drops_empty_witness :
  occurs_in (TDict [("EinheitMastrNummer", TStr "SEE900000000001")])
            (zeep_to_dict (PySeq [einheit_obj])) /\
  TStr "SEE900000000001" <> TNone /\
  TStr "SEE900000000001" <> TDict [] /\
  TStr "SEE900000000001" <> TList [].
Proof.
  assert (H : occurs_in (TDict [("EinheitMastrNummer", TStr "SEE900000000001")])
                        (zeep_to_dict (PySeq [einheit_obj]))).
  { eapply occurs_item; [left; reflexivity|]. apply occurs_here. }
  split; [exact H|].
  apply (zeep_to_dict_drops_empty (PySeq [einheit_obj]) _ "EinheitMastrNummer" _ H).
  left; reflexivity.
Defined.

(** ** The retry engine *)

Ltac split_success :=
  match goal with
  | |- context [truthy ?d] => destruct (truthy d); [destruct (len_error d)|]
  end.

Lemma attempt_log {W} (client : MastrClient W) target delay st p st1 :
  attempt client target delay st = (p, st1) ->
  exists evs, log st1 = log st ++ Called (ReqGetMarktakteur "mastrNummer" (TStr target)) :: evs.
Proof.
  unfold attempt, call_GetMarktakteur. simpl.
  destruct (GetMarktakteur client "mastrNummer" (TStr target) (world st)) as [reply w].
  destruct reply as [resp|msg|msg].
  - destruct (py_getattr resp "Marktakteur"); [|split_success];
      intros [= <- <-]; exists []; reflexivity.
  - destruct (is_not_found msg); [|destruct (is_rate_limited msg)];
      intros [= <- <-]; simpl; rewrite <- ?app_assoc; eexists; reflexivity.
  - intros [= <- <-]; exists []; reflexivity.
Qed.

Lemma error_tag_cases (msg : string) :
  error_tag "not_found" /\ error_tag ("fault:" ++ msg) /\
  error_tag ("exception:" ++ msg) /\ error_tag "retry_exhausted".
Proof.
  unfold error_tag. repeat split.
  - now left.
  - right; left. now exists msg.
  - right; right; left. now exists msg.
  - now do 3 right.
Qed.

Lemma attempt_outcome {W} (client : MastrClient W) target delay st o st1 :
  attempt client target delay st = (Return o, st1) ->
  fst (fst o) = target /\
  ((snd o = None /\ exists obj, snd (fst o) = zeep_to_dict obj) \/
   (snd (fst o) = TNone /\ exists e, snd o = Some e /\ error_tag e)).
Proof.
  unfold attempt.
  destruct (call_GetMarktakteur client "mastrNummer" (TStr target) st) as [reply st0].
  destruct reply as [resp|msg|msg].
  - destruct (py_getattr resp "Marktakteur") as [m|found].
    + intros [= <- <-]. split; auto. right. split; auto.
      eexists; split; [reflexivity|]. apply error_tag_cases.
    + assert (Hdata : exists obj,
                (if obj_is_none (if obj_is_none found then resp else found)
                 then TNone
                 else zeep_to_dict (if obj_is_none found then resp else found))
                = zeep_to_dict obj).
      { destruct (obj_is_none (if obj_is_none found then resp else found)).
        - exists PyNone. reflexivity.
        - eexists; reflexivity. }
      cbv zeta. split_success; intros [= <- <-]; split; auto.
      * right. split; auto.
        eexists; split; [reflexivity|]. apply error_tag_cases.
  - destruct (is_not_found msg); [|destruct (is_rate_limited msg)]; intros [= <- <-].
    + split; auto. right. split; auto.
      eexists; split; [reflexivity|]. apply (error_tag_cases msg).
    + split; auto. right. split; auto.
      eexists; split; [reflexivity|]. apply error_tag_cases.
  - intros [= <- <-]. split; auto. right. split; auto.
    eexists; split; [reflexivity|]. apply error_tag_cases.
Qed.




Lemma retry_loop_rate_limited {W} (client : MastrClient W) target
  (Hrate : forall w, exists msg w1,
      GetMarktakteur client "mastrNummer" (TStr target) w = (RaisesFault msg, w1) /\
      is_not_found msg = false /\ is_rate_limited msg = true) n :
  forall delay st, exists st1,
    retry_loop client n target delay st = ((target, TNone, Some "retry_exhausted"), st1) /\
    log st1 = log st ++ backoff_events target n delay.
Proof.
  induction n as [|n IH]; intros delay st; simpl.
  - exists st. now rewrite app_nil_r.
  - unfold attempt, call_GetMarktakteur. simpl.
    destruct (Hrate (world st)) as (msg & w1 & -> & -> & ->).
    match goal with |- context [retry_loop client n target ?d ?s] =>
      destruct (IH d s) as (st1 & -> & Hlog) end.
    exists st1. split; auto.
    rewrite Hlog. simpl. now rewrite <- !app_assoc.
Qed.

(** C3.  When every call for the identifier raises a rate-limit fault, the
    fetch with the default [max_retries] returns the retry-exhausted outcome
    after exactly six calls; it sleeps after each, 0.2 s doubling (below the
    cap of 10 s), 12.6 s in all. *)
Theorem fetch_with_retry_rate_limited {W} (client : MastrClient W) (target : string)
  (st : State W) :
  (forall w, exists msg w1,
      GetMarktakteur client "mastrNummer" (TStr target) w = (RaisesFault msg, w1) /\
      is_not_found msg = false /\ is_rate_limited msg = true) ->
  exists st1,
    fetch_marktakteur_with_retry client target default_max_retries st
      = ((target, TNone, Some "retry_exhausted"), st1) /\
    exists evs,
      log st1 = log st ++ evs /\
      requests evs = repeat (ReqGetMarktakteur "mastrNummer" (TStr target)) 6 /\
      sleeps evs = [0.2; 0.4; 0.8; 1.6; 3.2; 6.4]%Q /\
      Forall (fun s => s <= 10.0)%Q (sleeps evs) /\
      (Qsum (sleeps evs) <= 12.6)%Q.
Proof.
  intros Hrate. unfold fetch_marktakteur_with_retry.
  destruct (retry_loop_rate_limited client target Hrate
              (Z.to_nat default_max_retries) 0.2 st) as (st1 & Hrun & Hlog).
  exists st1. split; auto.
  exists (backoff_events target (Z.to_nat default_max_retries) 0.2).
  split; auto. split; [reflexivity|]. split; [reflexivity|]. split.
  - repeat constructor; discriminate.
  - discriminate.
Qed.

Lemma fetch_with_retry_rate_limited_witness :
  exists st1,
    fetch_marktakteur_with_retry rate_limited_client "ABR900000000001"
                                 default_max_retries start_state
      = (("ABR900000000001", TNone, Some "retry_exhausted"), st1) /\
    exists evs,
      log st1 = log start_state ++ evs /\
      requests evs = repeat (ReqGetMarktakteur "mastrNummer" (TStr "ABR900000000001")) 6 /\
      sleeps evs = [0.2; 0.4; 0.8; 1.6; 3.2; 6.4]%Q /\
      Forall (fun s => s <= 10.0)%Q (sleeps evs) /\
      (Qsum (sleeps evs) <= 12.6)%Q.
Proof.
  apply (fetch_with_retry_rate_limited rate_limited_client "ABR900000000001" start_state).
  intros w. exists "429 ToManyRequests", (S w). repeat split; reflexivity.
Defined.

(** C4.  When the first call raises a fault whose message names a not-found
    case, the fetch returns the not-found outcome after this one call: no
    sleep, no further call. *)
Theorem fetch_with_retry_not_found {W} (client : MastrClient W) (target : string)
  (max_retries : Z) (st : State W) (msg : string) (w1 : W) :
  (0 < max_retries)%Z ->
  GetMarktakteur client "mastrNummer" (TStr target) (world st) = (RaisesFault msg, w1) ->
  PyStr.contains "MarktakteurNichtGefunden" msg = true \/
  PyStr.contains "MarktakteurUnbekannt" msg = true ->
  fetch_marktakteur_with_retry client target max_retries st
  = ((target, TNone, Some "not_found"),
     {| world := w1;
        log := log st ++ [Called (ReqGetMarktakteur "mastrNummer" (TStr target))] |}).
Proof.
  intros Hpos Hcall Hmsg. unfold fetch_marktakteur_with_retry.
  destruct (Z.to_nat max_retries) as [|n] eqn:En; [lia|].
  simpl. unfold attempt, call_GetMarktakteur. simpl. rewrite Hcall.
  assert (Hnf : is_not_found msg = true).
  { unfold is_not_found. destruct Hmsg as [-> | ->]; auto using orb_true_r. }
  now rewrite Hnf.
Qed.

Lemma fetch_with_retry_not_found_witness :
  fetch_marktakteur_with_retry unknown_client "ABR900000000001" default_max_retries
                               start_state
  = (("ABR900000000001", TNone, Some "not_found"),
     {| world := 1;
        log := [Called (ReqGetMarktakteur "mastrNummer" (TStr "ABR900000000001"))] |}).
Proof.
  apply (fetch_with_retry_not_found unknown_client "ABR900000000001" default_max_retries
           start_state "MarktakteurNichtGefunden: ABR900000000001" 1).
  - reflexivity.
  - reflexivity.
  - left; reflexivity.
Defined.

(** ** The batch orchestrator *)

Lemma future_step_spec {W} (client : MastrClient W) f st f1 st1 :
  future_step client f st = (f1, st1) ->
  future_target f1 = future_target f /\
  (is_running f = true -> future_weight f1 < future_weight f) /\
  (is_running f = false -> f1 = f).
Proof.
  destruct f as [target [|n] delay|o]; simpl.
  - intros [= <- <-]. simpl. repeat split; auto; discriminate.
  - destruct (attempt client target delay st) as [[o|d] st0] eqn:E; intros [= <- <-].
    + apply attempt_outcome in E. destruct E as [E _]. simpl.
      repeat split; auto; try lia; discriminate.
    + simpl. repeat split; auto; discriminate.
  - intros [= <- <-]. repeat split; auto. discriminate.
Qed.

Lemma run_alone_finished {W} (client : MastrClient W) k o st :
  run_alone client k (Finished o) st = (Finished o, st).
Proof. induction k as [|k IH]; simpl; auto. Qed.

(** A worker that runs alone computes [fetch_marktakteur_with_retry]. *)
Lemma run_alone_retry_loop {W} (client : MastrClient W) n :
  forall target delay st,
  run_alone client (S n) (Running target n delay) st =
  (Finished (fst (retry_loop client n target delay st)),
   snd (retry_loop client n target delay st)).
Proof.
  induction n as [|n IH]; intros target delay st.
  - reflexivity.
  - change (run_alone client (S (S n)) (Running target (S n) delay) st)
      with (let '(f1, st1) := future_step client (Running target (S n) delay) st in
            run_alone client (S n) f1 st1).
    cbn [future_step retry_loop].
    destruct (attempt client target delay st) as [[o | d] st1].
    + now rewrite run_alone_finished.
    + apply IH.
Qed.

Lemma step_at_spec {W} (client : MastrClient W) i :
  forall fs st fs1 done st1,
  step_at client i fs st = (fs1, done, st1) ->
  map future_target fs1 = map future_target fs /\
  (forall o, In (Finished o) fs1 <-> In (Finished o) fs \/ In o done) /\
  (forall f, nth_error fs i = Some f -> is_running f = true ->
             pool_weight fs1 < pool_weight fs).
Proof.
  induction i as [|i IH]; intros [|f rest] st fs1 done st1; simpl.
  - intros [= <- <- <-]. repeat split; simpl; try tauto; discriminate.
  - destruct (future_step client f st) as [f1 st0] eqn:E.
    intros [= <- <- <-].
    destruct (future_step_spec _ _ _ _ _ E) as (Ht & Hrun & Hfin).
    split; [simpl; now rewrite Ht|]. split.
    + intros o. simpl. destruct (is_running f) eqn:Er.
      * destruct f as [t n d|o0]; [|discriminate].
        destruct f1 as [t1 n1 d1|o1]; simpl.
        -- split; [intros [?|?]; [discriminate|auto] | intros [[?|?]|[]]; [discriminate|auto]].
        -- split.
           ++ intros [[= ->]|?]; auto.
           ++ intros [[?|?]|[->|[]]]; [discriminate|auto|auto].
      * rewrite (Hfin eq_refl). destruct f; simpl; tauto.
    + intros f0 [= <-] Er. unfold pool_weight. simpl.
      specialize (Hrun Er). lia.
  - intros [= <- <- <-]. repeat split; simpl; try tauto; discriminate.
  - destruct (step_at client i rest st) as [[rest1 done0] st0] eqn:E.
    intros [= <- <- <-].
    destruct (IH _ _ _ _ _ E) as (Ht & Hfin & Hw).
    split; [simpl; now rewrite Ht|]. split.
    + intros o. simpl. rewrite Hfin. tauto.
    + intros f0 Hnth Er. unfold pool_weight in *. simpl.
      specialize (Hw _ Hnth Er). lia.
Qed.

Lemma running_indices_In (fs : list Future) :
  forall k i, In i (running_indices k fs) ->
  exists f, nth_error fs (i - k) = Some f /\ is_running f = true /\ k <= i.
Proof.
  induction fs as [|f rest IH]; intros k i; simpl; [tauto|].
  assert (Hrest : In i (running_indices (S k) rest) ->
                  exists f0, nth_error (f :: rest) (i - k) = Some f0 /\
                             is_running f0 = true /\ k <= i).
  { intros Hin. destruct (IH _ _ Hin) as (f0 & Hn & Hr & Hle).
    exists f0. replace (i - k) with (S (i - S k)) by lia. simpl. auto with arith. }
  destruct (is_running f) eqn:Er; auto.
  intros [<-|Hin]; auto.
  exists f. rewrite Nat.sub_diag. auto.
Qed.

Lemma running_indices_nil (fs : list Future) :
  forall k, running_indices k fs = [] -> Forall (fun f => is_running f = false) fs.
Proof.
  induction fs as [|f rest IH]; intros k; simpl; auto.
  destruct (is_running f) eqn:Er; [discriminate|].
  intros H. constructor; eauto.
Qed.

Lemma pool_weight_zero (fs : list Future) :
  pool_weight fs = 0 -> Forall (fun f => is_running f = false) fs.
Proof.
  unfold pool_weight. induction fs as [|f rest IH]; simpl; auto.
  intros H. constructor.
  - destruct f; simpl in *; auto; lia.
  - apply IH. lia.
Qed.

Lemma firstn_incl {A} (n : nat) (l : list A) x : In x (firstn n l) -> In x l.
Proof.
  revert l. induction n as [|n IH]; intros [|y l]; simpl; try tauto.
  intros [?|?]; auto.
Qed.

Lemma run_pool_unfold {W} (client : MastrClient W) sched width fuel tick fs completed st :
  run_pool client (S fuel) sched tick width fs completed st =
  match firstn width (running_indices 0 fs) with
  | [] => (fs, completed, st)
  | (i0 :: _) as active =>
      let i := nth (sched tick mod List.length active) active i0 in
      let '(fs1, done, st1) := step_at client i fs st in
      run_pool client fuel sched (S tick) width fs1 (completed ++ done) st1
  end.
Proof. reflexivity. Qed.

Lemma run_pool_finishes {W} (client : MastrClient W) sched width fuel :
  0 < width ->
  forall tick fs completed st fs1 completed1 st1,
  pool_weight fs <= fuel ->
  (forall o, In o completed <-> In (Finished o) fs) ->
  run_pool client fuel sched tick width fs completed st = (fs1, completed1, st1) ->
  map future_target fs1 = map future_target fs /\
  (forall o, In o completed1 <-> In (Finished o) fs1) /\
  Forall (fun f => is_running f = false) fs1.
Proof.
  intros Hwidth.
  induction fuel as [|fuel IH]; intros tick fs completed st fs1 completed1 st1 Hw Hinv.
  - simpl. intros [= <- <- <-]. split; [reflexivity|]. split; [assumption|].
    apply pool_weight_zero. lia.
  - rewrite run_pool_unfold.
    destruct (firstn width (running_indices 0 fs)) as [|i0 more] eqn:Eact.
    + intros [= <- <- <-]. split; [reflexivity|]. split; [assumption|].
      apply running_indices_nil with (k := 0).
      destruct width; [lia|].
      destruct (running_indices 0 fs); [reflexivity|discriminate].
    + cbv zeta.
      remember (nth (sched tick mod List.length (i0 :: more)) (i0 :: more) i0) as i eqn:Ei.
      assert (Hi : In i (running_indices 0 fs)).
      { apply firstn_incl with (n := width). rewrite Eact, Ei.
        apply nth_In. apply Nat.mod_upper_bound. discriminate. }
      destruct (running_indices_In _ _ _ Hi) as (f & Hnth & Hrun & _).
      rewrite Nat.sub_0_r in Hnth.
      destruct (step_at client i fs st) as [[fs2 done] st2] eqn:Estep.
      destruct (step_at_spec _ _ _ _ _ _ _ Estep) as (Ht & Hfin & Hdec).
      specialize (Hdec _ Hnth Hrun).
      intros Hrun_pool. apply IH in Hrun_pool.
      * destruct Hrun_pool as (Ht1 & Hinv1 & Hall).
        split; [congruence|]. split; auto.
      * lia.
      * intros o. rewrite in_app_iff, Hfin, Hinv. tauto.
Qed.

Lemma collect_results_keys (completed : list Outcome) :
  forall acc : list (string * FetchResult),
  NoDup (PyDict.keys acc) ->
  let results :=
    fold_left (fun results (o : Outcome) =>
                 let '(mastr_num, d, err) := o in
                 PyDict.set results mastr_num {| data := d; error := err |})
              completed acc in
  NoDup (PyDict.keys results) /\
  forall k, In k (PyDict.keys results) <->
            In k (PyDict.keys acc) \/ In k (map (fun o => fst (fst o)) completed).
Proof.
  induction completed as [|[[m d] err] rest IH]; intros acc Hnd; simpl.
  - split; auto. intros k. tauto.
  - assert (Hkeys := dict_keys_set acc m {| data := d; error := err |}).
    destruct (PyDict.mem acc m) eqn:Em.
    + destruct (IH (PyDict.set acc m {| data := d; error := err |})) as [Hn Hk].
      { now rewrite Hkeys. }
      split; auto. intros k. rewrite Hk, Hkeys.
      apply dict_mem_In in Em. split; [tauto|].
      intros [?|[<-|?]]; auto.
    + destruct (IH (PyDict.set acc m {| data := d; error := err |})) as [Hn Hk].
      { rewrite Hkeys. apply NoDup_app; auto.
        - repeat constructor. simpl; tauto.
        - intros k Hin1 [<-|[]]. apply dict_mem_In in Hin1. congruence. }
      split; auto. intros k. rewrite Hk, Hkeys, in_app_iff. simpl. tauto.
Qed.

(** C1.  Whatever the calls answer and however the pool schedules them, the
    result map of the batch fetch has exactly the given identifiers as keys,
    each once. *)
Theorem batch_fetch_covers {W} (client : MastrClient W) (sched : nat -> nat)
  (mastr_nums : list string) (max_workers : Z) (st : State W) :
  (0 < max_workers)%Z ->
  exists results st1,
    batch_fetch_marktakteure client sched mastr_nums max_workers st = (Ok results, st1) /\
    NoDup (PyDict.keys results) /\
    forall k, In k (PyDict.keys results) <-> In k mastr_nums.
Proof.
  intros Hpos. unfold batch_fetch_marktakteure.
  destruct (Z.leb_spec max_workers 0) as [Hle|_]; [lia|].
  set (attempts := Z.to_nat default_max_retries).
  set (futures := map (fun n => Running n attempts 0.2) mastr_nums).
  destruct (run_pool client (List.length mastr_nums * S attempts) sched 0
              (Z.to_nat max_workers) futures [] st) as [[fs1 completed] st1] eqn:Erun.
  assert (Hfutures : map future_target futures = mastr_nums).
  { unfold futures. rewrite map_map. simpl. apply map_id. }
  apply run_pool_finishes in Erun.
  - destruct Erun as (Ht & Hinv & Hall).
    exists (collect_results completed), st1. split; auto.
    destruct (collect_results_keys completed [] (NoDup_nil _)) as [Hnd Hk].
    split; [exact Hnd|].
    intros k. unfold collect_results. rewrite Hk. simpl.
    rewrite <- Hfutures, <- Ht, !in_map_iff. split.
    + intros [[]|(o & <- & Hin)]. exists (Finished o). split; auto.
      now apply Hinv.
    + intros (f & <- & Hin). right.
      rewrite Forall_forall in Hall. specialize (Hall _ Hin).
      destruct f as [|o]; [discriminate|].
      exists o. split; auto. now apply Hinv.
  - lia.
  - unfold futures, pool_weight. rewrite map_map. simpl.
    clear. induction mastr_nums; simpl; lia.
  - intros o. simpl. unfold futures. rewrite in_map_iff.
    split; [tauto|]. intros (n & H & _). discriminate.
Qed.

Lemma batch_fetch_covers_witness :
  exists results st1,
    batch_fetch_marktakteure rate_limited_client (fun tick => tick)
      ["ABR900000000002"; "ABR900000000001"; "ABR900000000002"] 2 start_state
      = (Ok results, st1) /\
    NoDup (PyDict.keys results) /\
    forall k, In k (PyDict.keys results) <->
              In k ["ABR900000000002"; "ABR900000000001"; "ABR900000000002"].
Proof.
  apply (batch_fetch_covers rate_limited_client (fun tick => tick)
           ["ABR900000000002"; "ABR900000000001"; "ABR900000000002"] 2 start_state).
  reflexivity.
Defined.

(** ** Pagination *)

Lemma requests_app (a b : list Event) : requests (a ++ b) = requests a ++ requests b.
Proof. unfold requests. apply flat_map_app. Qed.

Section Page_loop_facts.
Context {W : Type}.
Variable fetch : Z -> State W -> Reply (option (list PyObj)) * State W.
Variable request : Z -> Request.
Variable fault_prefix : string.
Hypothesis fetch_log : forall start st reply st1,
  fetch start st = (reply, st1) -> log st1 = log st ++ [Called (request start)].

Lemma offsets_cons (limit start : Z) (n : nat) :
  map (fun i => request (start + Z.of_nat i * limit)%Z) (seq 0 (S n)) =
  request start ::
  map (fun i => request (start + limit + Z.of_nat i * limit)%Z) (seq 0 n).
Proof.
  cbn [seq map]. f_equal.
  - f_equal. lia.
  - rewrite <- seq_shift, map_map. apply map_ext. intros i. f_equal. lia.
Qed.

Lemma page_loop_short_page (limit : Z) (sleep_s : Q) :
  (0 <= sleep_s)%Q ->
  forall pages last start st fuel,
  Forall (fun page => (limit <= Z.of_nat (List.length page))%Z) pages ->
  (Z.of_nat (List.length last) < limit)%Z ->
  serves fetch limit start sleep_s st (pages ++ [last]) ->
  List.length pages < fuel ->
  exists st1,
    page_loop fetch fault_prefix fuel limit start sleep_s st
      = (map zeep_to_dict (List.concat (pages ++ [last])), Exhausted, st1) /\
    requests (log st1) =
      requests (log st) ++
      map (fun i => request (start + Z.of_nat i * limit)%Z) (seq 0 (S (List.length pages))).
Proof.
  intros Hsleep. induction pages as [|page pages IH];
    intros last start st fuel Hfull Hshort Hserves Hfuel;
    (destruct fuel as [|fuel]; [simpl in Hfuel; lia|]);
    simpl in Hserves; destruct Hserves as (listing & st1 & Hfetch & Hitems & Hrest).
  - exists st1. cbn [page_loop]. rewrite Hfetch. cbv beta iota zeta. rewrite Hitems.
    apply Z.ltb_lt in Hshort. rewrite Hshort. cbn [app List.concat].
    rewrite app_nil_r. split; auto.
    rewrite (fetch_log _ _ _ _ Hfetch), requests_app, offsets_cons.
    reflexivity.
  - pose proof (Forall_inv Hfull) as Hpage. pose proof (Forall_inv_tail Hfull) as Hpages.
    simpl in Hpage.
    assert (Hge : (Z.of_nat (List.length page) <? limit)%Z = false)
      by (apply Z.ltb_ge; auto).
    assert (Hfuel1 : List.length pages < fuel) by (simpl in Hfuel; lia).
    cbn [page_loop]. rewrite Hfetch. cbv beta iota zeta. rewrite Hitems, Hge.
    cbn [List.length]. rewrite offsets_cons.
    destruct (Qeq_bool sleep_s 0) eqn:Ez.
    + destruct (IH last (start + limit)%Z st1 fuel Hpages Hshort Hrest Hfuel1)
        as (st2 & -> & Hlog).
      exists st2. split.
      * cbn [yield_first app List.concat]. now rewrite map_app.
      * rewrite Hlog, (fetch_log _ _ _ _ Hfetch), requests_app, <- app_assoc.
        reflexivity.
    + assert (Hle : Qle_bool 0 sleep_s = true) by now apply Qle_bool_iff.
      rewrite Hle.
      destruct (IH last (start + limit)%Z (sleep sleep_s st1) fuel Hpages Hshort Hrest Hfuel1)
        as (st2 & -> & Hlog).
      exists st2. split.
      * cbn [yield_first app List.concat]. now rewrite map_app.
      * rewrite Hlog. change (log (sleep sleep_s st1)) with (log st1 ++ [Slept sleep_s]).
        rewrite requests_app. change (requests [Slept sleep_s]) with (@nil Request).
        rewrite app_nil_r, (fetch_log _ _ _ _ Hfetch), requests_app, <- app_assoc.
        reflexivity.
Qed.

Lemma page_loop_full_pages (limit : Z) (sleep_s : Q) :
  (0 <= sleep_s)%Q ->
  forall pages start st,
  Forall (fun page => (limit <= Z.of_nat (List.length page))%Z) pages ->
  serves fetch limit start sleep_s st pages ->
  exists st1,
    page_loop fetch fault_prefix (List.length pages) limit start sleep_s st
      = (map zeep_to_dict (List.concat pages), Unfinished, st1).
Proof.
  intros Hsleep. induction pages as [|page pages IH]; intros start st Hfull Hserves.
  - exists st. reflexivity.
  - simpl in Hserves. destruct Hserves as (listing & st1 & Hfetch & Hitems & Hrest).
    pose proof (Forall_inv Hfull) as Hpage. pose proof (Forall_inv_tail Hfull) as Hpages.
    simpl in Hpage.
    assert (Hge : (Z.of_nat (List.length page) <? limit)%Z = false)
      by (apply Z.ltb_ge; auto).
    cbn [page_loop List.length]. rewrite Hfetch. cbv beta iota zeta. rewrite Hitems, Hge.
    destruct (Qeq_bool sleep_s 0) eqn:Ez.
    + destruct (IH (start + limit)%Z st1 Hpages Hrest) as (st2 & ->).
      exists st2. cbn [yield_first List.concat]. now rewrite map_app.
    + assert (Hle : Qle_bool 0 sleep_s = true) by now apply Qle_bool_iff.
      rewrite Hle.
      destruct (IH (start + limit)%Z (sleep sleep_s st1) Hpages Hrest) as (st2 & ->).
      exists st2. cbn [yield_first List.concat]. now rewrite map_app.
Qed.

End Page_loop_facts.

Lemma call_GetListeAlleEinheiten_log {W} (client : MastrClient W) limit datum start st reply st1 :
  call_GetListeAlleEinheiten client limit datum start st = (reply, st1) ->
  log st1 = log st ++ [Called (ReqGetListeAlleEinheiten start limit datum)].
Proof.
  unfold call_GetListeAlleEinheiten. simpl.
  destruct (GetListeAlleEinheiten client start limit datum (world st)).
  now intros [= <- <-].
Qed.

Lemma call_GetGefilterteListeMarktakteure_log {W} (client : MastrClient W)
  role limit datum start st reply st1 :
  call_GetGefilterteListeMarktakteure client role limit datum start st = (reply, st1) ->
  log st1 = log st ++ [Called (ReqGetGefilterteListeMarktakteure start limit datum role)].
Proof.
  unfold call_GetGefilterteListeMarktakteure. simpl.
  destruct (GetGefilterteListeMarktakteure client start limit datum role (world st)).
  now intros [= <- <-].
Qed.

(** C5.  Both listing iterators ask for the offsets 0, [limit], 2 [limit],
    ... and stop exactly at the first page with fewer than [limit] items:
    when the registry serves the pages [pages], none of them short, and then
    the short page [last] (the empty page, for one), the iterator yields the
    items of all these pages in order, normalized, and is exhausted after
    one call per page, the short one included; while the pages served are not
    short it does not stop.  The pause between two pages is not negative. *)
Theorem iterators_stop_at_short_page {W} (client : MastrClient W) (limit : Z)
  (datum_ab_iso : option string) (role_code : string) (sleep_s : Q)
  (pages : list (list PyObj)) (last : list PyObj) :
  (0 <= sleep_s)%Q ->
  Forall (fun page => (limit <= Z.of_nat (List.length page))%Z) pages ->
  (Z.of_nat (List.length last) < limit)%Z ->
  (forall st fuel,
     serves (call_GetListeAlleEinheiten client limit datum_ab_iso)
            limit 0 sleep_s st (pages ++ [last]) ->
     List.length pages < fuel ->
     exists st1,
       iter_einheiten client fuel limit datum_ab_iso sleep_s st
         = (map zeep_to_dict (List.concat (pages ++ [last])), Exhausted, st1) /\
       requests (log st1) =
         requests (log st) ++
         map (fun i => ReqGetListeAlleEinheiten (Z.of_nat i * limit) limit datum_ab_iso)
             (seq 0 (S (List.length pages)))) /\
  (forall st,
     serves (call_GetListeAlleEinheiten client limit datum_ab_iso)
            limit 0 sleep_s st pages ->
     exists st1,
       iter_einheiten client (List.length pages) limit datum_ab_iso sleep_s st
         = (map zeep_to_dict (List.concat pages), Unfinished, st1)) /\
  (forall st fuel,
     serves (call_GetGefilterteListeMarktakteure client role_code limit datum_ab_iso)
            limit 0 sleep_s st (pages ++ [last]) ->
     List.length pages < fuel ->
     exists st1,
       iter_marktakteure_by_role client fuel role_code limit datum_ab_iso sleep_s st
         = (map zeep_to_dict (List.concat (pages ++ [last])), Exhausted, st1) /\
       requests (log st1) =
         requests (log st) ++
         map (fun i => ReqGetGefilterteListeMarktakteure
                         (Z.of_nat i * limit) limit datum_ab_iso role_code)
             (seq 0 (S (List.length pages)))) /\
  (forall st,
     serves (call_GetGefilterteListeMarktakteure client role_code limit datum_ab_iso)
            limit 0 sleep_s st pages ->
     exists st1,
       iter_marktakteure_by_role client (List.length pages) role_code limit
                                 datum_ab_iso sleep_s st
         = (map zeep_to_dict (List.concat pages), Unfinished, st1)).
Proof.
  intros Hsleep Hfull Hshort. repeat split.
  - intros st fuel Hserves Hfuel.
    apply (page_loop_short_page _
             (fun s => ReqGetListeAlleEinheiten s limit datum_ab_iso) _
             (call_GetListeAlleEinheiten_log client limit datum_ab_iso)
             limit sleep_s Hsleep pages last 0%Z st fuel); auto.
  - intros st Hserves.
    apply (page_loop_full_pages _ _ limit sleep_s Hsleep pages 0%Z st); auto.
  - intros st fuel Hserves Hfuel.
    apply (page_loop_short_page _
             (fun s => ReqGetGefilterteListeMarktakteure s limit datum_ab_iso role_code) _
             (call_GetGefilterteListeMarktakteure_log client role_code limit datum_ab_iso)
             limit sleep_s Hsleep pages last 0%Z st fuel); auto.
  - intros st Hserves.
    apply (page_loop_full_pages _ _ limit sleep_s Hsleep pages 0%Z st); auto.
Qed.

Lemma iterators_stop_at_short_page_witness :
  serves (call_GetListeAlleEinheiten two_units_client 2 None) 2 0 0 start_state
         ([[einheit_obj; einheit_obj]] ++ [[]]) /\
  exists st1,
    iter_einheiten two_units_client 5 2 None 0 start_state
      = (map zeep_to_dict (List.concat ([[einheit_obj; einheit_obj]] ++ [[]])),
         Exhausted, st1) /\
    requests (log st1) =
      requests (log start_state) ++
      map (fun i => ReqGetListeAlleEinheiten (Z.of_nat i * 2) 2 None) (seq 0 2).
Proof.
  assert (Hserves : serves (call_GetListeAlleEinheiten two_units_client 2 None)
                           2 0 0 start_state ([[einheit_obj; einheit_obj]] ++ [[]])).
  { simpl. eexists _, _. split; [reflexivity|]. split; [reflexivity|].
    eexists _, _. split; [reflexivity|]. split; [reflexivity|]. exact I. }
  split; [exact Hserves|].
  assert (Hsleep : (0 <= 0)%Q) by discriminate.
  assert (Hfull : Forall (fun page => (2 <= Z.of_nat (List.length page))%Z)
                         [[einheit_obj; einheit_obj]]).
  { constructor; [discriminate|constructor]. }
  assert (Hshort : (Z.of_nat (@List.length PyObj []) < 2)%Z) by reflexivity.
  destruct (iterators_stop_at_short_page two_units_client 2 None "" 0
              [[einheit_obj; einheit_obj]] [] Hsleep Hfull Hshort) as [H _].
  apply (H start_state 5 Hserves). simpl. lia.
Defined.

(** ** The filter *)

Lemma py_or_chain_first (before : list Tree) (v : Tree) (after : list Tree) :
  Forall (fun x => truthy x = false) before -> truthy v = true ->
  py_or_chain (before ++ v :: after) = v.
Proof.
  intros Hbefore Hv. induction Hbefore as [|x before Hx _ IH]; simpl.
  - destruct after; auto. unfold py_or. now rewrite Hv.
  - destruct (before ++ v :: after) eqn:E.
    + destruct before; discriminate.
    + unfold py_or. now rewrite Hx.
Qed.

Lemma py_or_chain_none (vs : list Tree) :
  Forall (fun x => x = TNone) vs -> py_or_chain vs = TNone.
Proof.
  induction 1 as [|x vs Hx _ IH]; simpl; auto.
  subst x. destruct vs; auto.
Qed.

Lemma exceeds_150 (p : Q) : negb (Qle_bool p 150.0) = true <-> (150 < p)%Q.
Proof.
  assert (E : (150.0 == 150)%Q) by reflexivity.
  rewrite negb_true_iff. split.
  - intros H. apply Qnot_le_lt. intros Hle. rewrite <- E in Hle.
    apply Qle_bool_iff in Hle. congruence.
  - intros H. destruct (Qle_bool p 150.0) eqn:Hb; auto.
    apply Qle_bool_iff in Hb. rewrite E in Hb.
    exfalso. exact (Qlt_not_le _ _ H Hb).
Qed.

Lemma not_at_most_150 (p : Float) :
  negb (float_le p 150.0) = true <->
  p = NaN \/ p = Infinity false \/ exists q, p = Finite q /\ (150 < q)%Q.
Proof.
  destruct p as [q|negative|]; simpl.
  - rewrite exceeds_150. split.
    + intros H. right; right. now exists q.
    + intros [H | [H | (q' & [= <-] & H)]]; [discriminate H|discriminate H|exact H].
  - destruct negative; simpl; split; auto.
    + discriminate.
    + intros [H | [H | (q & H & _)]]; discriminate H.
  - split; auto.
Qed.

Lemma nearest_double_small (z : Z) :
  (Z.abs z < 2 ^ 53)%Z -> nearest_double z = z.
Proof.
  intros Hsmall. unfold nearest_double.
  destruct (Z.leb_spec (Z.log2 (Z.abs z) - 52) 0) as [_ | Hbig]; [reflexivity|].
  assert (Ha : (0 < Z.abs z)%Z).
  { destruct (Z.lt_ge_cases 0 (Z.abs z)) as [H | H]; auto.
    rewrite (Z.log2_nonpos (Z.abs z)) in Hbig by lia. lia. }
  apply Z.log2_lt_pow2 in Hsmall; lia.
Qed.

Lemma nearest_double_big (z : Z) :
  (52 < Z.log2 (Z.abs z))%Z ->
  exists r, nearest_double z = (Z.sgn z * r)%Z /\ (2 ^ Z.log2 (Z.abs z) <= r)%Z.
Proof.
  intros Hbig. unfold nearest_double.
  destruct (Z.leb_spec (Z.log2 (Z.abs z) - 52) 0) as [Hsmall | _]; [lia|].
  assert (Ha : (0 < Z.abs z)%Z).
  { destruct (Z.lt_ge_cases 0 (Z.abs z)) as [H | H]; auto.
    rewrite (Z.log2_nonpos (Z.abs z)) in Hbig by lia. lia. }
  destruct (Z.log2_spec _ Ha) as [Hlow _].
  eexists. split; [reflexivity|].
  replace (Z.log2 (Z.abs z)) with (52 + (Z.log2 (Z.abs z) - 52))%Z at 1 by lia.
  replace (Z.log2 (Z.abs z)) with (52 + (Z.log2 (Z.abs z) - 52))%Z in Hlow at 1 by lia.
  remember (Z.log2 (Z.abs z) - 52)%Z as shift eqn:Es.
  rewrite Z.pow_add_r in Hlow |- * by lia.
  assert (Hpow : (0 < 2 ^ shift)%Z) by (apply Z.pow_pos_nonneg; lia).
  rewrite Z.shiftr_div_pow2 by lia.
  assert (Hq : (2 ^ 52 <= Z.abs z / 2 ^ shift)%Z).
  { apply Z.div_le_lower_bound; lia. }
  remember (Z.abs z / 2 ^ shift)%Z as q eqn:Eq.
  match goal with
  | |- context [Z.shiftl ?c shift] =>
      assert (Hq' : (2 ^ 52 <= c)%Z) by (destruct (_ || _); lia);
      rewrite (Z.shiftl_mul_pow2 c shift) by lia;
      generalize dependent c; intros q' Hq'
  end.
  apply Z.mul_le_mono_nonneg_r; lia.
Qed.

Lemma nearest_double_above_150 (z : Z) :
  (150 < nearest_double z)%Z <-> (150 < z)%Z.
Proof.
  destruct (Z.lt_ge_cases (Z.abs z) (2 ^ 53)) as [Hsmall | Hbig].
  - now rewrite nearest_double_small.
  - assert (Hlog : (53 <= Z.log2 (Z.abs z))%Z).
    { rewrite <- (Z.log2_pow2 53) by lia. now apply Z.log2_le_mono. }
    destruct (nearest_double_big z) as (r & -> & Hr); [lia|].
    assert (Hr' : (2 ^ 53 <= r)%Z).
    { apply Z.le_trans with (2 := Hr). apply Z.pow_le_mono_r; lia. }
    assert (E53 : (2 ^ 53 = 9007199254740992)%Z) by reflexivity.
    rewrite E53 in *.
    destruct (Z.abs_spec z) as [[Hz Ez] | [Hz Ez]].
    + rewrite Z.sgn_pos by lia. lia.
    + rewrite Z.sgn_neg by lia. lia.
Qed.

Lemma float_of_int_exact (z : Z) :
  (Z.abs z < 2 ^ 53)%Z -> float_of_int z = Some (Finite (inject_Z z)).
Proof.
  intros Hsmall. unfold float_of_int. rewrite (nearest_double_small z Hsmall).
  destruct (Z.leb_spec (2 ^ 1024) (Z.abs z)) as [Hle | _]; [|reflexivity].
  exfalso. apply (Z.lt_irrefl (2 ^ 53)).
  apply Z.le_lt_trans with (2 := Hsmall). apply Z.le_trans with (2 := Hle).
  apply Z.pow_le_mono_r; lia.
Qed.

Lemma float_of_int_overflow (z : Z) :
  (2 ^ 1024 <= Z.abs z)%Z -> float_of_int z = None.
Proof.
  intros Hlarge. unfold float_of_int.
  assert (Hlog : (1024 <= Z.log2 (Z.abs z))%Z).
  { rewrite <- (Z.log2_pow2 1024) by lia. now apply Z.log2_le_mono. }
  destruct (nearest_double_big z) as (r & -> & Hr); [lia|].
  assert (Hr' : (2 ^ 1024 <= r)%Z).
  { apply Z.le_trans with (2 := Hr). apply Z.pow_le_mono_r; lia. }
  assert (Habs : Z.abs (Z.sgn z * r) = r).
  { remember (2 ^ 1024)%Z as top eqn:Etop.
    assert (Htop : (0 < top)%Z) by (subst top; apply Z.pow_pos_nonneg; lia).
    destruct (Z.abs_spec z) as [[Hz Ez] | [Hz Ez]].
    - rewrite Z.sgn_pos by lia. lia.
    - rewrite Z.sgn_neg by lia. lia. }
  rewrite Habs. now destruct (Z.leb_spec (2 ^ 1024) r) as [_ | Hlt]; [|lia].
Qed.

Lemma float_of_int_above_150 (z : Z) (x : Float) :
  float_of_int z = Some x -> negb (float_le x 150.0) = (150 <? z)%Z.
Proof.
  unfold float_of_int. destruct (2 ^ 1024 <=? Z.abs (nearest_double z))%Z; [discriminate|].
  intros [= <-]. simpl.
  destruct (Z.ltb_spec 150 z) as [H | H].
  - apply exceeds_150. change 150%Q with (inject_Z 150). rewrite <- Zlt_Qlt.
    now apply nearest_double_above_150.
  - destruct (negb (Qle_bool (inject_Z (nearest_double z)) 150.0)) eqn:E; auto.
    apply exceeds_150 in E. change 150%Q with (inject_Z 150) in E.
    rewrite <- Zlt_Qlt in E. apply (proj1 (nearest_double_above_150 z)) in E. lia.
Qed.

Lemma bruttoleistung_ok_iff {B : Builtins} (details einheit : Dict) :
  bruttoleistung_ok details einheit = Ok true <->
  exists p, power_kw (bruttoleistung details einheit) = Converted (Some p) /\
            (p = NaN \/ p = Infinity false \/ exists q, p = Finite q /\ (150 < q)%Q).
Proof.
  unfold bruttoleistung_ok.
  destruct (is_none (bruttoleistung details einheit)) eqn:En.
  - destruct (bruttoleistung details einheit); try discriminate En.
    split; [discriminate|]. intros (p & H & _). discriminate.
  - destruct (power_kw (bruttoleistung details einheit)) as [[p|]| |].
    + split.
      * intros [= H]. exists p. split; auto. now apply not_at_most_150.
      * intros (p' & [= <-] & H). f_equal. now apply not_at_most_150.
    + split; [discriminate|]. intros (p & H & _). discriminate.
    + split; [discriminate|]. intros (p & H & _). discriminate.
    + split; [discriminate|]. intros (p & H & _). discriminate.
Qed.

(** C7, as the code has it.  The power rating is the first truthy value
    (neither null, zero, false nor empty) among the aliases, tried over the
    detail record and then over the summary record.  The criterion passes
    exactly when [float] accepts the rating and the number is not at most
    150: above 150, infinite, or NaN.  A missing rating or a text [float]
    refuses fail it, and then [matches_criteria] returns [False]; a whole
    number passes exactly when it is above 150, unless it is beyond the
    doubles, and then [OverflowError] leaves [matches_criteria].  A unit that
    passes the other criteria matches exactly when this one passes.  The
    battery of 200 kW matches, the same battery with 100 kW does not. *)
Theorem bruttoleistung_criterion {B : Builtins} {W} (details einheit : Dict)
  (client : option (MastrClient W)) (st : State W) :
  (forall before v after,
     bruttoleistung_aliases details einheit = before ++ v :: after ->
     Forall (fun x => truthy x = false) before -> truthy v = true ->
     bruttoleistung details einheit = v) /\
  (bruttoleistung_ok details einheit = Ok true <->
   exists p, power_kw (bruttoleistung details einheit) = Converted (Some p) /\
             (p = NaN \/ p = Infinity false \/ exists q, p = Finite q /\ (150 < q)%Q)) /\
  (Forall (fun x => x = TNone) (bruttoleistung_aliases details einheit) ->
   bruttoleistung_ok details einheit = Ok false) /\
  (forall s, bruttoleistung details einheit = TStr s -> float_of_str s = None ->
             bruttoleistung_ok details einheit = Ok false) /\
  (forall z, bruttoleistung details einheit = TInt z ->
             match float_of_int z with
             | Some _ => bruttoleistung_ok details einheit = Ok (150 <? z)%Z
             | None => bruttoleistung_ok details einheit
                       = Raise "int too large to convert to float"
             end /\
             ((Z.abs z < 2 ^ 53)%Z -> float_of_int z = Some (Finite (inject_Z z))) /\
             ((2 ^ 1024 <= Z.abs z)%Z -> float_of_int z = None)) /\
  (forall msg, bruttoleistung_ok details einheit = Raise msg ->
               exists z, bruttoleistung details einheit = TInt z /\
                         float_of_int z = None) /\
  (bruttoleistung_ok details einheit = Ok false ->
   fst (matches_criteria details einheit client st) = Ok false) /\
  (forall msg, technologie_ok details = true -> batterietechnologie_ok details = true ->
               bruttoleistung_ok details einheit = Raise msg ->
               matches_criteria details einheit client st = (Raise msg, st)) /\
  (technologie_ok details = true -> batterietechnologie_ok details = true ->
   direct_natural_person details einheit = false ->
   fst (matches_criteria details einheit (@None (MastrClient W)) st)
   = bruttoleistung_ok details einheit) /\
  fst (@matches_criteria ascii_builtins nat (speicher_details (TInt 200)) []
         (Some (operator_client "Unternehmen")) start_state) = Ok true /\
  fst (@matches_criteria ascii_builtins nat (speicher_details (TInt 100)) []
         (Some (operator_client "Unternehmen")) start_state) = Ok false.
Proof.
  split; [|split; [|split; [|split; [|split; [|split; [|split; [|split; [|split;
    [|split]]]]]]]]].
  - intros before v after E Hbefore Hv. unfold bruttoleistung. rewrite E.
    now apply py_or_chain_first.
  - apply bruttoleistung_ok_iff.
  - intros Hnone. unfold bruttoleistung_ok, bruttoleistung.
    now rewrite (py_or_chain_none _ Hnone).
  - intros s E Hs. unfold bruttoleistung_ok. rewrite E. simpl. now rewrite Hs.
  - intros z E. split; [|split].
    + unfold bruttoleistung_ok. rewrite E. cbn [is_none power_kw].
      destruct (float_of_int z) as [x|] eqn:Ex; auto.
      now rewrite (float_of_int_above_150 z x Ex).
    + apply float_of_int_exact.
    + apply float_of_int_overflow.
  - intros msg. unfold bruttoleistung_ok.
    destruct (bruttoleistung details einheit) as [|b|z|x|s0|l|d]; simpl; try discriminate.
    + destruct (float_of_int z) eqn:Ez; [discriminate|]. intros _. now exists z.
    + destruct (float_of_str s0); discriminate.
  - intros Hfail. unfold matches_criteria. rewrite Hfail.
    destruct (technologie_ok details); destruct (batterietechnologie_ok details); reflexivity.
  - intros msg Ht Hb Hraise. unfold matches_criteria. now rewrite Ht, Hb, Hraise.
  - intros Ht Hb Hn. unfold matches_criteria. rewrite Ht, Hb, Hn.
    destruct (bruttoleistung_ok details einheit) as [[|]|]; reflexivity.
  - reflexivity.
  - reflexivity.
Qed.

(** C7, as the specification states it, fails: the first alias holds the
    number 0, which is not null and does not exceed 150, and the unit still
    matches, on the 200 of a later alias. *)
Lemma bruttoleistung_zero_is_skipped :
  first_non_null
    (bruttoleistung_aliases (speicher_details (TInt 0) ++ [("BruttoLeistung", TInt 200)]) [])
  = TInt 0 /\
  @power_kw ascii_builtins (TInt 0) = Converted (Some (Finite (inject_Z 0))) /\
  ~ (150 < inject_Z 0)%Q /\
  fst (@matches_criteria ascii_builtins nat
         (speicher_details (TInt 0) ++ [("BruttoLeistung", TInt 200)]) []
         (Some (operator_client "Unternehmen")) start_state) = Ok true.
Proof.
  split; [reflexivity|]. split; [reflexivity|]. split; [|reflexivity].
  intros H. discriminate H.
Qed.

(** A rating that is no number passes the criterion, since it is not at most
    150; a whole number beyond the doubles leaves [matches_criteria] with
    [OverflowError]. *)
Example rating_not_a_number :
  fst (@matches_criteria ascii_builtins nat (speicher_details (TFloat NaN)) []
         (Some (operator_client "Unternehmen")) start_state) = Ok true /\
  fst (@matches_criteria ascii_builtins nat (speicher_details (TStr "nan")) []
         (Some (operator_client "Unternehmen")) start_state) = Ok true /\
  @matches_criteria ascii_builtins nat (speicher_details (TInt (10 ^ 400))) []
         (Some (operator_client "Unternehmen")) start_state
  = (Raise "int too large to convert to float", start_state).
Proof. split; [|split]; vm_compute; reflexivity. Qed.

(** [float] of an int rounds to the nearest double, ties to even, and
    refuses the ints from 2**1024 - 2**970 on. *)
Example float_of_int_rounds :
  float_of_int (2 ^ 53 + 1) = Some (Finite (inject_Z (2 ^ 53))) /\
  float_of_int (2 ^ 53 + 3) = Some (Finite (inject_Z (2 ^ 53 + 4))) /\
  float_of_int (- (2 ^ 53 + 3)) = Some (Finite (inject_Z (- (2 ^ 53 + 4)))) /\
  float_of_int (2 ^ 1024 - 2 ^ 970 - 1)
  = Some (Finite (inject_Z (2 ^ 1024 - 2 ^ 971))) /\
  float_of_int (2 ^ 1024 - 2 ^ 970) = None.
Proof. repeat split; vm_compute; reflexivity. Qed.

(** C8.  When the unit passes the first three criteria and no type field of
    the records names a natural person, an exception of the nested operator
    fetch does not leave [matches_criteria]: it returns [True]. *)
Theorem nested_fetch_failure_is_swallowed {B : Builtins} {W} (details einheit : Dict)
  (client : MastrClient W) (st st1 : State W) (msg : string) :
  technologie_ok details = true ->
  batterietechnologie_ok details = true ->
  bruttoleistung_ok details einheit = Ok true ->
  direct_natural_person details einheit = false ->
  get_marktakteur_details client (anlagenbetreiber_mastr details einheit) st
    = (Raise msg, st1) ->
  fst (matches_criteria details einheit (Some client) st) = Ok true.
Proof.
  intros Ht Hb Hp Hn Hfetch. unfold matches_criteria.
  rewrite Ht, Hb, Hp, Hn, Hfetch. simpl.
  destruct (truthy (anlagenbetreiber_mastr details einheit)); reflexivity.
Qed.

Lemma nested_fetch_failure_is_swallowed_witness :
  @get_marktakteur_details nat failing_client
      (@anlagenbetreiber_mastr (speicher_details (TInt 200)) []) start_state
    = (Raise "connection refused",
       {| world := 1;
          log := [Called (ReqGetMarktakteur "marktakteurMastrNummerId"
                                            (TStr "ABR900000000001"))] |}) /\
  fst (@matches_criteria ascii_builtins nat (speicher_details (TInt 200)) []
         (Some failing_client) start_state) = Ok true.
Proof.
  split; [reflexivity|].
  apply (@nested_fetch_failure_is_swallowed ascii_builtins nat
           (speicher_details (TInt 200)) [] failing_client start_state
           {| world := 1;
              log := [Called (ReqGetMarktakteur "marktakteurMastrNummerId"
                                                (TStr "ABR900000000001"))] |}
           "connection refused"); reflexivity.
Defined.

(** ** Flattening *)

Lemma flatten_dict_MA_unfold {B : Builtins} (fields : list (string * Tree))
  (parent_key sep : string) :
  flatten_dict_MA (TDict fields) parent_key sep =
  PyDict.of_items
    (flat_map (fun kv => flatten_item_MA (snd kv) (new_key parent_key sep (fst kv)) sep)
              fields).
Proof.
  cbn [flatten_dict_MA]. f_equal. apply flat_map_ext. intros kv.
  unfold flatten_item_MA.
  destruct (snd kv) as [| | | | |[|[]]|]; reflexivity.
Qed.

Lemma flatten_item_AB_unfold {B : Builtins} (fields : list (string * Tree))
  (key sep : string) :
  flatten_item_AB (TDict fields) key sep =
  PyDict.of_items
    (flat_map (fun kv => flatten_item_AB (snd kv) (new_key key sep (fst kv)) sep) fields).
Proof. reflexivity. Qed.

Lemma flat_map_agree {A C} (f g : A -> list C) (l : list A) :
  Forall (fun a => f a = g a) l -> flat_map f l = flat_map g l.
Proof.
  induction 1 as [|a l Ha _ IH]; simpl; auto. now rewrite Ha, IH.
Qed.

Lemma flatten_items_agree {B : Builtins} (v : Tree) :
  no_sequence v = true ->
  forall key sep, flatten_item_MA v key sep = flatten_item_AB v key sep.
Proof.
  induction v as [| | | | |items _|fields IH] using Tree_nested_ind;
    intros Hno key sep; try reflexivity.
  - discriminate Hno.
  - change (flatten_item_MA (TDict fields) key sep)
      with (flatten_dict_MA (TDict fields) key sep).
    rewrite flatten_dict_MA_unfold, flatten_item_AB_unfold. f_equal.
    apply flat_map_agree.
    simpl in Hno. rewrite forallb_forall in Hno.
    rewrite Forall_forall in IH |- *.
    intros kv Hin. apply IH; auto.
Qed.

(** C10.  On a mapping that holds no sequence at any depth the two
    [flatten_dict] functions return the same flat mapping, for every parent
    key and separator; so they differ only on input that holds a sequence. *)
Theorem flatten_dict_versions_agree {B : Builtins} (d : Dict) (parent_key sep : string) :
  no_sequence (TDict d) = true ->
  flatten_dict_AB d parent_key sep = flatten_dict_MA (TDict d) parent_key sep.
Proof.
  intros Hno. rewrite flatten_dict_MA_unfold. unfold flatten_dict_AB. f_equal.
  apply flat_map_agree. simpl in Hno. rewrite forallb_forall in Hno.
  apply Forall_forall. intros kv Hin. symmetry. apply flatten_items_agree; auto.
Qed.

Lemma flatten_dict_versions_agree_witness :
  @flatten_dict_AB ascii_builtins
    [("Name", TStr "Stadtwerke"); ("Adresse", TDict [("Ort", TStr "Kiel"); ("Plz", TInt 24103)])]
    "" "_"
  = @flatten_dict_MA ascii_builtins
      (TDict [("Name", TStr "Stadtwerke");
              ("Adresse", TDict [("Ort", TStr "Kiel"); ("Plz", TInt 24103)])])
      "" "_".
Proof.
  apply (@flatten_dict_versions_agree ascii_builtins
           [("Name", TStr "Stadtwerke");
            ("Adresse", TDict [("Ort", TStr "Kiel"); ("Plz", TInt 24103)])] "" "_").
  reflexivity.
Defined.

(** ** The merge *)

Lemma existsb_eqb_In (k : string) (l : list string) :
  existsb (String.eqb k) l = true <-> In k l.
Proof.
  rewrite existsb_exists. split.
  - intros (x & Hin & E). apply String.eqb_eq in E. now subst.
  - intros Hin. exists k. split; auto. apply String.eqb_refl.
Qed.

Lemma set_update_In (more names : list string) (k : string) :
  In k (set_update names more) <-> In k names \/ In k more.
Proof.
  unfold set_update. revert names.
  induction more as [|s more IH]; intros names; simpl; [tauto|].
  rewrite IH. destruct (existsb (String.eqb s) names) eqn:E.
  - apply existsb_eqb_In in E. split; [tauto|]. intros [? |[<- |?]]; auto.
  - rewrite in_app_iff. simpl. tauto.
Qed.

Lemma insert_sorted_In (s : string) (l : list string) (k : string) :
  In k (insert_sorted s l) <-> k = s \/ In k l.
Proof.
  induction l as [|x l IH]; simpl.
  - split; [intros [<- |[]]; auto | intros [-> |[]]; auto].
  - destruct (String.leb s x); simpl.
    + split; [intros [<- |?]; auto | intros [-> |?]; auto].
    + rewrite IH. tauto.
Qed.

Lemma sorted_In (l : list string) (k : string) : In k (sorted l) <-> In k l.
Proof.
  unfold sorted. induction l as [|x l IH]; simpl; [tauto|].
  rewrite insert_sorted_In, IH. split; [intros [-> |?] | intros [<- |?]]; auto.
Qed.

Lemma AB_In (k : string) (l : list string) : In (AB k) (map AB l) <-> In k l.
Proof.
  rewrite in_map_iff. split.
  - intros (x & E & Hin). unfold AB in E. simpl in E. now injection E as ->.
  - intros Hin. now exists k.
Qed.

Lemma dict_keys_set_In {V} (d : list (string * V)) k v k0 :
  In k0 (PyDict.keys (PyDict.set d k v)) <-> In k0 (PyDict.keys d) \/ k0 = k.
Proof.
  rewrite dict_keys_set. destruct (PyDict.mem d k) eqn:E.
  - apply dict_mem_In in E. split; [tauto|]. intros [? | ->]; auto.
  - rewrite in_app_iff. simpl. split; [intros [? |[<- |[]]]; auto | intros [? | ->]; auto].
Qed.

Lemma dict_get_In {V} (d : list (string * V)) k v :
  PyDict.get d k = Some v -> In (k, v) d.
Proof.
  induction d as [|[k' v'] d IH]; simpl; [discriminate|].
  destruct (String.eqb_spec k' k).
  - intros [= ->]. subst. now left.
  - auto.
Qed.

Lemma dict_get_keys {V} (d : list (string * V)) k v :
  PyDict.get d k = Some v -> In k (PyDict.keys d).
Proof.
  intros H. apply dict_get_In in H. unfold PyDict.keys.
  apply in_map_iff. now exists (k, v).
Qed.

Lemma dict_get_map_values {V U} (f : V -> U) (d : list (string * V)) k :
  PyDict.get (map (fun kv => (fst kv, f (snd kv))) d) k =
  match PyDict.get d k with Some v => Some (f v) | None => None end.
Proof.
  induction d as [|[k' v'] d IH]; simpl; auto.
  destruct (String.eqb k' k); auto.
Qed.

Lemma dict_get_columns {V} (f : string -> V) (cols : list string) c :
  In c cols -> PyDict.get (map (fun c => (c, f c)) cols) c = Some (f c).
Proof.
  induction cols as [|x cols IH]; simpl; [tauto|].
  destruct (String.eqb_spec x c).
  - now subst.
  - intros [? |?]; [congruence|auto].
Qed.

Lemma fold_set_items {V} (f : string -> string) (items d : list (string * V)) :
  let result := fold_left (fun m kv => PyDict.set m (f (fst kv)) (snd kv)) items d in
  (forall k, In k (PyDict.keys result) ->
             In k (PyDict.keys d) \/ In k (map (fun kv => f (fst kv)) items)) /\
  (forall c, ~ In c (map (fun kv => f (fst kv)) items) ->
             PyDict.get result c = PyDict.get d c).
Proof.
  revert d. induction items as [|[k v] items IH]; intros d; simpl.
  - split; auto.
  - destruct (IH (PyDict.set d (f k) v)) as [Hkeys Hget]. split.
    + intros k0 Hin. apply Hkeys in Hin. rewrite dict_keys_set_In in Hin.
      destruct Hin as [[? | ->] | ?]; auto.
    + intros c Hc. rewrite Hget by tauto. apply dict_get_set_other.
      intros ->. apply Hc. now left.
Qed.

Lemma fold_set_columns {V} (v0 : V) (cols : list string) (d : list (string * V)) :
  let result := fold_left (fun m col => PyDict.set m col v0) cols d in
  (forall k, In k (PyDict.keys result) -> In k (PyDict.keys d) \/ In k cols) /\
  (forall c, In c cols -> PyDict.get result c = Some v0) /\
  (forall c, ~ In c cols -> PyDict.get result c = PyDict.get d c).
Proof.
  revert d. induction cols as [|col cols IH]; intros d; simpl.
  - repeat split; auto. tauto.
  - destruct (IH (PyDict.set d col v0)) as (Hkeys & Hin & Hout). repeat split.
    + intros k Hk. apply Hkeys in Hk. rewrite dict_keys_set_In in Hk.
      destruct Hk as [[? | ->]|?]; auto.
    + intros c [-> |Hc]; auto.
      destruct (in_dec string_dec c cols) as [Hc|Hc]; auto.
      rewrite Hout by auto. apply dict_get_set_same.
    + intros c Hc. rewrite Hout by tauto. apply dict_get_set_other.
      intros ->. apply Hc. now left.
Qed.

Lemma fold_fill_columns {V} (v0 : V) (cols : list string) (d : list (string * V)) :
  let result := fold_left (fun m col => if PyDict.mem m col then m
                                        else PyDict.set m col v0) cols d in
  (forall k, In k (PyDict.keys result) -> In k (PyDict.keys d) \/ In k cols) /\
  (forall c, ~ In c cols -> PyDict.get result c = PyDict.get d c).
Proof.
  revert d. induction cols as [|col cols IH]; intros d; simpl.
  - split; auto.
  - destruct (PyDict.mem d col).
    + destruct (IH d) as (Hkeys & Hout). split.
      * intros k Hk. apply Hkeys in Hk. tauto.
      * intros c Hc. apply Hout. tauto.
    + destruct (IH (PyDict.set d col v0)) as (Hkeys & Hout). split.
      * intros k Hk. apply Hkeys in Hk. rewrite dict_keys_set_In in Hk.
        destruct Hk as [[? | ->]|?]; auto.
      * intros c Hc. rewrite Hout by tauto. apply dict_get_set_other.
      intros ->. apply Hc. now left.
Qed.

Lemma writerow_ok (fieldnames : list string) (rowdict : Dict) :
  (forall k, In k (PyDict.keys rowdict) -> In k fieldnames) ->
  writerow fieldnames rowdict =
  Ok (map (fun c => (c, match PyDict.get rowdict c with
                        | Some v => v
                        | None => TStr ""
                        end)) fieldnames).
Proof.
  intros Hsub. unfold writerow.
  replace (forallb (fun k => existsb (String.eqb k) fieldnames) (PyDict.keys rowdict))
    with true; auto.
  symmetry. apply forallb_forall. intros k Hk. apply existsb_eqb_In. auto.
Qed.

Lemma anlagenbetreiber_cols_ok {B : Builtins} (results : list (string * FetchResult)) :
  (forall m r, In (m, r) results -> data r = TNone \/ exists d, data r = TDict d) ->
  forall acc, exists cols,
    anlagenbetreiber_cols results acc = Ok cols /\
    forall k, In k cols <-> In k acc \/ fetched_key results k.
Proof.
  induction results as [|[m r] rest IH]; intros Htyped acc; simpl.
  - exists acc. split; auto. intros k. split; auto.
    intros [? | (m & r & d & [] & _)]; auto.
  - assert (Hrest : forall m r, In (m, r) rest ->
                      data r = TNone \/ exists d, data r = TDict d)
      by (intros; eapply Htyped; right; eauto).
    destruct (truthy (data r)) eqn:Et.
    + destruct (Htyped m r (or_introl eq_refl)) as [E | [d E]].
      { rewrite E in Et. discriminate. }
      rewrite E. simpl.
      destruct (IH Hrest (set_update acc (PyDict.keys (flatten_dict_AB d "" "_"))))
        as (cols & -> & Hcols).
      exists cols. split; auto. intros k. rewrite Hcols, set_update_In. split.
      * intros [[? | Hk] | (m1 & r1 & d1 & Hin & H)]; auto.
        -- right. exists m, r, d. repeat split; auto. now left.
        -- right. exists m1, r1, d1. split; auto. now right.
      * intros [? | (m1 & r1 & d1 & [[= <- <-] | Hin] & Hd & Ht & Hk)]; auto.
        -- left. right. rewrite E in Hd. now injection Hd as <-.
        -- right. exists m1, r1, d1. auto.
    + destruct (IH Hrest acc) as (cols & -> & Hcols).
      exists cols. split; auto. intros k. rewrite Hcols. split.
      * intros [? | (m1 & r1 & d1 & Hin & H)]; auto.
        right. exists m1, r1, d1. split; auto. now right.
      * intros [? | (m1 & r1 & d1 & [[= <- <-] | Hin] & Hd & Ht & Hk)]; auto.
        -- congruence.
        -- right. exists m1, r1, d1. auto.
Qed.

Lemma prefixed_cols_ok {B : Builtins} (results : list (string * FetchResult)) :
  (forall m r, In (m, r) results -> data r = TNone \/ exists d, data r = TDict d) ->
  exists cols,
    prefixed_cols results = Ok cols /\
    forall c, In c cols <-> exists k, c = AB k /\ fetched_key results k.
Proof.
  intros Htyped. unfold prefixed_cols.
  destruct (anlagenbetreiber_cols_ok results Htyped []) as (cols & -> & Hcols).
  exists (map AB (sorted cols)). split; auto.
  intros c. rewrite in_map_iff. split.
  - intros (k & <- & Hk). exists k. split; auto.
    apply sorted_In, Hcols in Hk. destruct Hk as [[] | ?]; auto.
  - intros (k & -> & Hk). exists k. split; auto.
    apply sorted_In, Hcols. auto.
Qed.

Lemma matched_In {B : Builtins} (results : list (string * FetchResult)) (row : Row) r :
  matched results row = Some r -> exists m, In (m, r) results.
Proof.
  unfold matched. destruct (row_mastr_num row) as [m|]; [|discriminate].
  destruct (PyStr.nonempty m); [|discriminate].
  intros H. exists m. now apply dict_get_In.
Qed.

Lemma merged_row_spec {B : Builtins} (results : list (string * FetchResult))
  (cols : list string) (row : Row) :
  (forall m r, In (m, r) results -> data r = TNone \/ exists d, data r = TDict d) ->
  (forall c, In c cols <-> exists k, c = AB k /\ fetched_key results k) ->
  ~ In "AB_error" cols ->
  exists merged,
    merged_row results cols row = Ok merged /\
    (forall k, In k (PyDict.keys merged) ->
               In k (PyDict.keys row) \/ In k cols \/ k = "AB_error") /\
    (forall c v, PyDict.get row c = Some v -> ~ In c (cols ++ ["AB_error"]) ->
                 PyDict.get merged c = Some (TStr v)) /\
    (matched results row = None ->
     PyDict.get merged "AB_error" = Some (TStr (unmatched_status row)) /\
     forall c, In c cols -> PyDict.get merged c = Some (TStr "")).
Proof.
  intros Htyped Hcols Hfree. unfold merged_row.
  set (base := map (fun kv => (fst kv, TStr (snd kv))) row).
  assert (Hbase_keys : PyDict.keys base = PyDict.keys row).
  { unfold base, PyDict.keys. rewrite map_map. reflexivity. }
  assert (Hbase_get : forall c v, PyDict.get row c = Some v ->
                                  PyDict.get base c = Some (TStr v)).
  { intros c v H. unfold base. rewrite dict_get_map_values. now rewrite H. }
  assert (Hstatus_keys : forall status k,
            In k (PyDict.keys (PyDict.set base "AB_error" status)) ->
            In k (PyDict.keys row) \/ k = "AB_error").
  { intros status k Hk. apply dict_keys_set_In in Hk. now rewrite Hbase_keys in Hk. }
  assert (Hstatus_get : forall status c v,
            PyDict.get row c = Some v -> ~ In c (cols ++ ["AB_error"]) ->
            PyDict.get (PyDict.set base "AB_error" status) c = Some (TStr v)).
  { intros status c v Hg Hc. rewrite dict_get_set_other; auto.
    intros ->. apply Hc. apply in_app_iff. right. now left. }
  destruct (matched results row) as [result|] eqn:Em.
  - destruct (matched_In _ _ _ Em) as [m Hin].
    set (status := TStr match error result with
                        | Some e => if PyStr.nonempty e then e else ""
                        | None => ""
                        end).
    destruct (truthy (data result)) eqn:Et.
    + destruct (Htyped m result Hin) as [E | [d E]].
      { rewrite E in Et. discriminate. }
      rewrite E. simpl.
      set (flat := flatten_dict_AB d "" "_").
      destruct (fold_set_items AB flat (PyDict.set base "AB_error" status))
        as [Hkeys Hget].
      assert (Hflat : forall c, In c (map (fun kv => AB (fst kv)) flat) -> In c cols).
      { intros c Hc. apply in_map_iff in Hc. destruct Hc as ([k v] & <- & Hkv).
        apply Hcols. exists k. split; auto. exists m, result, d.
        repeat split; auto. unfold PyDict.keys. apply in_map_iff. now exists (k, v). }
      eexists. split; [reflexivity|]. split; [|split].
      * intros k Hk. apply Hkeys in Hk. destruct Hk as [Hk | Hk].
        -- apply Hstatus_keys in Hk. tauto.
        -- auto.
      * intros c v Hg Hc. rewrite Hget.
        -- now apply Hstatus_get.
        -- intros Hin_flat. apply Hc. apply in_app_iff. left. auto.
      * discriminate.
    + destruct (fold_fill_columns (TStr "") cols (PyDict.set base "AB_error" status))
        as [Hkeys Hget].
      eexists. split; [reflexivity|]. split; [|split].
      * intros k Hk. apply Hkeys in Hk. destruct Hk as [Hk | Hk]; auto.
        apply Hstatus_keys in Hk. tauto.
      * intros c v Hg Hc. rewrite Hget.
        -- now apply Hstatus_get.
        -- intros Hin_cols. apply Hc. apply in_app_iff. now left.
      * discriminate.
  - set (status := TStr (if str_truthy (row_mastr_num row)
                         then "not_found" else "no_mastr_num")).
    destruct (fold_set_columns (TStr "") cols (PyDict.set base "AB_error" status))
      as (Hkeys & Hin_cols & Hout).
    eexists. split; [reflexivity|]. split; [|split].
    + intros k Hk. apply Hkeys in Hk. destruct Hk as [Hk | Hk]; auto.
      apply Hstatus_keys in Hk. tauto.
    + intros c v Hg Hc. rewrite Hout.
      * now apply Hstatus_get.
      * intros Hc_cols. apply Hc. apply in_app_iff. now left.
    + intros _. split; auto.
      rewrite Hout by exact Hfree. apply dict_get_set_same.
Qed.

Lemma write_rows_ok {B : Builtins} (results : list (string * FetchResult))
  (cols base_cols : list string) :
  (forall m r, In (m, r) results -> data r = TNone \/ exists d, data r = TDict d) ->
  (forall c, In c cols <-> exists k, c = AB k /\ fetched_key results k) ->
  ~ In "AB_error" cols ->
  forall rows,
  (forall row, In row rows -> forall k, In k (PyDict.keys row) -> In k base_cols) ->
  exists lines,
    write_rows results cols (base_cols ++ cols ++ ["AB_error"]) rows = Ok lines /\
    Forall2 (merged_line results cols (base_cols ++ cols ++ ["AB_error"])) rows lines.
Proof.
  intros Htyped Hcols Hfree.
  set (header := base_cols ++ cols ++ ["AB_error"]).
  induction rows as [|row rows IH]; intros Hrows; simpl.
  - exists []. split; auto.
  - destruct (merged_row_spec results cols row Htyped Hcols Hfree)
      as (merged & -> & Hkeys & Hbase & Hunmatched).
    assert (Hsub : forall k, In k (PyDict.keys merged) -> In k header).
    { intros k Hk. unfold header. rewrite !in_app_iff. simpl.
      destruct (Hkeys k Hk) as [H | [H | H]]; auto.
      left. apply (Hrows row); auto. now left. }
    rewrite (writerow_ok header merged Hsub).
    destruct IH as (lines & -> & Hlines).
    { intros r Hr. apply Hrows. now right. }
    eexists. split; [reflexivity|]. constructor; auto.
    assert (Hline : forall c, In c header ->
              PyDict.get (map (fun c => (c, match PyDict.get merged c with
                                           | Some v => v
                                           | None => TStr ""
                                           end)) header) c
              = Some (match PyDict.get merged c with Some v => v | None => TStr "" end)).
    { intros c Hc. now apply dict_get_columns with
        (f := fun c => match PyDict.get merged c with Some v => v | None => TStr "" end). }
    split; [|split].
    + rewrite map_map. apply map_id.
    + intros c v Hg Hc. rewrite Hline.
      * now rewrite (Hbase c v Hg Hc).
      * unfold header. apply in_app_iff. left.
        apply (Hrows row); [now left|]. eapply dict_get_keys; eauto.
    + intros Hm. destruct (Hunmatched Hm) as [Hstatus Hempty]. split.
      * rewrite Hline; [now rewrite Hstatus|].
        unfold header. rewrite !in_app_iff. right; right. now left.
      * intros c Hc. rewrite Hline; [now rewrite (Hempty c Hc)|].
        unfold header. rewrite !in_app_iff. auto.
Qed.

(** C9, as the code has it.  For base rows that share the key set of the
    first row, and results whose data is null or a mapping none of whose
    flattened keys is [error], [merge_csvs] writes nothing for no rows, and
    else the header of the base columns, the prefixed columns and [AB_error],
    and then one line per base row in the rows' order, each with the header's
    columns; a row whose identifier is missing or unmatched gets its status
    under [AB_error] and an empty value under every prefixed column. *)
Theorem merge_csvs_complete {B : Builtins} (rows : list Row)
  (results : list (string * FetchResult)) :
  (forall row, In row rows ->
     forall k, In k (PyDict.keys row) <-> In k (PyDict.keys (hd [] rows))) ->
  (forall m r, In (m, r) results -> data r = TNone \/ exists d, data r = TDict d) ->
  (forall m r d, In (m, r) results -> data r = TDict d ->
     ~ In "error" (PyDict.keys (flatten_dict_AB d "" "_"))) ->
  exists cols,
    prefixed_cols results = Ok cols /\
    match rows with
    | [] => merge_csvs rows results = Ok None
    | first :: _ =>
        exists lines,
          merge_csvs rows results
            = Ok (Some (PyDict.keys first ++ cols ++ ["AB_error"], lines)) /\
          Forall2 (merged_line results cols (PyDict.keys first ++ cols ++ ["AB_error"]))
                  rows lines
    end.
Proof.
  intros Hheader Htyped Hfree.
  destruct (prefixed_cols_ok results Htyped) as (cols & Eprefixed & Hcols).
  exists cols. split; auto.
  destruct rows as [|first rest]; [reflexivity|].
  assert (Hfree_cols : ~ In "AB_error" cols).
  { intros Hin. apply Hcols in Hin. destruct Hin as (k & Ek & m & r & d & Hin & Hd & _ & Hk).
    unfold AB in Ek. simpl in Ek. injection Ek as <-. exact (Hfree m r d Hin Hd Hk). }
  destruct (write_rows_ok results cols (PyDict.keys first) Htyped Hcols Hfree_cols
              (first :: rest)) as (lines & Hwrite & Hlines).
  { intros row Hrow k Hk. now apply (Hheader row Hrow k). }
  exists lines. split; auto.
  unfold merge_csvs. now rewrite Eprefixed, Hwrite.
Qed.

Lemma merge_csvs_complete_witness :
  exists cols,
    @prefixed_cols ascii_builtins record_results = Ok cols /\
    exists lines,
      @merge_csvs ascii_builtins [row_with_number; row_without_number] record_results
        = Ok (Some (PyDict.keys row_with_number ++ cols ++ ["AB_error"], lines)) /\
      Forall2 (@merged_line ascii_builtins record_results cols
                 (PyDict.keys row_with_number ++ cols ++ ["AB_error"]))
              [row_with_number; row_without_number] lines.
Proof.
  apply (@merge_csvs_complete ascii_builtins
           [row_with_number; row_without_number] record_results).
  - intros row [<- | [<- | []]] k; reflexivity.
  - intros m r [[= <- <-] | []]. right. eexists. reflexivity.
  - intros m r d [[= <- <-] | []] [= <-].
    cbn. intros [H | [H | []]]; discriminate H.
Defined.

(** C9, as the specification states it, fails: for results that hold a text
    where a record is expected the merge raises, and no line is written for
    the base row. *)
Lemma merge_csvs_text_data_raises :
  @merge_csvs ascii_builtins [row_with_number] text_results
  = Raise "object has no attribute 'items'".
Proof. reflexivity. Qed.

(** A record with a field named [error] gives a second column [AB_error];
    the row without identifier then has an empty status. *)
Lemma merge_csvs_error_field :
  @merge_csvs ascii_builtins [row_without_number] error_field_results
  = Ok (Some (["Name"; "MaStR-Nr. des Anlagenbetreibers"; "AB_error"; "AB_error"],
              [[("Name", TStr "Solarpark Nord");
                ("MaStR-Nr. des Anlagenbetreibers", TStr "");
                ("AB_error", TStr ""); ("AB_error", TStr "")]])).
Proof. reflexivity. Qed.

(** ** Examples *)

Example zeep_to_dict_einheit :
  zeep_to_dict einheit_obj = TDict [("EinheitMastrNummer", TStr "SEE900000000001")].
Proof. reflexivity. Qed.

Example fetch_operator_record :
  fst (fetch_marktakteur_with_retry (operator_client "Unternehmen") "ABR900000000001"
                                    default_max_retries start_state)
  = ("ABR900000000001", TDict [("Personenart", TStr "Unternehmen")], None).
Proof. reflexivity. Qed.

Example fetch_transport_error :
  fst (fetch_marktakteur_with_retry failing_client "ABR900000000001"
                                    default_max_retries start_state)
  = ("ABR900000000001", TNone, Some "exception:connection refused").
Proof. reflexivity. Qed.

Example batch_of_two :
  fst (batch_fetch_marktakteure unknown_client (fun _ => 1)
         ["ABR900000000002"; "ABR900000000001"] 6 start_state)
  = Ok [("ABR900000000001", {| data := TNone; error := Some "not_found" |});
        ("ABR900000000002", {| data := TNone; error := Some "not_found" |})].
Proof. reflexivity. Qed.

Example iter_einheiten_two_units :
  iter_einheiten two_units_client 5 2 None 0 start_state
  = ([TDict [("EinheitMastrNummer", TStr "SEE900000000001")];
      TDict [("EinheitMastrNummer", TStr "SEE900000000001")]],
     Exhausted,
     {| world := 2;
        log := [Called (ReqGetListeAlleEinheiten 0 2 None);
                Called (ReqGetListeAlleEinheiten 2 2 None)] |}).
Proof. reflexivity. Qed.

Example natural_person_is_refused :
  fst (@matches_criteria ascii_builtins nat (speicher_details (TInt 200)) []
         (Some (operator_client "Natürliche Person")) start_state) = Ok false.
Proof. reflexivity. Qed.

Example rating_as_text :
  fst (@matches_criteria ascii_builtins nat (speicher_details (TStr "200")) []
         (Some (operator_client "Unternehmen")) start_state) = Ok true /\
  fst (@matches_criteria ascii_builtins nat (speicher_details (TStr "200,5")) []
         (Some (operator_client "Unternehmen")) start_state) = Ok false.
Proof. split; reflexivity. Qed.

Example flatten_nested_record :
  @flatten_dict_AB ascii_builtins
    [("Firmenname", TStr "Stadtwerke"); ("Adresse", TDict [("Ort", TStr "Kiel")])] "" "_"
  = [("Firmenname", TStr "Stadtwerke"); ("Adresse_Ort", TStr "Kiel")].
Proof. reflexivity. Qed.

Example merge_two_rows :
  @merge_csvs ascii_builtins [row_with_number; row_without_number] record_results
  = Ok (Some (["Name"; "MaStR-Nr. des Anlagenbetreibers";
               "AB_Adresse_Ort"; "AB_Firmenname"; "AB_error"],
              [[("Name", TStr "Speicher Ost");
                ("MaStR-Nr. des Anlagenbetreibers", TStr " ABR900000000001 ");
                ("AB_Adresse_Ort", TStr "Kiel");
                ("AB_Firmenname", TStr "Stadtwerke");
                ("AB_error", TStr "")];
               [("Name", TStr "Solarpark Nord");
                ("MaStR-Nr. des Anlagenbetreibers", TStr "");
                ("AB_Adresse_Ort", TStr "");
                ("AB_Firmenname", TStr "");
                ("AB_error", TStr "no_mastr_num")]])).
Proof. reflexivity. Qed.

(** A response that is a bare number has no length: the message of the
    success branch raises, and the outcome is an exception. *)
Example fetch_number_response :
  fst (fetch_marktakteur_with_retry
         (scripted_client (fun _ => Returns (PyInt 5)) (fun _ => Returns None))
         "ABR900000000001" default_max_retries start_state)
  = ("ABR900000000001", TNone, Some "exception:object of type 'int' has no len()") /\
  fst (fetch_marktakteur_with_retry
         (scripted_client (fun _ => Returns (PyInt 0)) (fun _ => Returns None))
         "ABR900000000001" default_max_retries start_state)
  = ("ABR900000000001", TInt 0, None).
Proof. split; reflexivity. Qed.

(** * Part III: further properties of the code *)

(** ** The retry engine, for every registry *)

Lemma attempt_events {W} (client : MastrClient W) target delay st p st1 :
  attempt client target delay st = (p, st1) ->
  (exists o, p = Return o /\
             log st1 = log st ++ [Called (ReqGetMarktakteur "mastrNummer" (TStr target))]) \/
  (p = Continue (Qmin (delay * 2) 10.0) /\
   log st1 = log st ++ [Called (ReqGetMarktakteur "mastrNummer" (TStr target));
                        Slept delay]).
Proof.
  unfold attempt, call_GetMarktakteur. simpl.
  destruct (GetMarktakteur client "mastrNummer" (TStr target) (world st)) as [reply w].
  destruct reply as [resp|msg|msg].
  - destruct (py_getattr resp "Marktakteur"); [|split_success];
      intros [= <- <-]; left; eauto.
  - destruct (is_not_found msg); [|destruct (is_rate_limited msg)];
      intros [= <- <-]; simpl; [left; eauto | right | left; eauto].
    split; auto. now rewrite <- app_assoc.
  - intros [= <- <-]; left; eauto.
Qed.

Lemma backoff_delays_bounded (target : string) (n : nat) :
  forall delay, (0.2 <= delay)%Q -> (delay <= 10.0)%Q ->
  Forall (fun s => (0.2 <= s)%Q /\ (s <= 10.0)%Q) (sleeps (backoff_events target n delay)).
Proof.
  induction n as [|n IH]; intros delay Hlo Hhi; simpl; constructor; auto.
  apply IH.
  - apply Q.min_glb; [|discriminate].
    apply Qle_trans with (1 := Hlo).
    rewrite <- (Qmult_1_r delay) at 1.
    apply Qmult_le_l; [|discriminate].
    apply Qlt_le_trans with (2 := Hlo). reflexivity.
  - apply Q.le_min_r.
Qed.

Lemma rate_limited_calls_le {W} (client : MastrClient W) target n :
  forall w, rate_limited_calls client target n w <= n.
Proof.
  induction n as [|n IH]; intros w; simpl; auto.
  destruct (GetMarktakteur client "mastrNummer" (TStr target) w) as [reply w1].
  destruct (asks_retry reply); [|lia]. specialize (IH w1). lia.
Qed.

Lemma retry_loop_log {W} (client : MastrClient W) target n :
  forall delay st,
  log (snd (retry_loop client n target delay st))
  = log st ++
    backoff_events target (rate_limited_calls client target n (world st)) delay ++
    (if (rate_limited_calls client target n (world st) <? n)%nat
     then [Called (ReqGetMarktakteur "mastrNummer" (TStr target))]
     else []).
Proof.
  induction n as [|n IH]; intros delay st.
  - simpl. now rewrite app_nil_r.
  - cbn [retry_loop rate_limited_calls]. unfold attempt, call_GetMarktakteur.
    cbn [world record log].
    destruct (GetMarktakteur client "mastrNummer" (TStr target) (world st)) as [reply w1].
    destruct reply as [resp|msg|msg]; cbn [asks_retry].
    + destruct (py_getattr resp "Marktakteur"); [|cbv zeta; split_success]; reflexivity.
    + destruct (is_not_found msg); [reflexivity|].
      destruct (is_rate_limited msg); [|reflexivity].
      cbn [negb andb]. rewrite IH. unfold sleep. cbn [world record log backoff_events].
      change (S (rate_limited_calls client target n w1) <? S n)%nat
        with (rate_limited_calls client target n w1 <? n)%nat.
      now rewrite <- !app_assoc.
    + reflexivity.
Qed.

Lemma requests_backoff (target : string) (n : nat) :
  forall delay,
  requests (backoff_events target n delay)
  = repeat (ReqGetMarktakteur "mastrNummer" (TStr target)) n.
Proof.
  induction n as [|n IH]; intros delay; simpl; auto. now rewrite IH.
Qed.

(** X1.  Whatever the registry answers, the events of
    [fetch_marktakteur_with_retry] are these: for each of the first calls
    that the registry answers with a rate-limit fault, the call and then a
    sleep, for the delays of the doubling sequence from 0.2 s, each between
    0.2 s and 10 s; then, unless [max_retries] calls were all rate limited,
    one last call and no sleep.  So it sleeps only after a rate-limited
    call, makes at most [max_retries] calls, all for the given identifier,
    and at least one when [max_retries] is positive. *)
Theorem fetch_with_retry_bounded {W} (client : MastrClient W) (target : string)
  (max_retries : Z) (st : State W) :
  log (snd (fetch_marktakteur_with_retry client target max_retries st))
  = log st ++
    backoff_events target
      (rate_limited_calls client target (Z.to_nat max_retries) (world st)) 0.2 ++
    (if (rate_limited_calls client target (Z.to_nat max_retries) (world st)
         <? Z.to_nat max_retries)%nat
     then [Called (ReqGetMarktakteur "mastrNummer" (TStr target))]
     else []) /\
  rate_limited_calls client target (Z.to_nat max_retries) (world st)
    <= Z.to_nat max_retries /\
  Forall (fun s => (0.2 <= s)%Q /\ (s <= 10.0)%Q)
         (sleeps (log_since st
                    (snd (fetch_marktakteur_with_retry client target max_retries st)))) /\
  exists calls,
    requests (log_since st
                (snd (fetch_marktakteur_with_retry client target max_retries st)))
    = repeat (ReqGetMarktakteur "mastrNummer" (TStr target)) calls /\
    calls <= Z.to_nat max_retries /\
    List.length (sleeps (log_since st
                   (snd (fetch_marktakteur_with_retry client target max_retries st))))
    <= calls /\
    ((0 < max_retries)%Z -> 0 < calls).
Proof.
  unfold fetch_marktakteur_with_retry, log_since.
  rewrite retry_loop_log.
  pose proof (rate_limited_calls_le client target (Z.to_nat max_retries) (world st)) as Hle.
  set (n := Z.to_nat max_retries) in *.
  set (k := rate_limited_calls client target n (world st)) in *.
  rewrite skipn_app, skipn_all, Nat.sub_diag. cbn [skipn app].
  assert (Hsleeps : sleeps (backoff_events target k 0.2 ++
                            (if (k <? n)%nat
                             then [Called (ReqGetMarktakteur "mastrNummer" (TStr target))]
                             else []))
                    = sleeps (backoff_events target k 0.2)).
  { unfold sleeps. rewrite flat_map_app.
    destruct (k <? n)%nat; simpl; now rewrite app_nil_r. }
  split; [reflexivity|]. split; [exact Hle|]. split.
  - rewrite Hsleeps. apply backoff_delays_bounded; discriminate.
  - exists (k + if (k <? n)%nat then 1 else 0).
    split; [|split; [|split]].
    + rewrite requests_app, requests_backoff, repeat_app.
      now destruct (k <? n)%nat.
    + destruct (Nat.ltb_spec k n); lia.
    + rewrite Hsleeps.
      assert (Hlen : forall m d, List.length (sleeps (backoff_events target m d)) = m).
      { induction m as [|m IH]; intros d; simpl; auto. }
      rewrite Hlen. lia.
    + intros Hpos. destruct (Nat.ltb_spec k n); lia.
Qed.

(** X2.  A fault that names neither the not-found nor the rate-limit case,
    and any other exception, end the fetch at once: one call, no sleep, and
    the outcome carries the text after [fault:] or [exception:]. *)
Theorem fetch_with_retry_terminal_errors {W} (client : MastrClient W) (target : string)
  (max_retries : Z) (st : State W) (msg : string) (w1 : W) :
  (0 < max_retries)%Z ->
  (GetMarktakteur client "mastrNummer" (TStr target) (world st) = (RaisesFault msg, w1) ->
   is_not_found msg = false -> is_rate_limited msg = false ->
   fetch_marktakteur_with_retry client target max_retries st
   = ((target, TNone, Some ("fault:" ++ msg)%string),
      {| world := w1;
         log := log st ++ [Called (ReqGetMarktakteur "mastrNummer" (TStr target))] |})) /\
  (GetMarktakteur client "mastrNummer" (TStr target) (world st) = (RaisesException msg, w1) ->
   fetch_marktakteur_with_retry client target max_retries st
   = ((target, TNone, Some ("exception:" ++ msg)%string),
      {| world := w1;
         log := log st ++ [Called (ReqGetMarktakteur "mastrNummer" (TStr target))] |})).
Proof.
  intros Hpos. unfold fetch_marktakteur_with_retry.
  destruct (Z.to_nat max_retries) as [|n] eqn:En; [lia|].
  split.
  - intros Hcall Hnf Hrl. simpl. unfold attempt, call_GetMarktakteur. simpl.
    now rewrite Hcall, Hnf, Hrl.
  - intros Hcall. simpl. unfold attempt, call_GetMarktakteur. simpl.
    now rewrite Hcall.
Qed.

Lemma fetch_with_retry_terminal_errors_witness :
  fetch_marktakteur_with_retry failing_client "ABR900000000001" default_max_retries
                               start_state
  = (("ABR900000000001", TNone, Some "exception:connection refused"),
     {| world := 1;
        log := [Called (ReqGetMarktakteur "mastrNummer" (TStr "ABR900000000001"))] |}).
Proof.
  destruct (fetch_with_retry_terminal_errors failing_client "ABR900000000001"
              default_max_retries start_state "connection refused" 1 eq_refl) as [_ H].
  apply H. reflexivity.
Defined.

(** ** The batch orchestrator: remote calls *)

Lemma future_step_calls {W} (client : MastrClient W) f st f1 st1 :
  future_step client f st = (f1, st1) ->
  exists rs,
    requests (log st1) = requests (log st) ++ rs /\
    List.length rs + calls_left f1 <= calls_left f /\
    Forall (fun r => r = ReqGetMarktakteur "mastrNummer" (TStr (future_target f))) rs.
Proof.
  destruct f as [target [|n] delay|o]; simpl.
  - intros [= <- <-]. exists []. rewrite app_nil_r. simpl. auto.
  - destruct (attempt client target delay st) as [p st0] eqn:E.
    destruct (attempt_events _ _ _ _ _ _ E) as [(o & -> & Hlog) | [-> Hlog]];
      intros [= <- <-];
      exists [ReqGetMarktakteur "mastrNummer" (TStr target)];
      rewrite Hlog, requests_app; simpl; repeat split; auto; lia.
  - intros [= <- <-]. exists []. rewrite app_nil_r. simpl. auto.
Qed.

Lemma step_at_calls {W} (client : MastrClient W) i :
  forall fs st fs1 done st1,
  step_at client i fs st = (fs1, done, st1) ->
  exists rs,
    requests (log st1) = requests (log st) ++ rs /\
    List.length rs + pool_calls_left fs1 <= pool_calls_left fs /\
    Forall (fun r => exists t, In t (map future_target fs) /\
                               r = ReqGetMarktakteur "mastrNummer" (TStr t)) rs.
Proof.
  induction i as [|i IH]; intros [|f rest] st fs1 done st1; simpl.
  - intros [= <- <- <-]. exists []. rewrite app_nil_r. simpl. auto.
  - destruct (future_step client f st) as [f1 st0] eqn:E.
    intros [= <- <- <-].
    destruct (future_step_calls _ _ _ _ _ E) as (rs & Hr & Hlen & Hall).
    exists rs. split; auto. split.
    + unfold pool_calls_left. simpl. lia.
    + eapply Forall_impl; [|exact Hall]. intros r ->. eauto.
  - intros [= <- <- <-]. exists []. rewrite app_nil_r. simpl. auto.
  - destruct (step_at client i rest st) as [[rest1 done0] st0] eqn:E.
    intros [= <- <- <-].
    destruct (IH _ _ _ _ _ E) as (rs & Hr & Hlen & Hall).
    exists rs. split; auto. split.
    + unfold pool_calls_left in *. simpl. lia.
    + eapply Forall_impl; [|exact Hall]. intros r (t & Ht & ->). eauto.
Qed.

Lemma run_pool_calls {W} (client : MastrClient W) sched width fuel :
  forall tick fs completed st fs1 completed1 st1,
  run_pool client fuel sched tick width fs completed st = (fs1, completed1, st1) ->
  exists rs,
    requests (log st1) = requests (log st) ++ rs /\
    List.length rs <= pool_calls_left fs /\
    Forall (fun r => exists t, In t (map future_target fs) /\
                               r = ReqGetMarktakteur "mastrNummer" (TStr t)) rs.
Proof.
  induction fuel as [|fuel IH]; intros tick fs completed st fs1 completed1 st1.
  - simpl. intros [= <- <- <-]. exists []. rewrite app_nil_r. simpl. split; auto.
    split; auto. lia.
  - rewrite run_pool_unfold.
    destruct (firstn width (running_indices 0 fs)) as [|i0 more].
    + intros [= <- <- <-]. exists []. rewrite app_nil_r. simpl. split; auto.
      split; auto. lia.
    + cbv zeta.
      destruct (step_at client _ fs st) as [[fs2 done] st2] eqn:Estep.
      destruct (step_at_calls _ _ _ _ _ _ _ Estep) as (rs & Hr & Hlen & Hall).
      destruct (step_at_spec _ _ _ _ _ _ _ Estep) as (Ht & _).
      intros Hrun. destruct (IH _ _ _ _ _ _ _ Hrun) as (rs2 & Hr2 & Hlen2 & Hall2).
      exists (rs ++ rs2). split; [|split].
      * rewrite Hr2, Hr. now rewrite app_assoc.
      * rewrite length_app. lia.
      * apply Forall_app. split; auto. now rewrite <- Ht.
Qed.

(** X3.  A batch over [n] identifiers makes at most 6 [n] remote calls, and
    every call it makes is a [GetMarktakteur] for one of the identifiers
    given.  Without a worker ([max_workers] not positive) the executor
    refuses, and the batch ends with its [ValueError] before any call: the
    registry and the record of events are as they were. *)
Theorem batch_fetch_calls {W} (client : MastrClient W) (sched : nat -> nat)
  (mastr_nums : list string) (max_workers : Z) (st : State W) :
  (exists rs,
     requests (log (snd (batch_fetch_marktakteure client sched mastr_nums max_workers st)))
       = requests (log st) ++ rs /\
     List.length rs <= 6 * List.length mastr_nums /\
     Forall (fun r => exists t, In t mastr_nums /\
                                r = ReqGetMarktakteur "mastrNummer" (TStr t)) rs) /\
  ((max_workers <= 0)%Z ->
   batch_fetch_marktakteure client sched mastr_nums max_workers st
   = (Raise "max_workers must be greater than 0", st)).
Proof.
  split;
    [|intros Hnone; unfold batch_fetch_marktakteure;
      destruct (Z.leb_spec max_workers 0); [reflexivity|lia]].
  unfold batch_fetch_marktakteure.
  destruct (max_workers <=? 0)%Z.
  - exists []. simpl. rewrite app_nil_r. split; auto. split; auto. lia.
  - set (attempts := Z.to_nat default_max_retries).
    set (futures := map (fun n => Running n attempts 0.2) mastr_nums).
    destruct (run_pool client (List.length mastr_nums * S attempts) sched 0
                (Z.to_nat max_workers) futures [] st) as [[fs1 completed] st1] eqn:Erun.
    destruct (run_pool_calls _ _ _ _ _ _ _ _ _ _ _ Erun) as (rs & Hr & Hlen & Hall).
    exists rs. split; auto. split.
    + apply Nat.le_trans with (1 := Hlen).
      unfold futures, pool_calls_left. rewrite map_map. simpl.
      clear. induction mastr_nums as [|x l IH]; simpl in *; lia.
    + eapply Forall_impl; [|exact Hall]. intros r (t & Ht & ->).
      exists t. split; auto. unfold futures in Ht. rewrite map_map in Ht.
      simpl in Ht. now rewrite map_id in Ht.
Qed.

(** ** Pagination: faults and limits that are not positive *)

Section Page_loop_errors.
Context {W : Type}.
Variable fetch : Z -> State W -> Reply (option (list PyObj)) * State W.
Variable fault_prefix : string.

Lemma page_loop_fault (limit : Z) (sleep_s : Q) :
  (0 <= sleep_s)%Q ->
  forall pages start st next st_next msg st1 fuel,
  Forall (fun page => (limit <= Z.of_nat (List.length page))%Z) pages ->
  serves_until fetch limit start sleep_s st pages next st_next ->
  fetch next st_next = (RaisesFault msg, st1) ->
  List.length pages < fuel ->
  page_loop fetch fault_prefix fuel limit start sleep_s st
  = (map zeep_to_dict (List.concat pages), Raised (fault_prefix ++ msg)%string, st1) /\
  next = (start + Z.of_nat (List.length pages) * limit)%Z.
Proof.
  intros Hsleep. induction pages as [|page pages IH];
    intros start st next st_next msg st1 fuel Hfull Hserves Hfault Hfuel;
    (destruct fuel as [|fuel]; [simpl in Hfuel; lia|]); simpl in Hserves.
  - destruct Hserves as [-> ->]. cbn [page_loop]. rewrite Hfault. simpl.
    split; auto. lia.
  - destruct Hserves as (listing & st0 & Hfetch & Hitems & Hrest).
    pose proof (Forall_inv Hfull) as Hpage. pose proof (Forall_inv_tail Hfull) as Hpages.
    simpl in Hpage.
    assert (Hge : (Z.of_nat (List.length page) <? limit)%Z = false)
      by (apply Z.ltb_ge; auto).
    assert (Hfuel1 : List.length pages < fuel) by (simpl in Hfuel; lia).
    cbn [page_loop]. rewrite Hfetch. cbv beta iota zeta. rewrite Hitems, Hge.
    destruct (Qeq_bool sleep_s 0) eqn:Ez.
    + destruct (IH _ _ _ _ _ _ _ Hpages Hrest Hfault Hfuel1) as [-> ->].
      split; [cbn [yield_first List.concat]; now rewrite map_app|].
      cbn [List.length]. lia.
    + assert (Hle : Qle_bool 0 sleep_s = true) by now apply Qle_bool_iff.
      rewrite Hle.
      destruct (IH _ _ _ _ _ _ _ Hpages Hrest Hfault Hfuel1) as [-> ->].
      split; [cbn [yield_first List.concat]; now rewrite map_app|].
      cbn [List.length]. lia.
Qed.

Lemma page_loop_never_short (limit : Z) (sleep_s : Q) :
  (0 <= sleep_s)%Q -> (limit <= 0)%Z ->
  (forall start st, exists listing st1, fetch start st = (Returns listing, st1)) ->
  forall fuel start st,
  snd (fst (page_loop fetch fault_prefix fuel limit start sleep_s st)) = Unfinished.
Proof.
  intros Hsleep Hlimit Hreturns. induction fuel as [|fuel IH]; intros start st.
  - reflexivity.
  - cbn [page_loop]. destruct (Hreturns start st) as (listing & st1 & ->).
    cbv beta iota zeta.
    assert (Hge : (Z.of_nat (List.length match listing with Some l => l | None => [] end)
                   <? limit)%Z = false) by (apply Z.ltb_ge; lia).
    rewrite Hge.
    destruct (Qeq_bool sleep_s 0) eqn:Ez.
    + specialize (IH (start + limit)%Z st1).
      destruct (page_loop fetch fault_prefix fuel limit (start + limit) sleep_s st1)
        as [[more e] st2]. exact IH.
    + assert (Hle : Qle_bool 0 sleep_s = true) by now apply Qle_bool_iff.
      rewrite Hle.
      specialize (IH (start + limit)%Z (sleep sleep_s st1)).
      destruct (page_loop fetch fault_prefix fuel limit (start + limit) sleep_s
                          (sleep sleep_s st1)) as [[more e] st2]. exact IH.
Qed.

End Page_loop_errors.

(** X4.  When the registry answers a listing call with a SOAP fault after
    some full pages, both iterators first yield the items of these pages and
    then raise the runtime error that carries the operation's name and the
    fault's text; no further call is made. *)
Theorem iterators_raise_on_fault {W} (client : MastrClient W) (limit : Z)
  (datum_ab_iso : option string) (role_code : string) (sleep_s : Q)
  (pages : list (list PyObj)) (msg : string) :
  (0 <= sleep_s)%Q ->
  Forall (fun page => (limit <= Z.of_nat (List.length page))%Z) pages ->
  (forall st next st_next st1 fuel,
     serves_until (call_GetListeAlleEinheiten client limit datum_ab_iso)
                  limit 0 sleep_s st pages next st_next ->
     call_GetListeAlleEinheiten client limit datum_ab_iso next st_next
       = (RaisesFault msg, st1) ->
     List.length pages < fuel ->
     iter_einheiten client fuel limit datum_ab_iso sleep_s st
     = (map zeep_to_dict (List.concat pages),
        Raised ("SOAP Fault GetListeAlleEinheiten: " ++ msg)%string, st1)) /\
  (forall st next st_next st1 fuel,
     serves_until (call_GetGefilterteListeMarktakteure client role_code limit datum_ab_iso)
                  limit 0 sleep_s st pages next st_next ->
     call_GetGefilterteListeMarktakteure client role_code limit datum_ab_iso next st_next
       = (RaisesFault msg, st1) ->
     List.length pages < fuel ->
     iter_marktakteure_by_role client fuel role_code limit datum_ab_iso sleep_s st
     = (map zeep_to_dict (List.concat pages),
        Raised ("SOAP Fault GetGefilterteListeMarktakteure: " ++ msg)%string, st1)).
Proof.
  intros Hsleep Hfull. split; intros st next st_next st1 fuel Hserves Hfault Hfuel.
  - unfold iter_einheiten.
    now destruct (page_loop_fault _ "SOAP Fault GetListeAlleEinheiten: " limit sleep_s
                    Hsleep pages 0%Z st next st_next msg st1 fuel Hfull Hserves Hfault Hfuel).
  - unfold iter_marktakteure_by_role.
    now destruct (page_loop_fault _ "SOAP Fault GetGefilterteListeMarktakteure: "
                    limit sleep_s Hsleep pages 0%Z st next st_next msg st1 fuel
                    Hfull Hserves Hfault Hfuel).
Qed.

Lemma iterators_raise_on_fault_witness :
  iter_einheiten second_page_fails_client 3 2 None 0 start_state
  = (map zeep_to_dict (List.concat [[einheit_obj; einheit_obj]]),
     Raised "SOAP Fault GetListeAlleEinheiten: Server was unable to process request",
     {| world := 2;
        log := [Called (ReqGetListeAlleEinheiten 0 2 None);
                Called (ReqGetListeAlleEinheiten 2 2 None)] |}).
Proof.
  assert (Hsleep : (0 <= 0)%Q) by discriminate.
  assert (Hfull : Forall (fun page => (2 <= Z.of_nat (List.length page))%Z)
                         [[einheit_obj; einheit_obj]]).
  { constructor; [discriminate|constructor]. }
  destruct (iterators_raise_on_fault second_page_fails_client 2 None "" 0
              [[einheit_obj; einheit_obj]] "Server was unable to process request"
              Hsleep Hfull) as [H _].
  apply (H start_state 2%Z
           {| world := 1; log := [Called (ReqGetListeAlleEinheiten 0 2 None)] |}).
  - simpl. eexists _, _. split; [reflexivity|]. split; [reflexivity|]. split; reflexivity.
  - reflexivity.
  - simpl. lia.
Defined.

(** X5.  With a limit that is not positive no page is short: as long as the
    registry answers, neither iterator ever stops. *)
Theorem iterators_never_stop_without_limit {W} (client : MastrClient W) (limit : Z)
  (datum_ab_iso : option string) (role_code : string) (sleep_s : Q) :
  (0 <= sleep_s)%Q -> (limit <= 0)%Z ->
  ((forall start w, exists listing w1,
      GetListeAlleEinheiten client start limit datum_ab_iso w = (Returns listing, w1)) ->
   forall fuel st,
     snd (fst (iter_einheiten client fuel limit datum_ab_iso sleep_s st)) = Unfinished) /\
  ((forall start w, exists listing w1,
      GetGefilterteListeMarktakteure client start limit datum_ab_iso role_code w
      = (Returns listing, w1)) ->
   forall fuel st,
     snd (fst (iter_marktakteure_by_role client fuel role_code limit datum_ab_iso
                                         sleep_s st)) = Unfinished).
Proof.
  intros Hsleep Hlimit. split; intros Hreturns fuel st.
  - apply page_loop_never_short; auto. intros start st0.
    unfold call_GetListeAlleEinheiten. simpl.
    destruct (Hreturns start (world st0)) as (listing & w1 & ->). eauto.
  - apply page_loop_never_short; auto. intros start st0.
    unfold call_GetGefilterteListeMarktakteure. simpl.
    destruct (Hreturns start (world st0)) as (listing & w1 & ->). eauto.
Qed.

Lemma iterators_never_stop_without_limit_witness :
  snd (fst (iter_einheiten two_units_client 50 0 None 0 start_state)) = Unfinished.
Proof.
  assert (Hsleep : (0 <= 0)%Q) by discriminate.
  assert (Hlimit : (0 <= 0)%Z) by reflexivity.
  destruct (iterators_never_stop_without_limit two_units_client 0 None "" 0
              Hsleep Hlimit) as [H _].
  apply H. intros start w. destruct w; eexists _, _; reflexivity.
Defined.

(** ** The response normalizer: keys *)

Lemma every_mapping_occurs (P : Dict -> Prop) (t : Tree) (fields : Dict) :
  occurs_in (TDict fields) t -> every_mapping P t -> P fields.
Proof.
  induction 1 as [|x items Hin _ IH|k v fs Hin _ IH]; intros Hall.
  - now inversion Hall.
  - inversion Hall as [| | | | |? Hitems|]; subst.
    rewrite Forall_forall in Hitems. auto.
  - inversion Hall as [| | | | | |? _ Hfields]; subst.
    rewrite Forall_forall in Hfields. apply IH. exact (Hfields _ Hin).
Qed.

Lemma collect_fields_public (convert : PyObj -> Tree) names :
  forall d, public_keys d -> public_keys (collect_fields convert names d).
Proof.
  induction names as [|[k a] names IH]; intros d Hd; simpl; auto.
  destruct (PyStr.startswith "_" k) eqn:Ek; auto.
  destruct a as [m|v]; auto.
  destruct (callable v); auto.
  destruct (internal_name k); auto.
  apply IH. destruct Hd as [Hnd Hpub]. split.
  - rewrite dict_keys_set. destruct (PyDict.mem d k) eqn:Em; auto.
    apply NoDup_app; auto.
    + repeat constructor. simpl; tauto.
    + intros x Hx [<- | []]. apply dict_mem_In in Hx. congruence.
  - intros x Hx. apply dict_keys_set_In in Hx. destruct Hx as [Hx | ->]; auto.
Qed.

Lemma filter_public (f : string * Tree -> bool) (d : Dict) :
  public_keys d -> public_keys (filter f d).
Proof.
  intros [Hnd Hpub].
  assert (Hsub : forall k, In k (PyDict.keys (filter f d)) -> In k (PyDict.keys d)).
  { intros k Hk. unfold PyDict.keys in *. apply in_map_iff in Hk.
    destruct Hk as (kv & <- & Hin). apply filter_In in Hin.
    apply in_map. tauto. }
  split; auto.
  clear Hpub Hsub. unfold PyDict.keys in *.
  induction d as [|[k v] d IH]; simpl; [constructor|].
  inversion Hnd as [|? ? Hk Hrest]; subst.
  destruct (f (k, v)); simpl; auto.
  constructor; auto.
  intros Hin. apply Hk. apply in_map_iff in Hin.
  destruct Hin as (kv & <- & Hin). apply filter_In in Hin. apply in_map. tauto.
Qed.

Lemma filter_values (Q : Tree -> Prop) (f : string * Tree -> bool) (d : Dict) :
  Forall (fun kv => Q (snd kv)) d -> Forall (fun kv => Q (snd kv)) (filter f d).
Proof.
  rewrite !Forall_forall. intros H kv Hin. apply filter_In in Hin. apply H. tauto.
Qed.

Lemma zeep_to_dict_public (obj : PyObj) : every_mapping public_keys (zeep_to_dict obj).
Proof.
  induction obj as [| | | | |items IH|iso hf c attrs text IH] using PyObj_nested_ind;
    simpl; try constructor.
  - induction IH as [|x r Hx _ IHr]; simpl; auto.
  - assert (Hdict : every_mapping public_keys
                      (TDict (filter (fun kv => not_empty_artifact (snd kv))
                                     (collect_fields zeep_to_dict attrs [])))).
    { constructor.
      - apply filter_public, collect_fields_public.
        split; [constructor | intros k []].
      - apply filter_values.
        apply collect_fields_values with (Q := every_mapping public_keys); auto. }
    destruct iso; destruct hf; auto; constructor.
Qed.

(** X6.  In every mapping that occurs in the tree [zeep_to_dict] returns the
    keys are distinct and no key starts with an underscore. *)
Theorem zeep_to_dict_keys_are_public (obj : PyObj) (fields : Dict) :
  occurs_in (TDict fields) (zeep_to_dict obj) ->
  NoDup (PyDict.keys fields) /\
  forall k, In k (PyDict.keys fields) -> PyStr.startswith "_" k = false.
Proof.
  intros Hocc. exact (every_mapping_occurs _ _ _ Hocc (zeep_to_dict_public obj)).
Qed.

Lemma zeep_to_dict_keys_are_public_witness :
  NoDup (PyDict.keys [("EinheitMastrNummer", TStr "SEE900000000001")]) /\
  forall k, In k (PyDict.keys [("EinheitMastrNummer", TStr "SEE900000000001")]) ->
            PyStr.startswith "_" k = false.
Proof.
  apply (zeep_to_dict_keys_are_public einheit_obj). apply occurs_here.
Defined.

(** ** The filter: paths and remote calls *)

(** X7.  [get_nested_value] follows a path step by step.  The empty path
    gives the value itself; a key the mapping has leads into its value, so
    that a single key gives that value; looking up a path made of two parts
    is looking up the second part in what the first part gives.  Under a
    value that is no mapping every key gives [None], and so does a key the
    mapping does not have. *)
Theorem get_nested_value_path (t : Tree) (first second : list string) :
  get_nested_value t [] = t /\
  (forall d key v rest, t = TDict d -> PyDict.get d key = Some v ->
                        get_nested_value t (key :: rest) = get_nested_value v rest /\
                        get_nested_value t [key] = v) /\
  get_nested_value t (first ++ second)
    = get_nested_value (get_nested_value t first) second /\
  (forall key rest, (forall d, t <> TDict d) ->
                    get_nested_value t (key :: rest) = TNone) /\
  (forall d key rest, t = TDict d -> PyDict.get d key = None ->
                      get_nested_value t (key :: rest) = TNone).
Proof.
  split; [reflexivity|]. split; [|split; [|split]].
  - intros d key v rest -> Hget. simpl. rewrite Hget.
    split; [|now destruct v].
    destruct v; auto. now destruct rest.
  - revert t. induction first as [|key first IH]; intros t; simpl; auto.
    assert (Hnone : TNone = get_nested_value TNone second) by (destruct second; auto).
    destruct t as [| | | | | |d]; auto.
    destruct (PyDict.get d key) as [[| | | | | |]|]; auto.
  - intros key rest Hno. destruct t; simpl; auto. now destruct (Hno fields).
  - intros d key rest -> Hget. simpl. now rewrite Hget.
Qed.

(** A lookup along two keys, and one that stops at a text. *)
Example get_nested_value_finds :
  get_nested_value (TDict [("EinheitStromSpeicher", TDict [("Bruttoleistung", TInt 200)])])
                   ["EinheitStromSpeicher"; "Bruttoleistung"] = TInt 200 /\
  get_nested_value (TDict [("EinheitStromSpeicher", TStr "x")])
                   ["EinheitStromSpeicher"; "Bruttoleistung"] = TNone.
Proof. split; reflexivity. Qed.

(** X8.  [matches_criteria] makes at most one remote call, the
    [GetMarktakteur] for the operator's number, and none at all when one of
    the first three criteria fails (or the third raises), when a type field
    of the records already names a natural person, when no operator number is
    found or when no client is given. *)
Theorem matches_criteria_calls {B : Builtins} {W} (details einheit : Dict)
  (client : option (MastrClient W)) (st : State W) :
  (log (snd (matches_criteria details einheit client st)) = log st \/
   log (snd (matches_criteria details einheit client st)) =
     log st ++ [Called (ReqGetMarktakteur "marktakteurMastrNummerId"
                                          (anlagenbetreiber_mastr details einheit))]) /\
  (technologie_ok details = false \/ batterietechnologie_ok details = false \/
   bruttoleistung_ok details einheit <> Ok true \/
   direct_natural_person details einheit = true \/
   truthy (anlagenbetreiber_mastr details einheit) = false \/ client = None ->
   snd (matches_criteria details einheit client st) = st).
Proof.
  unfold matches_criteria.
  destruct (technologie_ok details); [|split; auto].
  destruct (batterietechnologie_ok details); [|split; auto].
  destruct (bruttoleistung_ok details einheit) as [[|]|]; [|split; auto|split; auto].
  simpl.
  destruct client as [c|].
  - destruct (direct_natural_person details einheit); simpl; [split; auto|].
    destruct (truthy (anlagenbetreiber_mastr details einheit)); simpl; [|split; auto].
    split.
    + right. unfold get_marktakteur_details, call_GetMarktakteur. simpl.
      destruct (GetMarktakteur c "marktakteurMastrNummerId"
                  (anlagenbetreiber_mastr details einheit) (world st)) as [reply w].
      destruct reply as [resp|msg|msg]; simpl; auto.
      destruct (py_getattr resp "Marktakteur") as [m|obj]; simpl; auto.
      destruct (operator_natural_person _) as [[|]|]; reflexivity.
    + intros [H | [H | [H | [H | [H | H]]]]];
        [discriminate H|discriminate H|now destruct H|discriminate H|discriminate H|
         discriminate H].
  - destruct (direct_natural_person details einheit); split; auto.
Qed.

(** ** Flattening: the result is flat *)

Lemma dict_update_values {V} (P : V -> Prop) (items acc : list (string * V)) :
  Forall (fun kv => P (snd kv)) acc -> Forall (fun kv => P (snd kv)) items ->
  Forall (fun kv => P (snd kv)) (PyDict.update acc items).
Proof.
  unfold PyDict.update. revert acc.
  induction items as [|[k v] items IH]; intros acc Hacc Hitems; simpl; auto.
  apply IH.
  - apply dict_set_values; auto. exact (Forall_inv Hitems).
  - exact (Forall_inv_tail Hitems).
Qed.

Lemma dict_update_nodup {V} (items acc : list (string * V)) :
  NoDup (PyDict.keys acc) -> NoDup (PyDict.keys (PyDict.update acc items)).
Proof.
  unfold PyDict.update. revert acc.
  induction items as [|[k v] items IH]; intros acc Hacc; simpl; auto.
  apply IH. rewrite dict_keys_set. destruct (PyDict.mem acc k) eqn:Em; auto.
  apply NoDup_app; auto.
  - repeat constructor. simpl; tauto.
  - intros x Hx [<- | []]. apply dict_mem_In in Hx. congruence.
Qed.

Lemma dict_set_fresh {V} (d : list (string * V)) k v :
  ~ In k (PyDict.keys d) -> PyDict.set d k v = d ++ [(k, v)].
Proof.
  induction d as [|[k' v'] d IH]; simpl; auto.
  intros Hk. destruct (String.eqb_spec k' k); [tauto|].
  rewrite IH; auto.
Qed.

Lemma dict_update_fresh {V} (items acc : list (string * V)) :
  NoDup (PyDict.keys (acc ++ items)) -> PyDict.update acc items = acc ++ items.
Proof.
  unfold PyDict.update. revert acc.
  induction items as [|[k v] items IH]; intros acc Hnd; simpl.
  - now rewrite app_nil_r.
  - rewrite dict_set_fresh.
    + rewrite IH; rewrite <- app_assoc; auto.
    + unfold PyDict.keys in *. rewrite map_app in Hnd. simpl in Hnd.
      apply NoDup_remove_2 in Hnd. intros Hin. apply Hnd.
      apply in_app_iff. now left.
Qed.

Lemma new_key_top (sep k : string) : new_key "" sep k = k.
Proof. reflexivity. Qed.

Lemma flatten_item_AB_scalar {B : Builtins} (v : Tree) (key sep : string) :
  is_scalar v = true -> flatten_item_AB v key sep = [(key, v)].
Proof. destruct v; simpl; auto; discriminate. Qed.

Lemma flatten_item_AB_values {B : Builtins} (v : Tree) :
  forall key sep,
  Forall (fun kv => is_scalar (snd kv) = true) (flatten_item_AB v key sep).
Proof.
  induction v as [| | | | |items _|fields IH] using Tree_nested_ind;
    intros key sep; try (repeat constructor).
  rewrite flatten_item_AB_unfold. unfold PyDict.of_items.
  apply dict_update_values with (P := fun v => is_scalar v = true); [constructor|].
  apply Forall_flat_map. rewrite Forall_forall in IH |- *.
  intros kv Hin. apply IH; auto.
Qed.

Lemma flatten_dict_AB_flat {B : Builtins} (d : Dict) (parent_key sep : string) :
  NoDup (PyDict.keys (flatten_dict_AB d parent_key sep)) /\
  Forall (fun kv => is_scalar (snd kv) = true) (flatten_dict_AB d parent_key sep).
Proof.
  unfold flatten_dict_AB, PyDict.of_items. split.
  - apply dict_update_nodup. constructor.
  - apply dict_update_values with (P := fun v => is_scalar v = true); [constructor|].
    apply Forall_flat_map. apply Forall_forall.
    intros kv _. apply flatten_item_AB_values.
Qed.

Lemma flatten_dict_AB_of_flat {B : Builtins} (d : Dict) (sep : string) :
  NoDup (PyDict.keys d) -> Forall (fun kv => is_scalar (snd kv) = true) d ->
  flatten_dict_AB d "" sep = d.
Proof.
  intros Hnd Hflat. unfold flatten_dict_AB, PyDict.of_items.
  replace (flat_map (fun kv => flatten_item_AB (snd kv) (new_key "" sep (fst kv)) sep) d)
    with d.
  - now apply dict_update_fresh.
  - clear Hnd. induction Hflat as [|[k v] d Hv _ IH]; simpl; auto.
    simpl in Hv. rewrite (flatten_item_AB_scalar v k sep Hv). simpl. now f_equal.
Qed.

(** X9.  What [flatten_dict] of fetch_anlagenbetreiber.py returns is flat: its
    keys are distinct and no value is a mapping or a sequence.  A mapping
    that is flat already comes back unchanged, so flattening twice is
    flattening once. *)
Theorem flatten_dict_is_flat {B : Builtins} (d : Dict) (parent_key sep sep' : string) :
  NoDup (PyDict.keys (flatten_dict_AB d parent_key sep)) /\
  Forall (fun kv => is_scalar (snd kv) = true) (flatten_dict_AB d parent_key sep) /\
  (NoDup (PyDict.keys d) -> Forall (fun kv => is_scalar (snd kv) = true) d ->
   flatten_dict_AB d "" sep = d) /\
  flatten_dict_AB (flatten_dict_AB d parent_key sep) "" sep'
    = flatten_dict_AB d parent_key sep.
Proof.
  destruct (flatten_dict_AB_flat d parent_key sep) as [Hnd Hflat].
  split; auto. split; auto. split.
  - apply flatten_dict_AB_of_flat.
  - now apply flatten_dict_AB_of_flat.
Qed.

(** ** From the input file to the merge *)

Lemma batch_results_keys {W} (client : MastrClient W) sched mastr_nums max_workers st
  results st1 :
  batch_fetch_marktakteure client sched mastr_nums max_workers st = (Ok results, st1) ->
  forall k, In k (PyDict.keys results) <-> In k mastr_nums.
Proof.
  unfold batch_fetch_marktakteure.
  destruct (Z.leb_spec max_workers 0) as [Hle | Hpos]; [discriminate|].
  set (attempts := Z.to_nat default_max_retries).
  set (futures := map (fun n => Running n attempts 0.2) mastr_nums).
  destruct (run_pool client (List.length mastr_nums * S attempts) sched 0
              (Z.to_nat max_workers) futures [] st) as [[fs1 completed] st2] eqn:Erun.
  intros [= <- <-].
  assert (Hfutures : map future_target futures = mastr_nums).
  { unfold futures. rewrite map_map. simpl. apply map_id. }
  apply run_pool_finishes in Erun.
  - destruct Erun as (Ht & Hinv & Hall).
    destruct (collect_results_keys completed [] (NoDup_nil _)) as [_ Hk].
    intros k. unfold collect_results. rewrite Hk. simpl.
    rewrite <- Hfutures, <- Ht, !in_map_iff. split.
    + intros [[] | (o & <- & Hin)]. exists (Finished o). split; auto.
      now apply Hinv.
    + intros (f & <- & Hin). right.
      rewrite Forall_forall in Hall. specialize (Hall _ Hin).
      destruct f as [|o]; [discriminate|].
      exists o. split; auto. now apply Hinv.
  - lia.
  - unfold futures, pool_weight. rewrite map_map. simpl.
    clear. induction mastr_nums; simpl; lia.
  - intros o. simpl. unfold futures. rewrite in_map_iff.
    split; [tauto|]. intros (n & H & _). discriminate.
Qed.

Lemma add_mastr_num_keeps {B : Builtins} (rows : list Row) :
  forall acc x, In x acc -> In x (fold_left add_mastr_num rows acc).
Proof.
  induction rows as [|r rows IH]; intros acc x Hx; simpl; auto.
  apply IH. unfold add_mastr_num.
  destruct (str_or _ _) as [t|]; auto.
  destruct (PyStr.nonempty t && PyStr.nonempty (str_strip t)); auto.
  apply set_update_In. now left.
Qed.

Lemma read_stromerzeuger_csv_numbers {B : Builtins} (reader : list Row) (row : Row) s :
  In row reader ->
  str_or (PyDict.get row "MaStR-Nr. des Anlagenbetreibers")
         (PyDict.get row (String (ascii_of_nat 9) "MaStR-Nr. des Anlagenbetreibers"))
    = Some s ->
  PyStr.nonempty s = true -> PyStr.nonempty (str_strip s) = true ->
  In (str_strip s) (snd (read_stromerzeuger_csv reader)).
Proof.
  unfold read_stromerzeuger_csv. simpl. generalize (@nil string).
  induction reader as [|r reader IH]; intros acc Hrow Hm Hs Hstrip; simpl;
    [destruct Hrow|destruct Hrow as [<- | Hin]].
  - apply add_mastr_num_keeps. unfold add_mastr_num. rewrite Hm, Hs, Hstrip.
    cbn [andb]. apply set_update_In. right. now left.
  - apply IH; auto.
Qed.

Lemma dict_keys_get {V} (d : list (string * V)) k :
  In k (PyDict.keys d) -> exists v, PyDict.get d k = Some v.
Proof.
  intros Hin. apply dict_mem_In in Hin. unfold PyDict.mem in Hin.
  destruct (PyDict.get d k) as [v|]; [eauto|discriminate].
Qed.

(** X10.  When the batch is run over the numbers [read_stromerzeuger_csv]
    extracts from the rows, as [main] does, the merge finds a result for
    every row that has an operator number: a row is without match only when
    it has no number, and its status is then [no_mastr_num], never
    [not_found]. *)
Theorem every_number_read_is_matched {B : Builtins} {W} (client : MastrClient W)
  (sched : nat -> nat) (reader : list Row) (max_workers : Z) (st st1 : State W)
  (results : list (string * FetchResult)) :
  batch_fetch_marktakteure client sched
    (sorted (snd (read_stromerzeuger_csv reader))) max_workers st = (Ok results, st1) ->
  forall row, In row (fst (read_stromerzeuger_csv reader)) ->
    matched results row = None ->
    str_truthy (row_mastr_num row) = false /\ unmatched_status row = "no_mastr_num".
Proof.
  intros Hbatch row Hrow Hmatched.
  assert (Hfalse : str_truthy (row_mastr_num row) = false).
  { destruct (str_truthy (row_mastr_num row)) eqn:Et; auto. exfalso.
    unfold matched in Hmatched. unfold row_mastr_num in *.
    destruct (str_or _ _) as [s|] eqn:Em; [|discriminate].
    destruct (PyStr.nonempty s) eqn:Es.
    - simpl in Et. rewrite Et in Hmatched.
      assert (Hin : In (str_strip s) (PyDict.keys results)).
      { apply (batch_results_keys _ _ _ _ _ _ _ Hbatch). apply sorted_In.
        eapply read_stromerzeuger_csv_numbers; eauto. }
      destruct (dict_keys_get _ _ Hin) as [v Hv]. congruence.
    - simpl in Et. congruence. }
  split; auto. unfold unmatched_status. now rewrite Hfalse.
Qed.

Lemma every_number_read_is_matched_witness :
  str_truthy (@row_mastr_num ascii_builtins row_without_number) = false /\
  @unmatched_status ascii_builtins row_without_number = "no_mastr_num".
Proof.
  apply (@every_number_read_is_matched ascii_builtins nat unknown_client (fun tick => tick)
           [row_with_number; row_without_number] 6 start_state
           (snd (batch_fetch_marktakteure unknown_client (fun tick => tick)
                   (sorted (snd (@read_stromerzeuger_csv ascii_builtins
                                   [row_with_number; row_without_number])))
                   6 start_state))
           [("ABR900000000001", {| data := TNone; error := Some "not_found" |})]).
  - reflexivity.
  - right; left; reflexivity.
  - reflexivity.
Defined.

(** ** Saving the fetched records *)

Lemma insert_item_In {V} (kv : string * V) (l : list (string * V)) x :
  In x (insert_item kv l) <-> x = kv \/ In x l.
Proof.
  induction l as [|y l IH]; simpl.
  - split; [intros [<- | []]; auto | intros [-> | []]; auto].
  - destruct (String.leb (fst kv) (fst y)); simpl.
    + split; [intros [<- | ?]; auto | intros [-> | ?]; auto].
    + rewrite IH. tauto.
Qed.

Lemma sorted_items_In {V} (l : list (string * V)) x : In x (sorted_items l) <-> In x l.
Proof.
  unfold sorted_items. induction l as [|y l IH]; simpl; [tauto|].
  rewrite insert_item_In, IH. split; [intros [-> | ?] | intros [<- | ?]]; auto.
Qed.

Lemma insert_item_keys {V} (kv : string * V) (l : list (string * V)) :
  map fst (insert_item kv l) = insert_sorted (fst kv) (map fst l).
Proof.
  induction l as [|y l IH]; simpl; auto.
  destruct (String.leb (fst kv) (fst y)); simpl; auto. now rewrite IH.
Qed.

Lemma sorted_items_keys {V} (l : list (string * V)) :
  map fst (sorted_items l) = sorted (map fst l).
Proof.
  unfold sorted_items, sorted. induction l as [|y l IH]; simpl; auto.
  now rewrite insert_item_keys, IH.
Qed.

Lemma insert_sorted_length (s : string) (l : list string) :
  List.length (insert_sorted s l) = S (List.length l).
Proof.
  induction l as [|x l IH]; simpl; auto.
  destruct (String.leb s x); simpl; auto.
Qed.

Lemma sorted_length (l : list string) : List.length (sorted l) = List.length l.
Proof.
  unfold sorted. induction l as [|x l IH]; simpl; auto.
  now rewrite insert_sorted_length, IH.
Qed.

Lemma remove_first_keeps (name : string) (names : list string) k :
  k <> name -> In k names -> In k (remove_first name names).
Proof.
  intros Hne. induction names as [|x names IH]; simpl; auto.
  destruct (String.eqb_spec x name).
  - intros [? | ?]; [congruence|auto].
  - intros [? | ?]; [now left | right; auto].
Qed.

Lemma dict_update_keys {V} (items acc : list (string * V)) k :
  In k (PyDict.keys (PyDict.update acc items)) ->
  In k (PyDict.keys acc) \/ In k (PyDict.keys items).
Proof.
  unfold PyDict.update. revert acc.
  induction items as [|[k0 v0] items IH]; intros acc; simpl; auto.
  intros Hk. apply IH in Hk. rewrite dict_keys_set_In in Hk.
  destruct Hk as [[? | ->] | ?]; auto.
Qed.

Lemma writerow_raises (fieldnames : list string) (rowdict : Dict) k :
  In k (PyDict.keys rowdict) -> ~ In k fieldnames ->
  writerow fieldnames rowdict = Raise "dict contains fields not in fieldnames".
Proof.
  intros Hk Hout. unfold writerow.
  destruct (forallb _ (PyDict.keys rowdict)) eqn:E; auto.
  rewrite forallb_forall in E. specialize (E k Hk).
  apply existsb_eqb_In in E. tauto.
Qed.

(** *** The order of [sorted] *)

Lemma string_compare_refl (s : string) : String.compare s s = Eq.
Proof.
  induction s as [|c s IH]; simpl; auto.
  unfold Ascii.compare. now rewrite N.compare_refl.
Qed.

Lemma string_leb_trans (a b c : string) :
  String.leb a b = true -> String.leb b c = true -> String.leb a c = true.
Proof.
  unfold String.leb. revert b c.
  induction a as [|x a IH]; intros [|y b] [|z c]; simpl; auto; try discriminate.
  unfold Ascii.compare.
  destruct (N.compare_spec (N_of_ascii x) (N_of_ascii y)) as [Exy | Hxy | Hxy];
    destruct (N.compare_spec (N_of_ascii y) (N_of_ascii z)) as [Eyz | Hyz | Hyz];
    try discriminate.
  - rewrite Exy, Eyz, N.compare_refl. apply IH.
  - rewrite Exy. intros _ _. now rewrite (proj2 (N.compare_lt_iff _ _) Hyz).
  - rewrite <- Eyz. intros _ _. now rewrite (proj2 (N.compare_lt_iff _ _) Hxy).
  - intros _ _.
    now rewrite (proj2 (N.compare_lt_iff _ _) (N.lt_trans _ _ _ Hxy Hyz)).
Qed.

Lemma insert_sorted_ascending (s : string) (l : list string) :
  ascending l -> ascending (insert_sorted s l).
Proof.
  unfold ascending. induction 1 as [|x l Hl IH Hhd]; simpl.
  - repeat constructor.
  - destruct (String.leb s x) eqn:E.
    + constructor; [constructor; auto|]. now constructor.
    + constructor; auto.
      assert (Hxs : String.leb x s = true).
      { destruct (String.leb_total s x) as [H | H]; [congruence|exact H]. }
      destruct l as [|y l]; simpl in *.
      * now constructor.
      * destruct (String.leb s y); constructor; auto. now inversion Hhd.
Qed.

Lemma sorted_ascending (l : list string) : ascending (sorted l).
Proof.
  unfold sorted. induction l as [|x l IH]; simpl.
  - constructor.
  - now apply insert_sorted_ascending.
Qed.

Lemma ascending_all (x : string) (l : list string) :
  ascending (x :: l) -> Forall (fun y => String.leb x y = true) l.
Proof.
  unfold ascending. intros H. apply Sorted_extends in H; auto.
  intros a b c. apply string_leb_trans.
Qed.

Lemma remove_first_In (name : string) (names : list string) k :
  In k (remove_first name names) -> In k names.
Proof.
  induction names as [|x names IH]; simpl; auto.
  destruct (String.eqb x name); auto. intros [? | ?]; auto.
Qed.

Lemma remove_first_ascending (name : string) (names : list string) :
  ascending names -> ascending (remove_first name names).
Proof.
  induction names as [|x names IH]; intros Hs; simpl; auto.
  pose proof (ascending_all _ _ Hs) as Hall.
  apply Sorted_inv in Hs. destruct Hs as [Hs _].
  destruct (String.eqb x name); auto.
  constructor; [now apply IH|].
  destruct (remove_first name names) as [|y rest] eqn:E; constructor.
  rewrite Forall_forall in Hall. apply Hall.
  apply (remove_first_In name). rewrite E. now left.
Qed.

Lemma remove_first_nodup (name : string) (names : list string) :
  NoDup names -> NoDup (remove_first name names) /\ ~ In name (remove_first name names).
Proof.
  induction names as [|x names IH]; intros Hnd; simpl.
  - split; [constructor|tauto].
  - inversion Hnd as [|? ? Hfresh Hrest]; subst.
    destruct (String.eqb_spec x name) as [-> | Hne]; [split; auto|].
    destruct (IH Hrest) as [Hnd' Hout]. split.
    + constructor; auto. intros Hin. apply Hfresh. eapply remove_first_In; eauto.
    + intros [? | ?]; [congruence|tauto].
Qed.

Lemma insert_sorted_nodup (s : string) (l : list string) :
  ~ In s l -> NoDup l -> NoDup (insert_sorted s l).
Proof.
  induction l as [|x l IH]; intros Hs Hnd; simpl.
  - constructor; auto.
  - destruct (String.leb s x); [now constructor|].
    inversion Hnd as [|? ? Hfresh Hrest]; subst.
    constructor.
    + rewrite insert_sorted_In. simpl in Hs. intros [-> | H]; tauto.
    + apply IH; auto. simpl in Hs. tauto.
Qed.

Lemma sorted_nodup (l : list string) : NoDup l -> NoDup (sorted l).
Proof.
  unfold sorted. induction 1 as [|x l Hfresh Hnd IH]; simpl; [constructor|].
  apply insert_sorted_nodup; auto.
  intros Hin. apply Hfresh. now apply (proj1 (sorted_In l x)).
Qed.

Lemma set_update_nodup (more names : list string) :
  NoDup names -> NoDup (set_update names more).
Proof.
  unfold set_update. revert names.
  induction more as [|s more IH]; intros names Hnd; simpl; auto.
  apply IH. destruct (existsb (String.eqb s) names) eqn:E; auto.
  apply NoDup_app; auto.
  - repeat constructor. tauto.
  - intros x Hx [E0 | []]. subst x.
    apply (proj2 (existsb_eqb_In s names)) in Hx. congruence.
Qed.

Lemma anlagenbetreiber_cols_nodup {B : Builtins} (results : list (string * FetchResult)) :
  forall acc cols,
  NoDup acc -> anlagenbetreiber_cols results acc = Ok cols -> NoDup cols.
Proof.
  induction results as [|[m r] rest IH]; intros acc cols Hnd; simpl.
  - now intros [= <-].
  - destruct (truthy (data r)); [|now apply IH].
    destruct (flatten_data (data r)) as [flattened|]; [|discriminate].
    apply IH. now apply set_update_nodup.
Qed.

Lemma fetched_keys_MA_nodup {B : Builtins} (results : list (string * FetchResult)) :
  forall acc, NoDup acc -> NoDup (fetched_keys_MA results acc).
Proof.
  induction results as [|[m r] rest IH]; intros acc Hnd; simpl; auto.
  destruct (truthy (data r)); apply IH; auto. now apply set_update_nodup.
Qed.

Lemma save_rows_AB_ok {B : Builtins} (cols : list string) (items : list (string * FetchResult)) :
  (forall m r, In (m, r) items ->
     (data r = TNone \/ exists d, data r = TDict d) /\
     forall d k, data r = TDict d -> truthy (data r) = true ->
                 In k (PyDict.keys (flatten_dict_AB d "" "_")) ->
                 In k ("MaStRNummer" :: cols)) ->
  In "error" ("MaStRNummer" :: cols) ->
  exists lines,
    save_rows_AB ("MaStRNummer" :: cols) items = Ok lines /\
    map (@hd_error _) lines
      = map (fun kv => Some ("MaStRNummer", TStr (fst kv))) items /\
    Forall (fun line => map fst line = "MaStRNummer" :: cols) lines.
Proof.
  intros Hitems Herror. induction items as [|[m r] items IH]; simpl.
  - exists []. repeat split; auto.
  - destruct (Hitems m r (or_introl eq_refl)) as [Htyped Hkeys].
    assert (Hrow : exists row,
              (if truthy (data r)
               then match flatten_data (data r) with
                    | Ok flattened =>
                        Ok (PyDict.update [("error", error_cell (error r))] flattened)
                    | Raise msg => Raise msg
                    end
               else Ok [("error", error_cell (error r))]) = Ok row /\
              forall k, In k (PyDict.keys row) -> In k ("MaStRNummer" :: cols)).
    { destruct (truthy (data r)) eqn:Et.
      - destruct Htyped as [E | [d E]]; [rewrite E in Et; discriminate|].
        rewrite E. simpl flatten_data. eexists. split; [reflexivity|].
        intros k Hk. apply dict_update_keys in Hk. destruct Hk as [[<- | []] | Hk]; auto.
        apply (Hkeys d k E); auto.
      - eexists. split; [reflexivity|]. intros k [<- | []]. auto. }
    destruct Hrow as (row & -> & Hsub).
    rewrite writerow_ok.
    + destruct IH as (lines & -> & Hfirst & Hcols).
      { intros m0 r0 Hin. apply (Hitems m0 r0). now right. }
      eexists. split; [reflexivity|]. split.
      * cbn [map hd_error fst]. rewrite dict_get_set_same. now rewrite Hfirst.
      * constructor; auto. rewrite map_map. simpl. f_equal. apply map_id.
    + intros k Hk. apply dict_keys_set_In in Hk. destruct Hk as [Hk | ->]; auto.
      now left.
Qed.

Lemma save_anlagenbetreiber_csv_nonempty {B : Builtins}
  (results : list (string * FetchResult)) :
  results <> [] ->
  save_anlagenbetreiber_csv results =
  match anlagenbetreiber_cols results [] with
  | Raise msg => Raise msg
  | Ok keys =>
      let all_keys := sorted (set_update keys ["error"]) in
      let all_keys :=
        if existsb (String.eqb "MaStRNummer") all_keys
        then "MaStRNummer" :: remove_first "MaStRNummer" all_keys
        else "MaStRNummer" :: all_keys in
      match save_rows_AB all_keys (sorted_items results) with
      | Raise msg => Raise msg
      | Ok lines => Ok (Some (all_keys, lines))
      end
  end.
Proof. destruct results; [congruence | reflexivity]. Qed.

(** X11.  For results whose data is null or a mapping,
    [save_anlagenbetreiber_csv] writes nothing for no results and else a
    header and one line per result, ordered by identifier.  The header starts
    with [MaStRNummer] and lists no column twice; after [MaStRNummer] come, in
    ascending order, [error] and the flattened keys of the fetched records.
    Every line has the header's columns, and its first cell is the identifier
    of its result, whatever the record itself holds under [MaStRNummer]. *)
Theorem save_anlagenbetreiber_csv_lines {B : Builtins}
  (results : list (string * FetchResult)) :
  (forall m r, In (m, r) results -> data r = TNone \/ exists d, data r = TDict d) ->
  match results with
  | [] => save_anlagenbetreiber_csv results = Ok None
  | _ =>
      exists cols lines,
        save_anlagenbetreiber_csv results = Ok (Some ("MaStRNummer" :: cols, lines)) /\
        NoDup ("MaStRNummer" :: cols) /\
        ascending cols /\
        (forall k, In k cols <->
                   k <> "MaStRNummer" /\ (k = "error" \/ fetched_key results k)) /\
        In "error" cols /\
        map (@hd_error _) lines
          = map (fun m => Some ("MaStRNummer", TStr m)) (sorted (PyDict.keys results)) /\
        Forall (fun line => map fst line = "MaStRNummer" :: cols) lines
  end.
Proof.
  intros Htyped.
  cut (results <> [] ->
       exists cols lines,
         save_anlagenbetreiber_csv results = Ok (Some ("MaStRNummer" :: cols, lines)) /\
         NoDup ("MaStRNummer" :: cols) /\
         ascending cols /\
         (forall k, In k cols <->
                    k <> "MaStRNummer" /\ (k = "error" \/ fetched_key results k)) /\
         In "error" cols /\
         map (@hd_error _) lines
           = map (fun m => Some ("MaStRNummer", TStr m)) (sorted (PyDict.keys results)) /\
         Forall (fun line => map fst line = "MaStRNummer" :: cols) lines).
  { destruct results; [reflexivity|]. intros H. apply H. discriminate. }
  intros Hne. rewrite (save_anlagenbetreiber_csv_nonempty results Hne).
  destruct (anlagenbetreiber_cols_ok results Htyped []) as (keys & Ekeys & Hkeys).
  rewrite Ekeys. cbv zeta.
  pose proof (anlagenbetreiber_cols_nodup results [] keys (NoDup_nil _) Ekeys) as Hnd.
  set (all_keys := sorted (set_update keys ["error"])).
  assert (Hall_nd : NoDup all_keys).
  { apply sorted_nodup. now apply set_update_nodup. }
  assert (Hall_asc : ascending all_keys) by apply sorted_ascending.
  assert (Hall_in : forall k, In k all_keys <-> k = "error" \/ fetched_key results k).
  { intros k. unfold all_keys. rewrite sorted_In, set_update_In, Hkeys. simpl.
    split.
    - intros [[[] | H] | [<- | []]]; auto.
    - intros [-> | H]; auto. }
  remember (if existsb (String.eqb "MaStRNummer") all_keys
            then "MaStRNummer" :: remove_first "MaStRNummer" all_keys
            else "MaStRNummer" :: all_keys) as header eqn:Eheader.
  assert (Hheader : exists cols,
            header = "MaStRNummer" :: cols /\
            NoDup ("MaStRNummer" :: cols) /\ ascending cols /\
            forall k, In k cols <-> k <> "MaStRNummer" /\ In k all_keys).
  { rewrite Eheader. destruct (existsb (String.eqb "MaStRNummer") all_keys) eqn:Ex.
    - destruct (remove_first_nodup "MaStRNummer" all_keys Hall_nd) as [Hnd' Hout].
      eexists. split; [reflexivity|]. split; [now constructor|].
      split; [now apply remove_first_ascending|].
      intros k. split.
      + intros Hk. split; [intros ->; tauto|]. eapply remove_first_In; eauto.
      + intros [Hother Hk]. now apply remove_first_keeps.
    - assert (Hout : ~ In "MaStRNummer" all_keys).
      { intros Hin. apply (proj2 (existsb_eqb_In _ _)) in Hin. congruence. }
      eexists. split; [reflexivity|]. split; [now constructor|]. split; auto.
      intros k. split; [|tauto]. intros Hk. split; auto. intros ->. tauto. }
  clear Eheader. destruct Hheader as (cols & -> & Hcols_nd & Hcols_asc & Hcols_in).
  assert (Hall : forall k, In k all_keys -> In k ("MaStRNummer" :: cols)).
  { intros k Hk. destruct (string_dec k "MaStRNummer") as [-> | Hother]; [now left|].
    right. apply Hcols_in. auto. }
  assert (Herror : In "error" ("MaStRNummer" :: cols)).
  { apply Hall. apply Hall_in. now left. }
  assert (Hitems : forall m r, In (m, r) (sorted_items results) ->
            (data r = TNone \/ exists d, data r = TDict d) /\
            forall d k, data r = TDict d -> truthy (data r) = true ->
                        In k (PyDict.keys (flatten_dict_AB d "" "_")) ->
                        In k ("MaStRNummer" :: cols)).
  { intros m r Hin. rewrite sorted_items_In in Hin. split; [eapply Htyped; eauto|].
    intros d k Hd Ht Hk. apply Hall. apply Hall_in. right.
    exists m, r, d. auto. }
  destruct (save_rows_AB_ok cols (sorted_items results) Hitems Herror)
    as (lines & -> & Hfirst & Hcols).
  exists cols, lines. split; auto. split; auto. split; auto. split.
  - intros k. rewrite Hcols_in, Hall_in. tauto.
  - split.
    + destruct Herror as [H | H]; [discriminate H | exact H].
    + split; auto. rewrite Hfirst. unfold PyDict.keys.
      rewrite <- sorted_items_keys, map_map. reflexivity.
Qed.

Lemma save_anlagenbetreiber_csv_lines_witness :
  exists cols lines,
    @save_anlagenbetreiber_csv ascii_builtins mixed_results
      = Ok (Some ("MaStRNummer" :: cols, lines)) /\
    NoDup ("MaStRNummer" :: cols) /\
    ascending cols /\
    (forall k, In k cols <->
               k <> "MaStRNummer" /\
               (k = "error" \/ @fetched_key ascii_builtins mixed_results k)) /\
    In "error" cols /\
    map (@hd_error _) lines
      = map (fun m => Some ("MaStRNummer", TStr m)) (sorted (PyDict.keys mixed_results)) /\
    Forall (fun line => map fst line = "MaStRNummer" :: cols) lines.
Proof.
  apply (@save_anlagenbetreiber_csv_lines ascii_builtins mixed_results).
  intros m r [[= <- <-] | [[= <- <-] | []]]; [now left | right; eexists; reflexivity].
Defined.

Lemma fetched_keys_MA_In {B : Builtins} (results : list (string * FetchResult)) :
  forall acc k,
  In k (fetched_keys_MA results acc) <->
  In k acc \/
  exists m r, In (m, r) results /\ truthy (data r) = true /\
              In k (PyDict.keys (flatten_dict_MA (data r) "" "_")).
Proof.
  induction results as [|[m r] rest IH]; intros acc k; simpl.
  - split; auto. intros [? | (m & r & [] & _)]; auto.
  - destruct (truthy (data r)) eqn:Et; rewrite IH; [rewrite set_update_In|]; split.
    + intros [[? | Hk] | (m1 & r1 & Hin & H)]; auto.
      * right. exists m, r. auto.
      * right. exists m1, r1. auto.
    + intros [? | (m1 & r1 & [[= <- <-] | Hin] & Ht & Hk)]; auto.
      right. exists m1, r1. auto.
    + intros [? | (m1 & r1 & Hin & H)]; auto. right. exists m1, r1. auto.
    + intros [? | (m1 & r1 & [[= <- <-] | Hin] & Ht & Hk)]; auto.
      * congruence.
      * right. exists m1, r1. auto.
Qed.

Lemma save_rows_MA_raises {B : Builtins} (results : list (string * FetchResult))
  (fieldnames : list string) m r :
  PyDict.get results m = Some r -> truthy (data r) = false ->
  ~ In "Error" fieldnames ->
  forall mastr_nums,
  (forall k, In k mastr_nums -> In k (PyDict.keys results)) ->
  In m mastr_nums ->
  save_rows_MA results fieldnames mastr_nums
  = Raise "dict contains fields not in fieldnames".
Proof.
  intros Hget Hfalsy Hout.
  induction mastr_nums as [|k rest IH]; intros Hkeys Hin; [destruct Hin|].
  simpl. destruct (dict_keys_get _ _ (Hkeys k (or_introl eq_refl))) as [r' Hr'].
  rewrite Hr'.
  destruct (string_dec k m) as [-> | Hne].
  - assert (r' = r) by congruence. subst r'. rewrite Hfalsy.
    rewrite (writerow_raises fieldnames _ "Error"); auto.
    simpl. right. now left.
  - destruct (writerow fieldnames _) as [line | msg] eqn:Ew.
    + rewrite IH; auto.
      * intros k0 Hk0. apply Hkeys. now right.
      * destruct Hin as [? | ?]; [congruence|auto].
    + unfold writerow in Ew.
      destruct (forallb _ _); [discriminate|]. now injection Ew as <-.
Qed.

Lemma fold_set_items_get {V} (f : string -> string) (items : list (string * V)) :
  (forall a b, f a = f b -> a = b) ->
  NoDup (PyDict.keys items) ->
  forall d k v, In (k, v) items ->
  PyDict.get (fold_left (fun m kv => PyDict.set m (f (fst kv)) (snd kv)) items d) (f k)
  = Some v.
Proof.
  intros Hinj. induction items as [|[k0 v0] items IH]; intros Hnd d k v Hin; [destruct Hin|].
  unfold PyDict.keys in Hnd. simpl in Hnd. inversion Hnd as [|? ? Hfresh Hrest]; subst.
  simpl. destruct Hin as [[= <- <-] | Hin].
  - destruct (fold_set_items f items (PyDict.set d (f k0) v0)) as [_ Hget].
    rewrite Hget; [apply dict_get_set_same|].
    intros Hk. apply in_map_iff in Hk. destruct Hk as ([k1 v1] & E & Hk1).
    simpl in E. apply Hinj in E. subst k1. apply Hfresh.
    apply in_map_iff. now exists (k0, v1).
  - apply IH; auto.
Qed.

Lemma flatten_dict_MA_keys_nodup {B : Builtins} (d : Tree) (parent_key sep : string) :
  NoDup (PyDict.keys (flatten_dict_MA d parent_key sep)).
Proof.
  destruct d;
    try solve [simpl; destruct (PyStr.nonempty parent_key); repeat constructor; auto].
  rewrite flatten_dict_MA_unfold. unfold PyDict.of_items.
  apply dict_update_nodup. constructor.
Qed.

Lemma keys_columns {V} (f : string -> V) (cols : list string) :
  PyDict.keys (map (fun c => (c, f c)) cols) = cols.
Proof. unfold PyDict.keys. rewrite map_map. simpl. apply map_id. Qed.

(** The local [row] of [save_marktakteur_csv] at [writer.writerow]. *)
Lemma save_rows_MA_lines {B : Builtins} (results : list (string * FetchResult))
  (fieldnames : list string) :
  (forall m r k, In (m, r) results -> truthy (data r) = true ->
     In k (PyDict.keys (flatten_dict_MA (data r) "" "_")) -> In k fieldnames) ->
  (forall m r, In (m, r) results -> truthy (data r) = false -> In "Error" fieldnames) ->
  In "MaStRNummer" fieldnames ->
  forall mastr_nums,
  (forall k, In k mastr_nums -> In k (PyDict.keys results)) ->
  exists lines,
    save_rows_MA results fieldnames mastr_nums = Ok lines /\
    Forall2 (fun m line =>
               exists r, PyDict.get results m = Some r /\
                 line = map (fun c =>
                               (c, match PyDict.get
                                           (if truthy (data r)
                                            then PyDict.update [("MaStRNummer", TStr m)]
                                                   (flatten_dict_MA (data r) "" "_")
                                            else PyDict.set [("MaStRNummer", TStr m)]
                                                   "Error" (error_cell (error r))) c with
                                   | Some v => v
                                   | None => TStr ""
                                   end)) fieldnames)
            mastr_nums lines.
Proof.
  intros Hfields Herror Hfirst.
  induction mastr_nums as [|k rest IH]; intros Hkeys; simpl.
  - exists []. split; auto.
  - destruct (dict_keys_get _ _ (Hkeys k (or_introl eq_refl))) as [r Hr].
    rewrite Hr. pose proof (dict_get_In _ _ _ Hr) as Hin.
    rewrite writerow_ok.
    + destruct IH as (lines & -> & Hlines).
      { intros k0 Hk0. apply Hkeys. now right. }
      eexists. split; [reflexivity|]. constructor; auto.
      exists r. split; auto.
    + intros c Hc. destruct (truthy (data r)) eqn:Et.
      * apply dict_update_keys in Hc. destruct Hc as [[<- | []] | Hc]; auto.
        eapply Hfields; eauto.
      * simpl in Hc. destruct Hc as [<- | [<- | []]]; auto.
        eapply Herror; eauto.
Qed.

(** X12.  [save_marktakteur_csv] raises [ValueError] as soon as one result
    has no data, unless a fetched record has a flattened field named
    [Error]: the row of a result without data gets the key [Error], and the
    field names hold only [MaStRNummer] and the flattened keys of the
    records. *)
Theorem save_marktakteur_csv_error_column {B : Builtins}
  (results : list (string * FetchResult)) (m : string) (r : FetchResult) :
  PyDict.get results m = Some r -> truthy (data r) = false ->
  (forall m' r', In (m', r') results -> truthy (data r') = true ->
     ~ In "Error" (PyDict.keys (flatten_dict_MA (data r') "" "_"))) ->
  save_marktakteur_csv results = Raise "dict contains fields not in fieldnames".
Proof.
  intros Hget Hfalsy Hout. unfold save_marktakteur_csv.
  rewrite (save_rows_MA_raises results _ m r Hget Hfalsy); auto.
  - intros [H | H]; [discriminate H|].
    apply (proj1 (sorted_In _ _)) in H. apply filter_In in H. destruct H as [H _].
    apply fetched_keys_MA_In in H. destruct H as [[] | (m' & r' & Hin & Ht & Hk)].
    exact (Hout m' r' Hin Ht Hk).
  - intros k Hk. exact (proj1 (sorted_In _ _) Hk).
  - apply (proj2 (sorted_In _ _)). eapply dict_get_keys; eauto.
Qed.

Lemma save_marktakteur_csv_error_column_witness :
  @save_marktakteur_csv ascii_builtins mixed_results
  = Raise "dict contains fields not in fieldnames".
Proof.
  apply (@save_marktakteur_csv_error_column ascii_builtins mixed_results
           "ABR900000000002" {| data := TNone; error := Some "not_found" |}).
  - reflexivity.
  - reflexivity.
  - intros m' r' [[= <- <-] | [[= <- <-] | []]] Ht; [discriminate Ht|].
    intros [H | []]. discriminate H.
Defined.

(** X18.  When every result has data, or some fetched record has a flattened
    field named [Error], [save_marktakteur_csv] does not raise.  Its header
    is [MaStRNummer] followed, in ascending order and without repeats, by the
    other flattened keys of the records; it writes one line per result,
    ordered by identifier, each with the header's columns.  The line of a
    result with data carries every flattened field of the record, and the
    identifier under [MaStRNummer] unless the record has a field of that
    name; the line of a result without data carries the identifier and, under
    [Error], the error of the fetch. *)
Theorem save_marktakteur_csv_lines {B : Builtins}
  (results : list (string * FetchResult)) :
  (forall m r, In (m, r) results -> truthy (data r) = false ->
     exists m' r', In (m', r') results /\ truthy (data r') = true /\
                   In "Error" (PyDict.keys (flatten_dict_MA (data r') "" "_"))) ->
  exists fieldnames lines,
    save_marktakteur_csv results = Ok ("MaStRNummer" :: fieldnames, lines) /\
    NoDup ("MaStRNummer" :: fieldnames) /\
    ascending fieldnames /\
    (forall k, In k fieldnames <->
               k <> "MaStRNummer" /\
               exists m r, In (m, r) results /\ truthy (data r) = true /\
                           In k (PyDict.keys (flatten_dict_MA (data r) "" "_"))) /\
    Forall2 (fun m line =>
               map fst line = "MaStRNummer" :: fieldnames /\
               exists r, PyDict.get results m = Some r /\
                 if truthy (data r)
                 then (forall k v, In (k, v) (flatten_dict_MA (data r) "" "_") ->
                                   PyDict.get line k = Some v) /\
                      (~ In "MaStRNummer" (PyDict.keys (flatten_dict_MA (data r) "" "_")) ->
                       PyDict.get line "MaStRNummer" = Some (TStr m))
                 else PyDict.get line "MaStRNummer" = Some (TStr m) /\
                      PyDict.get line "Error" = Some (error_cell (error r)))
            (sorted (PyDict.keys results)) lines.
Proof.
  intros Hcover. unfold save_marktakteur_csv.
  set (fieldnames := sorted (filter (fun k => negb (String.eqb k "MaStRNummer"))
                                    (fetched_keys_MA results []))).
  assert (Hin : forall k, In k fieldnames <->
                  k <> "MaStRNummer" /\
                  exists m r, In (m, r) results /\ truthy (data r) = true /\
                              In k (PyDict.keys (flatten_dict_MA (data r) "" "_"))).
  { intros k. unfold fieldnames. rewrite sorted_In, filter_In, fetched_keys_MA_In.
    rewrite negb_true_iff, String.eqb_neq. simpl. tauto. }
  assert (Hnd : NoDup ("MaStRNummer" :: fieldnames)).
  { constructor.
    - intros H. apply Hin in H. tauto.
    - unfold fieldnames. apply sorted_nodup. apply NoDup_filter.
      apply fetched_keys_MA_nodup. constructor. }
  assert (Hfields : forall m r k, In (m, r) results -> truthy (data r) = true ->
            In k (PyDict.keys (flatten_dict_MA (data r) "" "_")) ->
            In k ("MaStRNummer" :: fieldnames)).
  { intros m r k Hr Ht Hk.
    destruct (string_dec k "MaStRNummer") as [-> | Hne]; [now left|].
    right. apply Hin. split; auto. exists m, r. auto. }
  assert (Herror : forall m r, In (m, r) results -> truthy (data r) = false ->
            In "Error" ("MaStRNummer" :: fieldnames)).
  { intros m r Hr Hf. destruct (Hcover m r Hr Hf) as (m' & r' & Hr' & Ht' & Hk).
    right. apply Hin. split; [discriminate|]. exists m', r'. auto. }
  destruct (save_rows_MA_lines results ("MaStRNummer" :: fieldnames) Hfields Herror
              (or_introl eq_refl) (sorted (PyDict.keys results)))
    as (lines & -> & Hlines).
  { intros k Hk. exact (proj1 (sorted_In _ _) Hk). }
  exists fieldnames, lines. split; [reflexivity|]. split; [exact Hnd|].
  split; [apply sorted_ascending|]. split; [exact Hin|].
  eapply Forall2_impl; [|exact Hlines].
  intros m line (r & Hr & ->). split; [apply keys_columns|].
  exists r. split; [exact Hr|].
  pose proof (dict_get_In _ _ _ Hr) as Hr_in.
  destruct (truthy (data r)) eqn:Et.
  - split.
    + intros k v Hkv.
      rewrite dict_get_columns with
        (f := fun c => match PyDict.get _ c with Some v => v | None => TStr "" end).
      * unfold PyDict.update.
        rewrite (fold_set_items_get (fun x => x) (flatten_dict_MA (data r) "" "_"))
          with (v := v); auto.
        apply flatten_dict_MA_keys_nodup.
      * apply (Hfields m r k Hr_in Et).
        unfold PyDict.keys. apply in_map_iff. now exists (k, v).
    + intros Hout.
      rewrite dict_get_columns with
        (f := fun c => match PyDict.get _ c with Some v => v | None => TStr "" end);
        [|now left].
      unfold PyDict.update.
      destruct (fold_set_items (fun x => x) (flatten_dict_MA (data r) "" "_")
                  [("MaStRNummer", TStr m)]) as [_ Hget].
      cbv zeta in Hget. rewrite Hget; [reflexivity|].
      rewrite <- map_map with (f := fst) (g := fun x => x). now rewrite map_id.
  - split.
    + rewrite dict_get_columns with
        (f := fun c => match PyDict.get _ c with Some v => v | None => TStr "" end);
        [reflexivity|now left].
    + rewrite dict_get_columns with
        (f := fun c => match PyDict.get _ c with Some v => v | None => TStr "" end);
        [reflexivity|].
      apply (Herror m r Hr_in Et).
Qed.

Lemma save_marktakteur_csv_lines_witness :
  exists fieldnames lines,
    @save_marktakteur_csv ascii_builtins record_results
      = Ok ("MaStRNummer" :: fieldnames, lines) /\
    NoDup ("MaStRNummer" :: fieldnames) /\
    ascending fieldnames /\
    (forall k, In k fieldnames <->
               k <> "MaStRNummer" /\
               exists m r, In (m, r) record_results /\ truthy (data r) = true /\
                           In k (PyDict.keys (@flatten_dict_MA ascii_builtins
                                                (data r) "" "_"))) /\
    Forall2 (fun m line =>
               map fst line = "MaStRNummer" :: fieldnames /\
               exists r, PyDict.get record_results m = Some r /\
                 if truthy (data r)
                 then (forall k v, In (k, v) (@flatten_dict_MA ascii_builtins
                                                (data r) "" "_") ->
                                   PyDict.get line k = Some v) /\
                      (~ In "MaStRNummer"
                           (PyDict.keys (@flatten_dict_MA ascii_builtins (data r) "" "_")) ->
                       PyDict.get line "MaStRNummer" = Some (TStr m))
                 else PyDict.get line "MaStRNummer" = Some (TStr m) /\
                      PyDict.get line "Error" = Some (error_cell (error r)))
            (sorted (PyDict.keys record_results)) lines.
Proof.
  apply (@save_marktakteur_csv_lines ascii_builtins record_results).
  intros m r [[= <- <-] | []] Hfalse. discriminate Hfalse.
Defined.

(** What [save_marktakteur_csv] writes for one record. *)
Example save_marktakteur_csv_record :
  @save_marktakteur_csv ascii_builtins record_results
  = Ok (["MaStRNummer"; "Adresse_Ort"; "Firmenname"],
        [[("MaStRNummer", TStr "ABR900000000001");
          ("Adresse_Ort", TStr "Kiel"); ("Firmenname", TStr "Stadtwerke")]]).
Proof. reflexivity. Qed.

(** ** The merge: the rows that have a record *)

Lemma write_rows_inv {B : Builtins} (results : list (string * FetchResult))
  (cols header : list string) (rows : list Row) :
  forall lines,
  write_rows results cols header rows = Ok lines ->
  Forall2 (fun row line =>
             exists merged, merged_row results cols row = Ok merged /\
                            writerow header merged = Ok line) rows lines.
Proof.
  induction rows as [|row rows IH]; intros lines; simpl.
  - intros [= <-]. constructor.
  - destruct (merged_row results cols row) as [merged|] eqn:Em; [|discriminate].
    destruct (writerow header merged) as [line|] eqn:Ew; [|discriminate].
    destruct (write_rows results cols header rows) as [rest|]; [|discriminate].
    intros [= <-]. constructor; eauto.
Qed.

Lemma writerow_inv (fieldnames : list string) (rowdict : Dict) line :
  writerow fieldnames rowdict = Ok line ->
  line = map (fun c => (c, match PyDict.get rowdict c with
                           | Some v => v
                           | None => TStr ""
                           end)) fieldnames.
Proof.
  unfold writerow. destruct (forallb _ _); [|discriminate]. now intros [= <-].
Qed.

Lemma AB_injective (a b : string) : AB a = AB b -> a = b.
Proof. unfold AB. simpl. now intros [= ->]. Qed.

(** X13.  In what [merge_csvs] of fetch_anlagenbetreiber.py writes, the line
    of a row whose operator has a record carries every flattened field of the
    record under its prefixed column, and the error text of the fetch (empty
    when there is none) under [AB_error]; this needs results whose data is
    null or a mapping without a flattened key [error]. *)
Theorem merge_csvs_carries_record {B : Builtins} (rows : list Row)
  (results : list (string * FetchResult)) (header : list string)
  (lines : list (list (string * Tree))) :
  (forall m r, In (m, r) results -> data r = TNone \/ exists d, data r = TDict d) ->
  (forall m r d, In (m, r) results -> data r = TDict d ->
     ~ In "error" (PyDict.keys (flatten_dict_AB d "" "_"))) ->
  merge_csvs rows results = Ok (Some (header, lines)) ->
  Forall2 (fun row line =>
             forall r d, matched results row = Some r -> data r = TDict d ->
                         truthy (data r) = true ->
               PyDict.get line "AB_error"
                 = Some (TStr match error r with
                              | Some e => if PyStr.nonempty e then e else ""
                              | None => ""
                              end) /\
               forall k v, In (k, v) (flatten_dict_AB d "" "_") ->
                           PyDict.get line (AB k) = Some v)
          rows lines.
Proof.
  intros Htyped Hfree Hmerge. unfold merge_csvs in Hmerge.
  destruct rows as [|first rest]; [discriminate|].
  destruct (prefixed_cols_ok results Htyped) as (cols & Ecols & Hcols).
  rewrite Ecols in Hmerge.
  destruct (write_rows results cols _ (first :: rest)) as [ls|] eqn:Ew; [|discriminate].
  injection Hmerge as <- <-.
  apply write_rows_inv in Ew.
  eapply Forall2_impl; [|exact Ew].
  intros row line (merged & Em & Eline) r d Hmatched Hd Ht.
  apply writerow_inv in Eline. subst line.
  destruct (matched_In _ _ _ Hmatched) as [m Hin].
  unfold merged_row in Em. rewrite Hmatched, Ht, Hd in Em. simpl in Em.
  injection Em as <-.
  set (base := PyDict.set _ "AB_error" _).
  destruct (flatten_dict_AB_flat d "" "_") as [Hnd _].
  split.
  - rewrite dict_get_columns with
      (f := fun c => match PyDict.get _ c with Some v => v | None => TStr "" end).
    + destruct (fold_set_items AB (flatten_dict_AB d "" "_") base) as [_ Hget].
      rewrite Hget; [unfold base; now rewrite dict_get_set_same|].
      intros Hk. apply in_map_iff in Hk. destruct Hk as ([k v] & E & Hkv).
      change "AB_error" with (AB "error") in E. apply AB_injective in E.
      simpl in E. subst k. apply (Hfree m r d Hin Hd).
      unfold PyDict.keys. apply in_map_iff. now exists ("error", v).
    + rewrite !in_app_iff. right; right. now left.
  - intros k v Hkv.
    rewrite dict_get_columns with
      (f := fun c => match PyDict.get _ c with Some v => v | None => TStr "" end).
    + now rewrite (fold_set_items_get AB _ AB_injective Hnd base k v Hkv).
    + rewrite !in_app_iff. right; left. apply Hcols. exists k. split; auto.
      exists m, r, d. repeat split; auto.
      unfold PyDict.keys. apply in_map_iff. now exists (k, v).
Qed.

Lemma merge_csvs_carries_record_witness :
  Forall2 (fun row line =>
             forall r d, @matched ascii_builtins record_results row = Some r ->
                         data r = TDict d -> truthy (data r) = true ->
               PyDict.get line "AB_error"
                 = Some (TStr match error r with
                              | Some e => if PyStr.nonempty e then e else ""
                              | None => ""
                              end) /\
               forall k v, In (k, v) (@flatten_dict_AB ascii_builtins d "" "_") ->
                           PyDict.get line (AB k) = Some v)
          [row_with_number; row_without_number]
          [[("Name", TStr "Speicher Ost");
            ("MaStR-Nr. des Anlagenbetreibers", TStr " ABR900000000001 ");
            ("AB_Adresse_Ort", TStr "Kiel");
            ("AB_Firmenname", TStr "Stadtwerke");
            ("AB_error", TStr "")];
           [("Name", TStr "Solarpark Nord");
            ("MaStR-Nr. des Anlagenbetreibers", TStr "");
            ("AB_Adresse_Ort", TStr "");
            ("AB_Firmenname", TStr "");
            ("AB_error", TStr "no_mastr_num")]].
Proof.
  apply (@merge_csvs_carries_record ascii_builtins
           [row_with_number; row_without_number] record_results
           ["Name"; "MaStR-Nr. des Anlagenbetreibers";
            "AB_Adresse_Ort"; "AB_Firmenname"; "AB_error"]).
  - intros m r [[= <- <-] | []]. right. eexists. reflexivity.
  - intros m r d [[= <- <-] | []] [= <-].
    cbn. intros [H | [H | []]]; discriminate H.
  - reflexivity.
Defined.

(** ** The merge of fetch_marktakteur.py *)

Lemma original_fieldnames_In (rows : list Row) :
  forall acc k,
  In k (fold_left (fun names row => set_update names (PyDict.keys row)) rows acc) <->
  In k acc \/ exists row, In row rows /\ In k (PyDict.keys row).
Proof.
  induction rows as [|r rows IH]; intros acc k; simpl.
  - split; auto. intros [? | (row & [] & _)]; auto.
  - rewrite IH, set_update_In. split.
    + intros [[? | ?] | (row & Hin & Hk)]; eauto.
    + intros [? | (row & [<- | Hin] & Hk)]; eauto.
Qed.

Lemma mastr_to_data_get {B : Builtins} (results : list (string * FetchResult)) m fl :
  forall acc,
  PyDict.get
    (fold_left (fun acc entry =>
                  if truthy (data (snd entry))
                  then PyDict.set acc (fst entry) (flatten_dict_MA (data (snd entry)) "" "_")
                  else acc) results acc) m = Some fl ->
  PyDict.get acc m = Some fl \/
  exists r, In (m, r) results /\ truthy (data r) = true /\
            fl = flatten_dict_MA (data r) "" "_".
Proof.
  induction results as [|[m0 r0] results IH]; intros acc; simpl; auto.
  intros H. apply IH in H. destruct H as [H | (r & Hin & Ht & E)]; [|right; eauto].
  destruct (truthy (data r0)) eqn:Et; auto.
  destruct (String.eqb_spec m m0) as [-> | Hne].
  - rewrite dict_get_set_same in H. injection H as <-. right. eauto.
  - rewrite dict_get_set_other in H; auto.
Qed.

Lemma fold_left_unless {A K} (p : K -> bool) (g : A -> K -> A) (l : list K) :
  forall a,
  fold_left (fun m kv => if p kv then m else g m kv) l a
  = fold_left g (filter (fun kv => negb (p kv)) l) a.
Proof.
  induction l as [|x l IH]; intros a; simpl; auto.
  destruct (p x); simpl; auto.
Qed.

Lemma NoDup_keys_filter {V} (p : string * V -> bool) (l : list (string * V)) :
  NoDup (PyDict.keys l) -> NoDup (PyDict.keys (filter p l)).
Proof.
  unfold PyDict.keys. induction l as [|x l IH]; simpl; auto.
  intros Hnd. inversion Hnd as [|? ? Hfresh Hrest]; subst.
  destruct (p x); simpl; auto. constructor; auto.
  intros Hin. apply Hfresh. apply in_map_iff in Hin.
  destruct Hin as (y & E & Hy). apply filter_In in Hy.
  apply in_map_iff. exists y. tauto.
Qed.

Lemma MA_injective (a b : string) : MA a = MA b -> a = b.
Proof. unfold MA. simpl. now intros [= ->]. Qed.

Lemma flatten_dict_MA_nodup {B : Builtins} (d : Tree) :
  NoDup (PyDict.keys (flatten_dict_MA d "" "_")).
Proof.
  destruct d; try (simpl; constructor).
  rewrite flatten_dict_MA_unfold. unfold PyDict.of_items.
  apply dict_update_nodup. constructor.
Qed.

Lemma merged_row_MA_unfold {B : Builtins} (originals : list string)
  (results : list (string * FetchResult)) (row : Row) :
  merged_row_MA originals (mastr_to_data results) row
  = match fetched_data_MA results row with
    | Some fetched_data =>
        fold_left (fun m kv => PyDict.set m (MA (fst kv)) (snd kv))
                  (filter (fun kv => negb (existsb (String.eqb (fst kv)) originals))
                          fetched_data)
                  (map (fun kv => (fst kv, TStr (snd kv))) row)
    | None => map (fun kv => (fst kv, TStr (snd kv))) row
    end.
Proof.
  unfold merged_row_MA, fetched_data_MA.
  destruct (mastr_num_MA row) as [m|]; auto.
  destruct (PyStr.nonempty m); auto.
  destruct (PyDict.get (mastr_to_data results) m) as [fl|]; auto.
  apply fold_left_unless with (p := fun kv => existsb (String.eqb (fst kv)) originals).
Qed.

Lemma fetched_data_MA_source {B : Builtins} (results : list (string * FetchResult))
  (row : Row) fl :
  fetched_data_MA results row = Some fl ->
  exists m r, mastr_num_MA row = Some m /\ PyStr.nonempty m = true /\
              In (m, r) results /\ truthy (data r) = true /\
              fl = flatten_dict_MA (data r) "" "_".
Proof.
  unfold fetched_data_MA. destruct (mastr_num_MA row) as [m|]; [|discriminate].
  destruct (PyStr.nonempty m) eqn:En; [|discriminate].
  intros H. apply mastr_to_data_get in H.
  destruct H as [H | (r & Hin & Ht & E)]; [discriminate|].
  exists m, r. auto.
Qed.

Lemma row_keys_text (row : Row) :
  PyDict.keys (map (fun kv => (fst kv, TStr (snd kv))) row) = PyDict.keys row.
Proof. unfold PyDict.keys. rewrite map_map. reflexivity. Qed.

Lemma merged_row_MA_keys {B : Builtins} (rows : list Row)
  (results : list (string * FetchResult)) (row : Row) :
  In row rows ->
  forall k,
  In k (PyDict.keys (merged_row_MA (original_fieldnames rows) (mastr_to_data results) row)) ->
  In k (merged_fieldnames rows results).
Proof.
  intros Hrow k. rewrite merged_row_MA_unfold. unfold merged_fieldnames.
  assert (Hbase : In k (PyDict.keys row) ->
                  In k (sorted (original_fieldnames rows) ++
                        map MA (filter (fun field =>
                                          negb (existsb (String.eqb field)
                                                        (original_fieldnames rows)))
                                       (sorted (fetched_keys_MA results []))))).
  { intros Hk. apply in_app_iff. left. apply sorted_In.
    unfold original_fieldnames. apply original_fieldnames_In. right. eauto. }
  destruct (fetched_data_MA results row) as [fl|] eqn:Ef.
  - intros Hk.
    destruct (fold_set_items MA
                (filter (fun kv => negb (existsb (String.eqb (fst kv))
                                                 (original_fieldnames rows))) fl)
                (map (fun kv => (fst kv, TStr (snd kv))) row)) as [Hkeys _].
    apply Hkeys in Hk. rewrite row_keys_text in Hk.
    destruct Hk as [Hk | Hk]; auto.
    apply in_map_iff in Hk. destruct Hk as ([k0 v0] & <- & Hin).
    apply filter_In in Hin. destruct Hin as [Hin Hout]. simpl in *.
    destruct (fetched_data_MA_source _ _ _ Ef) as (m & r & _ & _ & Hr & Ht & ->).
    apply in_app_iff. right. apply in_map. apply filter_In. split; auto.
    apply sorted_In. apply fetched_keys_MA_In. right. exists m, r.
    split; auto. split; auto.
    unfold PyDict.keys. apply in_map_iff. now exists (k0, v0).
  - rewrite row_keys_text. exact Hbase.
Qed.

Lemma write_rows_MA_ok {B : Builtins} (all_rows : list Row)
  (results : list (string * FetchResult)) (rows : list Row) :
  (forall row, In row rows -> In row all_rows) ->
  write_rows_MA (merged_fieldnames all_rows results) (original_fieldnames all_rows)
                (mastr_to_data results) rows
  = Ok (map (fun row =>
               map (fun c => (c, match PyDict.get
                                         (merged_row_MA (original_fieldnames all_rows)
                                                        (mastr_to_data results) row) c with
                                 | Some v => v
                                 | None => TStr ""
                                 end))
                   (merged_fieldnames all_rows results))
            rows).
Proof.
  induction rows as [|row rows IH]; intros Hsub; simpl; auto.
  rewrite writerow_ok.
  - rewrite IH; auto. intros r Hr. apply Hsub. now right.
  - apply merged_row_MA_keys. apply Hsub. now left.
Qed.

Lemma Forall2_map_right {A C} (R : A -> C -> Prop) (f : A -> C) (l : list A) :
  (forall a, In a l -> R a (f a)) -> Forall2 R l (map f l).
Proof.
  induction l as [|x l IH]; intros H; simpl; constructor.
  - apply H. now left.
  - apply IH. intros a Ha. apply H. now right.
Qed.

(** X14.  [merge_csvs] of fetch_marktakteur.py never raises, whatever the
    rows and the results: it writes one line per row, in order, each with the
    columns of the header, also when the rows have different columns; the
    line of a row that has no number, or no fetched record, carries the row's
    own cells and is empty under every other column. *)
Theorem merge_csvs_MA_writes_every_row {B : Builtins} (rows : list Row)
  (results : list (string * FetchResult)) :
  exists lines,
    merge_csvs_MA rows results = Ok (merged_fieldnames rows results, lines) /\
    Forall2 (fun row line =>
               PyDict.keys line = merged_fieldnames rows results /\
               (fetched_data_MA results row = None ->
                forall c, In c (merged_fieldnames rows results) ->
                  PyDict.get line c
                  = Some (TStr match PyDict.get row c with
                               | Some text => text
                               | None => ""
                               end)))
            rows lines.
Proof.
  unfold merge_csvs_MA. rewrite (write_rows_MA_ok rows results rows); auto.
  eexists. split; [reflexivity|].
  apply Forall2_map_right. intros row Hrow. split.
  - apply keys_columns.
  - intros Hnone c Hc.
    rewrite dict_get_columns with
      (f := fun c => match PyDict.get _ c with Some v => v | None => TStr "" end); auto.
    rewrite merged_row_MA_unfold, Hnone, dict_get_map_values.
    now destruct (PyDict.get row c).
Qed.

(** X15.  In what [merge_csvs] of fetch_marktakteur.py writes, the line of a
    row for which a record was fetched carries, under its prefixed column,
    every flattened field of that record whose name is not a column of the
    input; the record is the data of a result stored under the row's
    number. *)
Theorem merge_csvs_MA_carries_record {B : Builtins} (rows : list Row)
  (results : list (string * FetchResult)) (header : list string)
  (lines : list (list (string * Tree))) :
  merge_csvs_MA rows results = Ok (header, lines) ->
  Forall2 (fun row line =>
             forall fetched_data, fetched_data_MA results row = Some fetched_data ->
               (exists m r, mastr_num_MA row = Some m /\ In (m, r) results /\
                            truthy (data r) = true /\
                            fetched_data = flatten_dict_MA (data r) "" "_") /\
               forall k v, In (k, v) fetched_data ->
                           ~ In k (original_fieldnames rows) ->
                           PyDict.get line (MA k) = Some v)
          rows lines.
Proof.
  unfold merge_csvs_MA. rewrite (write_rows_MA_ok rows results rows); auto.
  intros [= <- <-].
  apply Forall2_map_right. intros row Hrow fl Hfl.
  destruct (fetched_data_MA_source _ _ _ Hfl) as (m & r & Hm & _ & Hin & Ht & E).
  split; [exists m, r; auto|].
  intros k v Hkv Hout.
  assert (Hkept : In (k, v) (filter (fun kv => negb (existsb (String.eqb (fst kv))
                                                            (original_fieldnames rows)))
                                    fl)).
  { apply filter_In. split; auto. simpl.
    destruct (existsb (String.eqb k) (original_fieldnames rows)) eqn:Ex; auto.
    apply existsb_eqb_In in Ex. tauto. }
  rewrite dict_get_columns with
    (f := fun c => match PyDict.get _ c with Some v => v | None => TStr "" end).
  - rewrite merged_row_MA_unfold, Hfl.
    rewrite (fold_set_items_get MA _ MA_injective) with (v := v); auto.
    apply NoDup_keys_filter. subst fl. apply flatten_dict_MA_nodup.
  - unfold merged_fieldnames. apply in_app_iff. right. apply in_map.
    apply filter_In. split.
    + apply sorted_In. apply fetched_keys_MA_In. right. exists m, r.
      split; auto. split; auto. subst fl.
      unfold PyDict.keys. apply in_map_iff. now exists (k, v).
    + destruct (existsb (String.eqb k) (original_fieldnames rows)) eqn:Ex; auto.
      apply existsb_eqb_In in Ex. tauto.
Qed.

Lemma merge_csvs_MA_carries_record_witness :
  Forall2 (fun row line =>
             forall fetched_data,
               @fetched_data_MA ascii_builtins mixed_results row = Some fetched_data ->
               (exists m r, @mastr_num_MA ascii_builtins row = Some m /\
                            In (m, r) mixed_results /\
                            truthy (data r) = true /\
                            fetched_data = @flatten_dict_MA ascii_builtins (data r) "" "_") /\
               forall k v, In (k, v) fetched_data ->
                           ~ In k (original_fieldnames [actor_row; quoted_actor_row]) ->
                           PyDict.get line (MA k) = Some v)
          [actor_row; quoted_actor_row]
          [[("MaStR-Nr.", TStr " ABR900000000001 ");
            ("Name", TStr "Stadtwerke");
            ("Ort", TStr "");
            ("MA_Firmenname", TStr "Stadtwerke")];
           [("MaStR-Nr.", TStr (snd (hd ("", "") quoted_actor_row)));
            ("Name", TStr "");
            ("Ort", TStr "Kiel");
            ("MA_Firmenname", TStr "")]].
Proof.
  apply (@merge_csvs_MA_carries_record ascii_builtins [actor_row; quoted_actor_row]
           mixed_results ["MaStR-Nr."; "Name"; "Ort"; "MA_Firmenname"]).
  reflexivity.
Defined.

(** ** Reading the numbers (fetch_marktakteur.py) *)

Lemma add_mastr_num_MA_keeps {B : Builtins} (rows : list Row) :
  forall acc x, In x acc -> In x (fold_left add_mastr_num_MA rows acc).
Proof.
  induction rows as [|r rows IH]; intros acc x Hx; simpl; auto.
  apply IH. unfold add_mastr_num_MA.
  destruct (mastr_num_MA r) as [m|]; auto.
  destruct (PyStr.nonempty m); auto.
  destruct (PyStr.nonempty (strip_quotes m)); auto.
  apply set_update_In. now left.
Qed.

Lemma read_marktakteur_csv_numbers {B : Builtins} (reader : list Row) (row : Row) m :
  In row reader -> mastr_num_MA row = Some m ->
  PyStr.nonempty m = true -> PyStr.nonempty (strip_quotes m) = true ->
  In (strip_quotes m) (snd (read_marktakteur_csv reader)).
Proof.
  unfold read_marktakteur_csv. simpl. generalize (@nil string).
  induction reader as [|r reader IH]; intros acc Hrow Hm Hn Hs; simpl;
    [destruct Hrow|destruct Hrow as [<- | Hin]].
  - apply add_mastr_num_MA_keeps. unfold add_mastr_num_MA. rewrite Hm, Hn, Hs.
    apply set_update_In. right. now left.
  - apply IH; auto.
Qed.

Lemma batch_results_nodup {W} (client : MastrClient W) sched mastr_nums max_workers st
  results st1 :
  batch_fetch_marktakteure client sched mastr_nums max_workers st = (Ok results, st1) ->
  NoDup (PyDict.keys results).
Proof.
  unfold batch_fetch_marktakteure.
  destruct (max_workers <=? 0)%Z; [discriminate|].
  destruct (run_pool client _ sched 0 (Z.to_nat max_workers) _ [] st)
    as [[fs1 completed] st2].
  intros [= <- <-].
  now destruct (collect_results_keys completed [] (NoDup_nil _)) as [Hnd _].
Qed.

Lemma mastr_to_data_skips {B : Builtins} (results : list (string * FetchResult)) m :
  ~ In m (PyDict.keys results) ->
  forall acc,
  PyDict.get
    (fold_left (fun acc entry =>
                  if truthy (data (snd entry))
                  then PyDict.set acc (fst entry) (flatten_dict_MA (data (snd entry)) "" "_")
                  else acc) results acc) m
  = PyDict.get acc m.
Proof.
  induction results as [|[m0 r0] results IH]; intros Hout acc; simpl; auto.
  simpl in Hout. rewrite IH by tauto.
  destruct (truthy (data r0)); auto.
  apply dict_get_set_other. intros ->. tauto.
Qed.

Lemma mastr_to_data_lookup {B : Builtins} (results : list (string * FetchResult)) m r :
  NoDup (PyDict.keys results) -> In (m, r) results ->
  forall acc, PyDict.get acc m = None ->
  PyDict.get
    (fold_left (fun acc entry =>
                  if truthy (data (snd entry))
                  then PyDict.set acc (fst entry) (flatten_dict_MA (data (snd entry)) "" "_")
                  else acc) results acc) m
  = if truthy (data r) then Some (flatten_dict_MA (data r) "" "_") else None.
Proof.
  induction results as [|[m0 r0] results IH]; intros Hnd Hin acc Hacc; [destruct Hin|].
  unfold PyDict.keys in Hnd. simpl in Hnd.
  inversion Hnd as [|? ? Hfresh Hrest]; subst.
  simpl. destruct Hin as [[= -> ->] | Hin].
  - rewrite mastr_to_data_skips by exact Hfresh.
    destruct (truthy (data r)); [apply dict_get_set_same|exact Hacc].
  - apply IH; auto.
    destruct (truthy (data r0)); auto.
    rewrite dict_get_set_other; auto.
    intros E. apply Hfresh. rewrite <- E. apply in_map_iff. now exists (m, r).
Qed.

(** X16.  When the batch is run over the numbers [read_marktakteur_csv]
    extracts, as [main] of fetch_marktakteur.py does, every row whose number
    is the same after its quotes are stripped a second time (which
    [read_marktakteur_csv] does, and [merge_csvs] does not) has a result
    under that number, and [merge_csvs] merges the flattened data of that
    result into the row; it merges nothing into the row only when the fetch
    gave no data. *)
Theorem every_number_merged_is_read {B : Builtins} {W} (client : MastrClient W)
  (sched : nat -> nat) (reader : list Row) (max_workers : Z) (st st1 : State W)
  (results : list (string * FetchResult)) :
  batch_fetch_marktakteure client sched
    (sorted (snd (read_marktakteur_csv reader))) max_workers st = (Ok results, st1) ->
  forall row m, In row (fst (read_marktakteur_csv reader)) ->
    mastr_num_MA row = Some m -> PyStr.nonempty m = true -> strip_quotes m = m ->
    exists r, PyDict.get results m = Some r /\
              fetched_data_MA results row
              = if truthy (data r) then Some (flatten_dict_MA (data r) "" "_") else None.
Proof.
  intros Hbatch row m Hrow Hm Hn Hsame.
  assert (Hin : In m (PyDict.keys results)).
  { apply (batch_results_keys _ _ _ _ _ _ _ Hbatch). apply sorted_In.
    rewrite <- Hsame. eapply read_marktakteur_csv_numbers; eauto. now rewrite Hsame. }
  destruct (dict_keys_get _ _ Hin) as [r Hr].
  exists r. split; [exact Hr|].
  unfold fetched_data_MA. rewrite Hm, Hn. unfold mastr_to_data.
  apply mastr_to_data_lookup; auto.
  - eapply batch_results_nodup; eauto.
  - now apply dict_get_In.
Qed.

Lemma every_number_merged_is_read_witness :
  exists r,
    PyDict.get [("ABR900000000001",
                 {| data := TDict [("Personenart", TStr "Unternehmen")]; error := None |})]
               "ABR900000000001" = Some r /\
    @fetched_data_MA ascii_builtins
      [("ABR900000000001",
        {| data := TDict [("Personenart", TStr "Unternehmen")]; error := None |})]
      actor_row
    = if truthy (data r)
      then Some (@flatten_dict_MA ascii_builtins (data r) "" "_")
      else None.
Proof.
  apply (@every_number_merged_is_read ascii_builtins nat (operator_client "Unternehmen")
           (fun tick => tick) [actor_row; quoted_actor_row] 6 start_state
           (snd (batch_fetch_marktakteure (operator_client "Unternehmen") (fun tick => tick)
                   (sorted (snd (@read_marktakteur_csv ascii_builtins
                                   [actor_row; quoted_actor_row])))
                   6 start_state))
           [("ABR900000000001",
             {| data := TDict [("Personenart", TStr "Unternehmen")]; error := None |})]
           eq_refl actor_row "ABR900000000001" (or_introl eq_refl) eq_refl eq_refl eq_refl).
Defined.

(** The row of the witness is merged: its line carries the fetched field. *)
Example merged_after_reading :
  @fetched_data_MA ascii_builtins
    [("ABR900000000001",
      {| data := TDict [("Personenart", TStr "Unternehmen")]; error := None |})]
    actor_row
  = Some [("Personenart", TStr "Unternehmen")].
Proof. reflexivity. Qed.

(** A number quoted twice is read without its quotes and fetched, but
    [merge_csvs] looks it up with the inner quotes and merges nothing. *)
Example quoted_number_is_fetched_but_not_merged :
  snd (@read_marktakteur_csv ascii_builtins [quoted_actor_row]) = ["ABR900000000001"] /\
  @mastr_num_MA ascii_builtins quoted_actor_row
  = Some (String (ascii_of_nat 34) ("ABR900000000001" ++ String (ascii_of_nat 34) "")) /\
  @fetched_data_MA ascii_builtins record_results quoted_actor_row = None /\
  (exists r, PyDict.get record_results "ABR900000000001" = Some r /\
             truthy (data r) = true).
Proof.
  split; [reflexivity|]. split; [reflexivity|]. split; [reflexivity|].
  eexists. split; reflexivity.
Qed.

(** What the two saving functions write for one record and one failed
    fetch. *)
Example save_anlagenbetreiber_csv_mixed :
  @save_anlagenbetreiber_csv ascii_builtins mixed_results
  = Ok (Some (["MaStRNummer"; "Firmenname"; "error"],
              [[("MaStRNummer", TStr "ABR900000000001");
                ("Firmenname", TStr "Stadtwerke"); ("error", TNone)];
               [("MaStRNummer", TStr "ABR900000000002");
                ("Firmenname", TStr ""); ("error", TStr "not_found")]])).
Proof. reflexivity. Qed.

Example save_marktakteur_csv_mixed :
  @save_marktakteur_csv ascii_builtins mixed_results
  = Raise "dict contains fields not in fieldnames".
Proof. reflexivity. Qed.

Example merge_csvs_MA_mixed :
  @merge_csvs_MA ascii_builtins [actor_row; quoted_actor_row] mixed_results
  = Ok (["MaStR-Nr."; "Name"; "Ort"; "MA_Firmenname"],
        [[("MaStR-Nr.", TStr " ABR900000000001 "); ("Name", TStr "Stadtwerke");
          ("Ort", TStr ""); ("MA_Firmenname", TStr "Stadtwerke")];
         [("MaStR-Nr.", TStr (snd (hd ("", "") quoted_actor_row))); ("Name", TStr "");
          ("Ort", TStr "Kiel"); ("MA_Firmenname", TStr "")]]).
Proof. reflexivity. Qed.

(** ** Flattening in fetch_marktakteur.py *)

Lemma flatten_each_no_mapping {B : Builtins} (l : list Tree) :
  Forall (fun item => forall parent_key sep,
            Forall (fun kv => is_mapping (snd kv) = false)
                   (flatten_dict_MA item parent_key sep)) l ->
  forall (i : nat) (key sep : string),
  Forall (fun kv => is_mapping (snd kv) = false)
         ((fix each (i : nat) (l : list Tree) : Dict :=
             match l with
             | [] => []
             | item :: rest =>
                 flatten_dict_MA item (key ++ "_" ++ PyStr.of_nat i)%string sep
                 ++ each (S i) rest
             end) i l).
Proof.
  induction 1 as [|item l Hitem _ IH]; intros i key sep; [constructor|].
  apply Forall_app. split; [apply Hitem | apply IH].
Qed.

Lemma flatten_dict_MA_no_mapping {B : Builtins} (d : Tree) :
  (forall parent_key sep,
     Forall (fun kv => is_mapping (snd kv) = false) (flatten_dict_MA d parent_key sep)) /\
  match d with
  | TList l =>
      Forall (fun item => forall parent_key sep,
                Forall (fun kv => is_mapping (snd kv) = false)
                       (flatten_dict_MA item parent_key sep)) l
  | _ => True
  end.
Proof.
  induction d as [| | | | |items IH|fields IH] using Tree_nested_ind;
    try solve [split; [intros parent_key sep; simpl;
                       destruct (PyStr.nonempty parent_key); repeat constructor | exact I]].
  - split.
    + intros parent_key sep. simpl.
      destruct (PyStr.nonempty parent_key); repeat constructor.
    + eapply Forall_impl; [|exact IH]. intros item [H _]. exact H.
  - split; [|exact I]. intros parent_key sep.
    rewrite flatten_dict_MA_unfold. unfold PyDict.of_items.
    apply dict_update_values with (P := fun v => is_mapping v = false); [constructor|].
    apply Forall_flat_map. rewrite Forall_forall in IH |- *.
    intros [k v] Hin. specialize (IH (k, v) Hin). simpl in IH |- *.
    destruct IH as [Hv Hitems].
    destruct v as [| | | | |l|fs]; try (repeat constructor).
    + unfold flatten_item_MA. destruct l as [|[| | | | | |fs] rest]; try (repeat constructor).
      exact (flatten_each_no_mapping (TDict fs :: rest) Hitems 0
               (new_key parent_key sep k) sep).
    + apply Hv.
Qed.

(** X17.  What [flatten_dict] of fetch_marktakteur.py returns has distinct
    keys and never a mapping as a value, whatever it is given; a value that
    is no mapping gives the empty mapping when there is no parent key. *)
Theorem flatten_dict_MA_is_flat {B : Builtins} (d : Tree) (parent_key sep : string) :
  NoDup (PyDict.keys (flatten_dict_MA d parent_key sep)) /\
  Forall (fun kv => is_mapping (snd kv) = false) (flatten_dict_MA d parent_key sep) /\
  (is_mapping d = false -> flatten_dict_MA d "" sep = []).
Proof.
  split; [apply flatten_dict_MA_keys_nodup|]. split.
  - apply flatten_dict_MA_no_mapping.
  - destruct d; simpl; auto. discriminate.
Qed.

(** A sequence inside a sequence of mappings is kept as it is, where
    [flatten_dict] of fetch_anlagenbetreiber.py writes its text. *)
Example flatten_dict_MA_keeps_inner_sequence :
  @flatten_dict_MA ascii_builtins
    (TDict [("a", TList [TDict [("b", TInt 1)]; TList [TInt 2]])]) "" "_"
  = [("a_0_b", TInt 1); ("a_1", TList [TInt 2])].
Proof. reflexivity. Qed.
